(** * Parqueadero SLUD: the assignment and availability engine

    A shallow embedding of the rule engine of the parking manager
    (src/js/utils/helpers.js, src/js/utils/constants.js,
    src/js/modules/assignments.js, src/js/modules/parking.js) and the
    properties of it that the specification states.

    Conventions of the embedding.
    - A JavaScript number that is used as an identifier is a [Z]; [NaN]
      only arises from [parseInt] and is [None] of [option Z].
    - A JavaScript string is a [string]; one character stands for one
      UTF-16 code unit wherever a length is observed (plates).  Message and
      day-name constants keep their UTF-8 spelling: only their equality is
      ever observed.
    - [null] and [undefined] are [None]; where the two meet in a strict
      comparison the comparison is written out.
    - Arrays of objects are lists; a reference to an object of an array is
      its index in that array.
    - [getCurrentDate()], [generateId()], [confirm()] and [Date] belong to
      the host: their results are arguments of the operations.
    - The storage service is an external collaborator: the in-memory
      stores are the state, and a write to the storage is taken to
      succeed.
    - The document belongs to the host as well: a handler receives the
      elements it reads, and an element that is not in the document is
      [None] (or [false] for the form itself). *)

From Stdlib Require Import ZArith List String Ascii Bool Lia Permutation.
From Stdlib Require Import DecimalString.
From Stdlib Require Import DecimalNat Sorted.
Import ListNotations.

Open Scope string_scope.
Open Scope Z_scope.

Set Implicit Arguments.

(* ===================================================================== *)
(** * JavaScript primitives used by the sources *)
(* ===================================================================== *)

Module Js.

(** Truthiness of a number-or-null slot: [null], [undefined] and [0] are
    falsy. *)
Definition truthy (v : option Z) : bool :=
  match v with
  | Some z => negb (z =? 0)
  | None => false
  end.

(** Truthiness of a string-or-null slot: the empty string is falsy. *)
Definition truthy_str (v : option string) : bool :=
  match v with
  | Some s => negb (String.eqb s "")
  | None => false
  end.

(** White space skipped by [parseInt] (the single-unit part of it). *)
Definition is_space (c : ascii) : bool :=
  let n := nat_of_ascii c in
  (((9 <=? n) && (n <=? 13)) || (n =? 32) || (n =? 160))%nat.

(** Value of a character as a digit of the given radix. *)
Definition digit_value (radix : Z) (c : ascii) : option Z :=
  let n := Z.of_nat (nat_of_ascii c) in
  let v :=
    if (48 <=? n) && (n <=? 57) then Some (n - 48)
    else if (97 <=? n) && (n <=? 122) then Some (n - 87)
    else if (65 <=? n) && (n <=? 90) then Some (n - 55)
    else None in
  match v with
  | Some d => if d <? radix then Some d else None
  | None => None
  end.

Fixpoint skip_spaces (s : string) : string :=
  match s with
  | String c rest => if is_space c then skip_spaces rest else s
  | EmptyString => s
  end.

(** Longest prefix of digits, accumulated left to right; [None] when the
    prefix is empty. *)
Fixpoint parse_digits (radix : Z) (acc : option Z) (s : string) : option Z :=
  match s with
  | String c rest =>
      match digit_value radix c with
      | Some d =>
          parse_digits radix
            (Some (match acc with Some a => a * radix + d | None => d end))
            rest
      | None => acc
      end
  | EmptyString => acc
  end.

Definition parse_unsigned (s : string) : option Z :=
  match s with
  | String "0" (String x rest) =>
      if (Ascii.eqb x "x" || Ascii.eqb x "X")%bool
      then parse_digits 16 None rest
      else parse_digits 10 None s
  | _ => parse_digits 10 None s
  end.

(** [parseInt(s)] with no radix argument; [None] is [NaN]. *)
Definition parseInt (s : string) : option Z :=
  match skip_spaces s with
  | String "-" rest => option_map Z.opp (parse_unsigned rest)
  | String "+" rest => parse_unsigned rest
  | t => parse_unsigned t
  end.

(** [s.slice(-1)]: the last character, or the empty string. *)
Fixpoint slice_last (s : string) : string :=
  match s with
  | EmptyString => EmptyString
  | String c EmptyString => s
  | String _ rest => slice_last rest
  end.

(** [String(n)] for a natural number. *)
Definition string_of_nat (n : nat) : string :=
  NilEmpty.string_of_uint (Nat.to_uint n).

(** [String(v)] for an integer or [NaN]. *)
Definition string_of_number (v : option Z) : string :=
  match v with
  | None => "NaN"
  | Some z =>
      if z <? 0 then "-" ++ string_of_nat (Z.to_nat (- z))
      else string_of_nat (Z.to_nat z)
  end.

Fixpoint replicate (n : nat) (c : ascii) : string :=
  match n with
  | O => EmptyString
  | S k => String c (replicate k c)
  end.

(** [s.padStart(width, c)] for a one-character filler. *)
Definition padStart (width : nat) (c : ascii) (s : string) : string :=
  replicate (width - String.length s) c ++ s.

End Js.

(* ===================================================================== *)
(** * constants.js *)
(* ===================================================================== *)

Module Constants.

Definition MAX_PARKING_SPACES : nat := 300.

Definition CARRO := "carro".
Definition MOTO := "moto".
Definition BICICLETA := "bicicleta".

Definition DISPONIBLE := "disponible".
Definition OCUPADO := "ocupado".
Definition MANTENIMIENTO := "mantenimiento".

Definition MINUS_ONE := "-1".
Definition MINUS_THREE := "-3".

(** [Object.values(DAYS_OF_WEEK)], in insertion order. *)
Definition DAYS_OF_WEEK : list string :=
  ["domingo"; "lunes"; "martes"; "miércoles"; "jueves"; "viernes"; "sábado"].

Inductive AlertType := SUCCESS | DANGER | WARNING | INFO.

Definition CARROS_S1 : nat := 120.
Definition CARROS_S3 : nat := 120.
Definition MOTOS_S1 : nat := 45.
Definition BICICLETAS_S1 : nat := 15.

(** The property names of [ERROR_MESSAGES] that the assignment module
    reads. *)
Inductive ErrorKey :=
| EMPLOYEE_NOT_FOUND
| PARKING_NOT_FOUND
| EMPLOYEE_ALREADY_ASSIGNED
| PARKING_ALREADY_ASSIGNED
| VEHICLE_TYPE_MISMATCH.

(** Property lookup on [ERROR_MESSAGES]: the object has no
    [EMPLOYEE_NOT_FOUND] and no [PARKING_NOT_FOUND] property, so reading
    them gives [undefined]. *)
Definition ERROR_MESSAGES (k : ErrorKey) : option string :=
  match k with
  | EMPLOYEE_NOT_FOUND => None
  | PARKING_NOT_FOUND => None
  | EMPLOYEE_ALREADY_ASSIGNED =>
      Some "El empleado ya tiene un parqueadero asignado"
  | PARKING_ALREADY_ASSIGNED =>
      Some "El parqueadero ya está asignado a otro empleado"
  | VEHICLE_TYPE_MISMATCH =>
      Some "El tipo de vehículo del empleado no coincide con el tipo de parqueadero"
  end.

Definition PARKING_ASSIGNED := "Parqueadero asignado exitosamente".
Definition ASSIGNMENT_ENDED := "Asignación terminada exitosamente".
Definition AUTO_ASSIGNMENTS_COMPLETED := "Asignaciones automáticas completadas".
Definition BULK_PARKING_GENERATED := "300 parqueaderos generados automáticamente".

End Constants.

(* ===================================================================== *)
(** * The records of the persisted document *)
(* ===================================================================== *)

Record Employee := mkEmployee {
  e_id : Z;
  e_nombre : string;
  e_placa : option string;
  e_tipoVehiculo : string
}.

Record ParkingSpace := mkSpace {
  s_id : Z;
  s_numero : string;
  s_sotano : string;
  s_tipo : string;
  s_estado : string;
  s_empleadoAsignado : option Z;
  s_fechaCreacion : string
}.

Record Assignment := mkAssignment {
  a_id : Z;
  a_empleadoId : Z;
  a_parqueaderoId : Z;
  a_fechaInicio : string;
  a_fechaFin : option string;
  a_activa : bool;
  a_fechaCreacion : string
}.

(** [array.find(pred)] is [List.find]; [array.some(pred)] is [existsb];
    [array.filter(pred)] is [filter]. *)

(* ===================================================================== *)
(** * helpers.js *)
(* ===================================================================== *)

Module Helpers.

Import Constants.

(** [getDayOfWeek(dateString)]: [days[dateObj.getDay()]].  [getDay] is the
    host's [new Date(dateString + 'T00:00:00').getDay()], [None] for an
    invalid date ([NaN]); indexing with [NaN] or out of range gives
    [undefined]. *)
Definition getDayOfWeek (getDay : string -> option nat) (dateString : string)
  : option string :=
  match getDay dateString with
  | Some n => nth_error DAYS_OF_WEEK n
  | None => None
  end.

(** [calculatePicoPlacaDay(placa)]; [None] is the [null] result. *)
Definition calculatePicoPlacaDay (placa : option string) : option string :=
  match placa with
  | None => None
  | Some p =>
      if (String.eqb p "" || (String.length p <? 3)%nat)%bool then None
      else
        let lastDigit := Js.parseInt (Js.slice_last p) in
        match lastDigit with
        | None => None
        | Some d =>
            if (d =? 1) || (d =? 2) then Some "lunes"
            else if (d =? 3) || (d =? 4) then Some "martes"
            else if (d =? 5) || (d =? 6) then Some "miércoles"
            else if (d =? 7) || (d =? 8) then Some "jueves"
            else if (d =? 9) || (d =? 0) then Some "viernes"
            else None
        end
  end.

(** [dayOfWeek === employeePicoPlacaDay]: a string-or-undefined against a
    string-or-null; [undefined === null] is false. *)
Definition same_day (dayOfWeek picoPlacaDay : option string) : bool :=
  match dayOfWeek, picoPlacaDay with
  | Some a, Some b => String.eqb a b
  | _, _ => false
  end.

(** An element of the result arrays: the space spread into a new object,
    with [empleado] (absent in the first array) and [motivo]. *)
Record Entry := mkEntry {
  entry_space : ParkingSpace;
  entry_empleado : option Employee;
  entry_motivo : string
}.

Record Summary := mkSummary {
  totalAvailable : nat;
  normallyAvailable : nat;
  picoPlacaAvailable : nat;
  sum_occupied : nat
}.

Record Availability := mkAvailability {
  available : list Entry;
  picoPlaca : list Entry;
  occupied : list Entry;
  summary : Summary
}.

Definition motivo_picoPlaca (dayOfWeek : option string) : string :=
  "Pico y placa - " ++
  match dayOfWeek with Some d => d | None => "undefined" end.

(** One turn of the [forEach] callback, on the three accumulators. *)
Definition availability_step (employees : list Employee)
    (dayOfWeek : option string)
    (acc : list Entry * list Entry * list Entry) (space : ParkingSpace)
  : list Entry * list Entry * list Entry :=
  let '(availableSpaces, picoPlacaSpaces, occupiedSpaces) := acc in
  if String.eqb (s_estado space) "mantenimiento" then acc
  else if negb (Js.truthy (s_empleadoAsignado space)) then
    ((availableSpaces ++ [mkEntry space None "Sin asignación"])%list,
     picoPlacaSpaces, occupiedSpaces)
  else
    match find (fun emp => match s_empleadoAsignado space with
                           | Some r => e_id emp =? r
                           | None => false
                           end) employees with
    | None =>
        ((availableSpaces ++ [mkEntry space None "Empleado no encontrado"])%list,
         picoPlacaSpaces, occupiedSpaces)
    | Some employee =>
        let employeePicoPlacaDay := calculatePicoPlacaDay (e_placa employee) in
        if same_day dayOfWeek employeePicoPlacaDay then
          (availableSpaces,
           (picoPlacaSpaces ++
              [mkEntry space (Some employee) (motivo_picoPlaca dayOfWeek)])%list,
           occupiedSpaces)
        else
          (availableSpaces, picoPlacaSpaces,
           (occupiedSpaces ++
              [mkEntry space (Some employee) "Ocupado normalmente"])%list)
    end.

Definition calculateDailyAvailability (getDay : string -> option nat)
    (parkingSpaces : list ParkingSpace) (employees : list Employee)
    (date : string) : Availability :=
  let dayOfWeek := getDayOfWeek getDay date in
  let '(availableSpaces, picoPlacaSpaces, occupiedSpaces) :=
    fold_left (availability_step employees dayOfWeek) parkingSpaces
      ([], [], []) in
  {| available := availableSpaces;
     picoPlaca := picoPlacaSpaces;
     occupied := occupiedSpaces;
     summary :=
       {| totalAvailable :=
            (List.length availableSpaces + List.length picoPlacaSpaces)%nat;
          normallyAvailable := List.length availableSpaces;
          picoPlacaAvailable := List.length picoPlacaSpaces;
          sum_occupied := List.length occupiedSpaces |} |}.

(** [typeCode[tipo]] inside the template literal. *)
Definition typeCode (tipo : string) : string :=
  if String.eqb tipo "carro" then "C"
  else if String.eqb tipo "moto" then "M"
  else if String.eqb tipo "bicicleta" then "B"
  else "undefined".

(** [formatParkingNumber(sotano, tipo, numero)]. *)
Definition formatParkingNumber (sotano tipo : string) (numero : nat) : string :=
  let prefix := "S" ++ Js.string_of_number (option_map Z.abs (Js.parseInt sotano)) in
  prefix ++ "-" ++ typeCode tipo ++ Js.padStart 3 "0" (Js.string_of_nat numero).

End Helpers.

(* ===================================================================== *)
(** * Arrays of objects *)
(* ===================================================================== *)

(** [const x = array.find(pred); if (x) { x.field = ... }]: the first
    element that satisfies [pred] is changed in place; the array keeps its
    length and order. *)
Fixpoint update_first {A : Type} (pred : A -> bool) (f : A -> A) (l : list A)
  : list A :=
  match l with
  | [] => []
  | x :: rest => if pred x then f x :: rest else x :: update_first pred f rest
  end.

(** [array.filter(pred)] as an array of references: the indices, in order,
    of the elements that satisfy [pred].  The elements of the filtered array
    are the very objects of [array]. *)
Definition filter_refs {A : Type} (pred : A -> bool) (l : list A) : list nat :=
  filter (fun i => match nth_error l i with
                   | Some x => pred x
                   | None => false
                   end) (seq 0 (List.length l)).

(* ===================================================================== *)
(** * modules/assignments.js: the AssignmentManager *)
(* ===================================================================== *)

Module Assignments.

Import Constants.

Record AssignmentManager := mkManager {
  assignments : list Assignment;
  employees : list Employee;
  parkingSpaces : list ParkingSpace
}.

Record Alert := mkAlert {
  alert_message : option string;
  alert_type : AlertType
}.

(** The assignment form in the document: whether the element
    [asignacionForm] is there, and the values of its four inputs; [None]
    when the input is missing ([?.value] is [undefined]). *)
Record FormFields := mkFields {
  asignacionForm : bool;
  empleadoAsignacion : option string;
  parqueaderoAsignacion : option string;
  fechaInicioField : option string;
  fechaFinField : option string
}.

(** The object built by [getFormData]: the two ids come out of [parseInt]
    and may be [NaN]. *)
Record RawFormData := mkRaw {
  raw_empleadoId : option Z;
  raw_parqueaderoId : option Z;
  raw_fechaInicio : string;
  raw_fechaFin : option string
}.

(** The same object once both ids are known to be numbers. *)
Record FormData := mkForm {
  empleadoId : Z;
  parqueaderoId : Z;
  fechaInicio : string;
  fechaFin : option string
}.

Definition getFormData (today : string) (dom : FormFields) : RawFormData :=
  {| raw_empleadoId :=
       match empleadoAsignacion dom with
       | Some v => Js.parseInt v
       | None => None
       end;
     raw_parqueaderoId :=
       match parqueaderoAsignacion dom with
       | Some v => Js.parseInt v
       | None => None
       end;
     raw_fechaInicio :=
       match fechaInicioField dom with
       | Some v => if String.eqb v "" then today else v
       | None => today
       end;
     raw_fechaFin :=
       if Js.truthy_str (fechaFinField dom) then fechaFinField dom else None |}.

(** [validateAssignmentData(data)]: the conjunction is truthy when both ids
    are non-zero numbers and the start date is not empty; the data are then
    returned with their ids as numbers. *)
Definition validateAssignmentData (data : RawFormData) : option FormData :=
  match raw_empleadoId data, raw_parqueaderoId data with
  | Some e, Some p =>
      if Js.truthy (Some e) && Js.truthy (Some p)
         && Js.truthy_str (Some (raw_fechaInicio data))
      then Some {| empleadoId := e; parqueaderoId := p;
                   fechaInicio := raw_fechaInicio data;
                   fechaFin := raw_fechaFin data |}
      else None
  | _, _ => None
  end.

Record Validation := mkValidation {
  isValid : bool;
  message : option string
}.

Definition validateAssignment (st : AssignmentManager) (formData : FormData)
  : Validation :=
  match find (fun emp => e_id emp =? empleadoId formData) (employees st) with
  | None => {| isValid := false; message := ERROR_MESSAGES EMPLOYEE_NOT_FOUND |}
  | Some employee =>
      match find (fun space => s_id space =? parqueaderoId formData)
                 (parkingSpaces st) with
      | None =>
          {| isValid := false; message := ERROR_MESSAGES PARKING_NOT_FOUND |}
      | Some parkingSpace =>
          match find (fun assignment =>
                        (a_empleadoId assignment =? empleadoId formData)
                        && a_activa assignment) (assignments st) with
          | Some existingAssignment =>
              {| isValid := false;
                 message := ERROR_MESSAGES EMPLOYEE_ALREADY_ASSIGNED |}
          | None =>
              match find (fun assignment =>
                            (a_parqueaderoId assignment =? parqueaderoId formData)
                            && a_activa assignment) (assignments st) with
              | Some parkingAssignment =>
                  {| isValid := false;
                     message := ERROR_MESSAGES PARKING_ALREADY_ASSIGNED |}
              | None =>
                  if negb (String.eqb (e_tipoVehiculo employee)
                                      (s_tipo parkingSpace))
                  then {| isValid := false;
                          message := ERROR_MESSAGES VEHICLE_TYPE_MISMATCH |}
                  else {| isValid := true; message := None |}
              end
          end
      end
  end.

(** [createAssignment(formData)]: the space found by id is marked in place,
    then the new record is pushed. *)
Definition createAssignment (today : string) (newId : Z) (formData : FormData)
    (st : AssignmentManager) : AssignmentManager :=
  let assignment :=
    {| a_id := newId;
       a_empleadoId := empleadoId formData;
       a_parqueaderoId := parqueaderoId formData;
       a_fechaInicio := fechaInicio formData;
       a_fechaFin := fechaFin formData;
       a_activa := true;
       a_fechaCreacion := today |} in
  {| assignments := (assignments st ++ [assignment])%list;
     employees := employees st;
     parkingSpaces :=
       update_first (fun space => s_id space =? parqueaderoId formData)
         (fun parkingSpace =>
            {| s_id := s_id parkingSpace;
               s_numero := s_numero parkingSpace;
               s_sotano := s_sotano parkingSpace;
               s_tipo := s_tipo parkingSpace;
               s_estado := OCUPADO;
               s_empleadoAsignado := Some (empleadoId formData);
               s_fechaCreacion := s_fechaCreacion parkingSpace |})
         (parkingSpaces st) |}.

(** [clearForm()]: when the form is in the document it is reset and the
    value of the input [fechaInicio] is set to today.  The result is
    [false] when the call throws: the form is there and the input is not,
    and the assignment to [.value] of [null] is a [TypeError]. *)
Definition clearForm (dom : FormFields) : bool :=
  if asignacionForm dom then
    match fechaInicioField dom with
    | Some _ => true
    | None => false
    end
  else true.

(** [handleFormSubmit(event)].  The body runs inside [try]: when
    [clearForm] throws, after the assignment has been created, the [catch]
    shows its own alert. *)
Definition handleFormSubmit (today : string) (newId : Z) (dom : FormFields)
    (st : AssignmentManager) : AssignmentManager * list Alert :=
  let formData := getFormData today dom in
  match validateAssignmentData formData with
  | None =>
      (st, [mkAlert (Some "Por favor complete todos los campos requeridos")
              DANGER])
  | Some formData =>
      let validation := validateAssignment st formData in
      if negb (isValid validation) then
        (st, [mkAlert (message validation) DANGER])
      else
        let st' := createAssignment today newId formData st in
        if clearForm dom then
          (st', [mkAlert (Some PARKING_ASSIGNED) SUCCESS])
        else
          (st', [mkAlert (Some "Error al crear asignación") DANGER])
  end.

Definition end_record (today : string) (assignment : Assignment) : Assignment :=
  {| a_id := a_id assignment;
     a_empleadoId := a_empleadoId assignment;
     a_parqueaderoId := a_parqueaderoId assignment;
     a_fechaInicio := a_fechaInicio assignment;
     a_fechaFin := Some today;
     a_activa := false;
     a_fechaCreacion := a_fechaCreacion assignment |}.

Definition free_space (parkingSpace : ParkingSpace) : ParkingSpace :=
  {| s_id := s_id parkingSpace;
     s_numero := s_numero parkingSpace;
     s_sotano := s_sotano parkingSpace;
     s_tipo := s_tipo parkingSpace;
     s_estado := DISPONIBLE;
     s_empleadoAsignado := None;
     s_fechaCreacion := s_fechaCreacion parkingSpace |}.

(** [endAssignment(assignmentId)]; [confirmed] is the answer to the
    [confirm] dialog, asked only when the assignment is found. *)
Definition endAssignment (confirmed : bool) (today : string) (assignmentId : Z)
    (st : AssignmentManager) : AssignmentManager * list Alert :=
  match find (fun a => a_id a =? assignmentId) (assignments st) with
  | None => (st, [])
  | Some assignment =>
      if negb confirmed then (st, [])
      else
        ({| assignments :=
              update_first (fun a => a_id a =? assignmentId) (end_record today)
                (assignments st);
            employees := employees st;
            parkingSpaces :=
              update_first
                (fun space => s_id space =? a_parqueaderoId assignment)
                free_space (parkingSpaces st) |},
         [mkAlert (Some ASSIGNMENT_ENDED) SUCCESS])
  end.

Definition has_active_employee (asgs : list Assignment) (id : Z) : bool :=
  existsb (fun a => (a_empleadoId a =? id) && a_activa a) asgs.

Definition has_active_space (asgs : list Assignment) (id : Z) : bool :=
  existsb (fun a => (a_parqueaderoId a =? id) && a_activa a) asgs.

(** The body of [for (const employee of unassignedEmployees)].
    [availableSpaces] holds references into [parkingSpaces]; the filter
    reads the objects as they are now.  [assignmentCount] also counts the
    calls of [generateId] so far. *)
Fixpoint autoAssignLoop (today : string) (genId : nat -> Z)
    (availableSpaces : list nat) (unassignedEmployees : list Employee)
    (st : AssignmentManager) (assignmentCount : nat)
  : AssignmentManager * nat :=
  match unassignedEmployees with
  | [] => (st, assignmentCount)
  | employee :: rest =>
      let compatibleSpaces :=
        filter (fun ref =>
                  match nth_error (parkingSpaces st) ref with
                  | Some space =>
                      String.eqb (s_tipo space) (e_tipoVehiculo employee)
                      && negb (Js.truthy (s_empleadoAsignado space))
                  | None => false
                  end) availableSpaces in
      match compatibleSpaces with
      | ref :: _ =>
          match nth_error (parkingSpaces st) ref with
          | Some space =>
              autoAssignLoop today genId availableSpaces rest
                (createAssignment today (genId assignmentCount)
                   {| empleadoId := e_id employee;
                      parqueaderoId := s_id space;
                      fechaInicio := today;
                      fechaFin := None |} st)
                (S assignmentCount)
          | None => autoAssignLoop today genId availableSpaces rest st
                      assignmentCount
          end
      | [] => autoAssignLoop today genId availableSpaces rest st assignmentCount
      end
  end.

Definition unassigned (st : AssignmentManager) : list Employee :=
  filter (fun emp => negb (has_active_employee (assignments st) (e_id emp)))
    (employees st).

Definition available_refs (st : AssignmentManager) : list nat :=
  filter_refs (fun space =>
                 String.eqb (s_estado space) DISPONIBLE
                 && negb (has_active_space (assignments st) (s_id space)))
    (parkingSpaces st).

Definition auto_message (assignmentCount : nat) : string :=
  AUTO_ASSIGNMENTS_COMPLETED ++ ": " ++ Js.string_of_nat assignmentCount
  ++ " asignaciones".

Definition performAutoAssignment (confirmed : bool) (today : string)
    (genId : nat -> Z) (st : AssignmentManager)
  : AssignmentManager * list Alert :=
  let unassignedEmployees := unassigned st in
  match unassignedEmployees with
  | [] => (st, [mkAlert (Some "No hay empleados sin asignar") INFO])
  | _ :: _ =>
      let availableSpaces := available_refs st in
      match availableSpaces with
      | [] => (st, [mkAlert (Some "No hay parqueaderos disponibles") INFO])
      | _ :: _ =>
          if negb confirmed then (st, [])
          else
            let '(st', assignmentCount) :=
              autoAssignLoop today genId availableSpaces unassignedEmployees
                st 0 in
            (st', [mkAlert (Some (auto_message assignmentCount)) SUCCESS])
      end
  end.

Definition onEmployeeAdded (employee : Employee) (st : AssignmentManager)
  : AssignmentManager :=
  {| assignments := assignments st;
     employees := (employees st ++ [employee])%list;
     parkingSpaces := parkingSpaces st |}.

Definition onParkingSpaceAdded (space : ParkingSpace) (st : AssignmentManager)
  : AssignmentManager :=
  {| assignments := assignments st;
     employees := employees st;
     parkingSpaces := (parkingSpaces st ++ [space])%list |}.

(** [employeeAssignments.forEach(a => this.endAssignment(a.id))]: the k-th
    call asks its own [confirm] dialog, answered by [confirms k]. *)
Fixpoint endAll (confirms : nat -> bool) (today : string) (k : nat)
    (employeeAssignments : list Assignment) (st : AssignmentManager)
  : AssignmentManager :=
  match employeeAssignments with
  | [] => st
  | assignment :: rest =>
      endAll confirms today (S k) rest
        (fst (endAssignment (confirms k) today (a_id assignment) st))
  end.

Definition onEmployeeDeleted (confirms : nat -> bool) (today : string)
    (id : Z) (st : AssignmentManager) : AssignmentManager :=
  let st1 :=
    {| assignments := assignments st;
       employees := filter (fun emp => negb (e_id emp =? id)) (employees st);
       parkingSpaces := parkingSpaces st |} in
  let employeeAssignments :=
    filter (fun a => (a_empleadoId a =? id) && a_activa a) (assignments st1) in
  endAll confirms today 0 employeeAssignments st1.

(** The custom events dispatched on [window] by the three managers. *)
Inductive Event :=
| employeeAdded (detail : Employee)
| employeeDeleted (id : Z)
| parkingSpaceAdded (detail : ParkingSpace)
| parkingSpaceDeleted (id : Z)
| bulkParkingGenerated (count : nat).

(** The listeners registered by [bindEvents]: [employeeAdded],
    [employeeDeleted] and [parkingSpaceAdded]; any other event reaches no
    listener of the manager. *)
Definition dispatchEvent (confirms : nat -> bool) (today : string)
    (ev : Event) (st : AssignmentManager) : AssignmentManager :=
  match ev with
  | employeeAdded detail => onEmployeeAdded detail st
  | employeeDeleted id => onEmployeeDeleted confirms today id st
  | parkingSpaceAdded detail => onParkingSpaceAdded detail st
  | _ => st
  end.

End Assignments.

(* ===================================================================== *)
(** * modules/parking.js: the ParkingManager *)
(* ===================================================================== *)

Module Parking.

Import Constants.

(** The store of the manager is its [parkingSpaces] array. *)
Definition ParkingManager := list ParkingSpace.

Record Distribution := mkDistribution {
  carrosS1 : nat;
  carrosS3 : nat;
  motos : nat;
  bicicletas : nat
}.

(** [calculateDistribution(totalSpaces)]: the argument is not read. *)
Definition calculateDistribution (totalSpaces : nat) : Distribution :=
  {| carrosS1 := CARROS_S1;
     carrosS3 := CARROS_S3;
     motos := MOTOS_S1;
     bicicletas := BICICLETAS_S1 |}.

Definition getNextSequentialNumber (parkingSpaces : ParkingManager)
    (type basement : string) : nat :=
  let existingSpaces :=
    filter (fun space => String.eqb (s_tipo space) type
                         && String.eqb (s_sotano space) basement)
      parkingSpaces in
  (List.length existingSpaces + 1)%nat.

Record SpaceType := mkSpaceType {
  st_type : string;
  st_basement : string;
  st_count : nat;
  st_prefix : string
}.

Definition spaceTypes (distribution : Distribution) : list SpaceType :=
  [ mkSpaceType CARRO MINUS_ONE (carrosS1 distribution) "C";
    mkSpaceType CARRO MINUS_THREE (carrosS3 distribution) "C";
    mkSpaceType MOTO MINUS_ONE (motos distribution) "M";
    mkSpaceType BICICLETA MINUS_ONE (bicicletas distribution) "B" ].

(** One turn of [for (let i = 1; i <= count; i++)]: the state is
    [newSpaces] and [idCounter]; [parkingSpaces] is the array of the
    manager, which the loop reads and does not write.  The k-th call of
    [generateId] returns [genId k]. *)
Definition generate_one (today : string) (genId : nat -> Z)
    (parkingSpaces : ParkingManager) (b : SpaceType)
    (acc : list ParkingSpace * nat) (i : nat) : list ParkingSpace * nat :=
  let '(newSpaces, idCounter) := acc in
  let numero :=
    Helpers.formatParkingNumber (st_basement b) (st_type b)
      (getNextSequentialNumber parkingSpaces (st_type b) (st_basement b)) in
  ((newSpaces ++
     [ {| s_id := genId idCounter + Z.of_nat idCounter;
          s_numero := numero;
          s_sotano := st_basement b;
          s_tipo := st_type b;
          s_estado := DISPONIBLE;
          s_empleadoAsignado := None;
          s_fechaCreacion := today |} ])%list,
   S idCounter).

Definition generate_bucket (today : string) (genId : nat -> Z)
    (parkingSpaces : ParkingManager) (acc : list ParkingSpace * nat)
    (b : SpaceType) : list ParkingSpace * nat :=
  fold_left (generate_one today genId parkingSpaces b) (seq 1 (st_count b)) acc.

(** The spaces built by [generateParkingSpaces] before they are pushed. *)
Definition newSpaces (today : string) (genId : nat -> Z) (totalSpaces : nat)
    (parkingSpaces : ParkingManager) : list ParkingSpace :=
  let distribution := calculateDistribution totalSpaces in
  fst (fold_left (generate_bucket today genId parkingSpaces)
         (spaceTypes distribution) ([], 0%nat)).

Definition generateParkingSpaces (today : string) (genId : nat -> Z)
    (totalSpaces : nat) (parkingSpaces : ParkingManager)
  : ParkingManager * list Assignments.Event :=
  let created := newSpaces today genId totalSpaces parkingSpaces in
  ((parkingSpaces ++ created)%list,
   [Assignments.bulkParkingGenerated (List.length created)]).

Definition bulk_message (remainingSpaces : nat) : string :=
  BULK_PARKING_GENERATED ++ ": " ++ Js.string_of_nat remainingSpaces
  ++ " parqueaderos".

Definition full_message (maxSpaces : nat) : string :=
  "Ya existen " ++ Js.string_of_nat maxSpaces
  ++ " parqueaderos. No se pueden generar más.".

Definition handleBulkGenerate (confirmed : bool) (today : string)
    (genId : nat -> Z) (parkingSpaces : ParkingManager)
  : ParkingManager * list Assignments.Alert :=
  let currentCount := List.length parkingSpaces in
  let maxSpaces := MAX_PARKING_SPACES in
  if (maxSpaces <=? currentCount)%nat then
    (parkingSpaces, [Assignments.mkAlert (Some (full_message maxSpaces)) WARNING])
  else
    let remainingSpaces := (maxSpaces - currentCount)%nat in
    if negb confirmed then (parkingSpaces, [])
    else
      (fst (generateParkingSpaces today genId remainingSpaces parkingSpaces),
       [Assignments.mkAlert (Some (bulk_message remainingSpaces)) SUCCESS]).

(** [deleteParkingSpace(id)]: the store after the call and the events it
    dispatches. *)
Definition deleteParkingSpace (confirmed : bool) (id : Z)
    (parkingSpaces : ParkingManager)
  : ParkingManager * list Assignments.Event :=
  match find (fun space => s_id space =? id) parkingSpaces with
  | None => (parkingSpaces, [])
  | Some space =>
      if negb confirmed then (parkingSpaces, [])
      else
        (filter (fun space => negb (s_id space =? id)) parkingSpaces,
         [Assignments.parkingSpaceDeleted id])
  end.

End Parking.

(* ===================================================================== *)
(** * The two managers side by side *)
(* ===================================================================== *)

Module App.

Record Stores := mkStores {
  parking : Parking.ParkingManager;
  manager : Assignments.AssignmentManager
}.

(** Events dispatched on [window] are delivered, in order, to the listeners
    of the assignment manager. *)
Definition deliver (confirms : nat -> bool) (today : string)
    (events : list Assignments.Event) (st : Assignments.AssignmentManager)
  : Assignments.AssignmentManager :=
  fold_left (fun s ev => Assignments.dispatchEvent confirms today ev s)
    events st.

(** Deleting a parking space from the parking tab. *)
Definition deleteParkingSpace (confirmed : bool) (confirms : nat -> bool)
    (today : string) (id : Z) (w : Stores) : Stores :=
  let '(spaces, events) := Parking.deleteParkingSpace confirmed id (parking w) in
  {| parking := spaces;
     manager := deliver confirms today events (manager w) |}.

End App.

(* ===================================================================== *)
(** * The specification's own readings, for comparison with the code *)
(* ===================================================================== *)

Module Spec.

Import Constants Assignments.

(** The five weekdays of the restriction calendar. *)
Definition weekdays : list string :=
  ["lunes"; "martes"; "miércoles"; "jueves"; "viernes"].

(** The calendar table of section 4.1, keyed by a digit. *)
Definition day_of_digit (d : Z) : option string :=
  match d with
  | 1 | 2 => Some "lunes"
  | 3 | 4 => Some "martes"
  | 5 | 6 => Some "miércoles"
  | 7 | 8 => Some "jueves"
  | 9 | 0 => Some "viernes"
  | _ => None
  end.

(** The decimal digit a character denotes, if it is one. *)
Definition decimal_digit (c : ascii) : option Z :=
  let n := Z.of_nat (nat_of_ascii c) in
  if (48 <=? n) && (n <=? 57) then Some (n - 48) else None.

(** The last character of a string. *)
Fixpoint last_char (s : string) : option ascii :=
  match s with
  | EmptyString => None
  | String c EmptyString => Some c
  | String _ rest => last_char rest
  end.

(** The name of the day of the week with a given index, Sunday being 0. *)
Definition weekday_name (n : nat) : option string :=
  match n with
  | 0%nat => Some "domingo"
  | 1%nat => Some "lunes"
  | 2%nat => Some "martes"
  | 3%nat => Some "miércoles"
  | 4%nat => Some "jueves"
  | 5%nat => Some "viernes"
  | 6%nat => Some "sábado"
  | _ => None
  end.

(** The weekday of a date; [getDay] is the index the host gives to the
    date, none when the date is invalid. *)
Definition weekday_of_date (getDay : string -> option nat) (date : string)
  : option string :=
  match getDay date with
  | Some n => weekday_name n
  | None => None
  end.

(** The restriction day of a plate, by the calendar of section 4.1: none
    when the plate is absent, shorter than three characters or does not end
    in a digit. *)
Definition restriction_day (placa : option string) : option string :=
  match placa with
  | None => None
  | Some p =>
      if (String.length p <? 3)%nat then None
      else match last_char p with
           | Some c =>
               match decimal_digit c with
               | Some d => day_of_digit d
               | None => None
               end
           | None => None
           end
  end.

(** A plate is restricted on a date when its restriction day is the
    weekday of the date. *)
Definition restricted_on (getDay : string -> option nat) (date : string)
    (placa : option string) : Prop :=
  exists w, weekday_of_date getDay date = Some w
            /\ restriction_day placa = Some w.

(** The reasons of section 4.3 for which a pair is rejected. *)
Definition Rejected (st : AssignmentManager) (formData : FormData) : Prop :=
  find (fun emp => e_id emp =? empleadoId formData) (employees st) = None
  \/ find (fun space => s_id space =? parqueaderoId formData)
       (parkingSpaces st) = None
  \/ (exists a, In a (assignments st)
                /\ a_empleadoId a = empleadoId formData /\ a_activa a = true)
  \/ (exists a, In a (assignments st)
                /\ a_parqueaderoId a = parqueaderoId formData
                /\ a_activa a = true)
  \/ (exists employee space,
        find (fun emp => e_id emp =? empleadoId formData) (employees st)
          = Some employee
        /\ find (fun space => s_id space =? parqueaderoId formData)
             (parkingSpaces st) = Some space
        /\ e_tipoVehiculo employee <> s_tipo space).

(** Section 4.3, last sentence: the automatic path with the validator run
    before each creation.  The loop of the code, with the check added. *)
Fixpoint autoAssignLoop_validated (today : string) (genId : nat -> Z)
    (availableSpaces : list nat) (unassignedEmployees : list Employee)
    (st : AssignmentManager) (assignmentCount : nat)
  : AssignmentManager * nat :=
  match unassignedEmployees with
  | [] => (st, assignmentCount)
  | employee :: rest =>
      let compatibleSpaces :=
        filter (fun ref =>
                  match nth_error (parkingSpaces st) ref with
                  | Some space =>
                      String.eqb (s_tipo space) (e_tipoVehiculo employee)
                      && negb (Js.truthy (s_empleadoAsignado space))
                  | None => false
                  end) availableSpaces in
      match compatibleSpaces with
      | ref :: _ =>
          match nth_error (parkingSpaces st) ref with
          | Some space =>
              let formData :=
                {| empleadoId := e_id employee;
                   parqueaderoId := s_id space;
                   fechaInicio := today;
                   fechaFin := None |} in
              if isValid (validateAssignment st formData) then
                autoAssignLoop_validated today genId availableSpaces rest
                  (createAssignment today (genId assignmentCount) formData st)
                  (S assignmentCount)
              else
                autoAssignLoop_validated today genId availableSpaces rest st
                  assignmentCount
          | None => autoAssignLoop_validated today genId availableSpaces rest
                      st assignmentCount
          end
      | [] => autoAssignLoop_validated today genId availableSpaces rest st
                assignmentCount
      end
  end.

(** Change the element at a position. *)
Fixpoint update_at {A : Type} (i : nat) (f : A -> A) (l : list A) : list A :=
  match l, i with
  | [], _ => []
  | x :: rest, O => f x :: rest
  | x :: rest, S k => x :: update_at k f rest
  end.

(** Section 4.4 applied to an employee and the space at a position: an
    active record from today, the space occupied by the employee. *)
Definition assign_at (today : string) (newId : Z) (employee : Employee)
    (ref : nat) (st : AssignmentManager) : AssignmentManager :=
  match nth_error (parkingSpaces st) ref with
  | None => st
  | Some space =>
      {| assignments :=
           (assignments st ++
              [ {| a_id := newId;
                   a_empleadoId := e_id employee;
                   a_parqueaderoId := s_id space;
                   a_fechaInicio := today;
                   a_fechaFin := None;
                   a_activa := true;
                   a_fechaCreacion := today |} ])%list;
         employees := employees st;
         parkingSpaces :=
           update_at ref
             (fun s => {| s_id := s_id s;
                          s_numero := s_numero s;
                          s_sotano := s_sotano s;
                          s_tipo := s_tipo s;
                          s_estado := OCUPADO;
                          s_empleadoAsignado := Some (e_id employee);
                          s_fechaCreacion := s_fechaCreacion s |})
             (parkingSpaces st) |}
  end.



(** An employee is unassigned when no active assignment names the
    employee. *)
Definition is_unassigned (asgs : list Assignment) (employee : Employee) : bool :=
  forallb (fun a => negb (a_activa a)
                    || negb (a_empleadoId a =? e_id employee)) asgs.



Definition unassigned_employees (st : AssignmentManager) : list Employee :=
  filter (is_unassigned (assignments st)) (employees st).


(** No two generated spaces carry the same display number. *)
Definition unique_numbers (spaces : list ParkingSpace) : Prop :=
  NoDup (map s_numero spaces).

(** Number of spaces of a bucket. *)
Definition count_bucket (type basement : string) (spaces : list ParkingSpace)
  : nat :=
  List.length
    (filter (fun space => String.eqb (s_tipo space) type
                          && String.eqb (s_sotano space) basement) spaces).

(** The four classes of section 4.2. *)
Inductive Class := Available | Restricted | Occupied | Maintenance.

Definition Class_eqb (a b : Class) : bool :=
  match a, b with
  | Available, Available | Restricted, Restricted
  | Occupied, Occupied | Maintenance, Maintenance => true
  | _, _ => false
  end.

(** The employee a space refers to, in a roster. *)
Definition assigned_employee (employees : list Employee) (space : ParkingSpace)
  : option Employee :=
  match s_empleadoAsignado space with
  | Some r => find (fun emp => e_id emp =? r) employees
  | None => None
  end.

(** The class of a space on a day: maintenance first; then available when
    the space refers to no employee of the roster; then by the restriction
    day of the employee it refers to. *)
Definition class_of (employees : list Employee) (dayOfWeek : option string)
    (space : ParkingSpace) : Class :=
  if String.eqb (s_estado space) MANTENIMIENTO then Maintenance
  else if negb (Js.truthy (s_empleadoAsignado space)) then Available
  else match assigned_employee employees space with
       | None => Available
       | Some employee =>
           if Helpers.same_day dayOfWeek
                (Helpers.calculatePicoPlacaDay (e_placa employee))
           then Restricted else Occupied
       end.

(** The spaces of a class, in roster order. *)
Definition in_class (employees : list Employee) (dayOfWeek : option string)
    (c : Class) (spaces : list ParkingSpace) : list ParkingSpace :=
  filter (fun space => Class_eqb (class_of employees dayOfWeek space) c) spaces.

(** The element pushed for a space of a class: the space, the employee it
    refers to (none in the first array) and the reason. *)
Definition entry_of (employees : list Employee) (dayOfWeek : option string)
    (space : ParkingSpace) : Helpers.Entry :=
  match class_of employees dayOfWeek space with
  | Available =>
      Helpers.mkEntry space None
        (if negb (Js.truthy (s_empleadoAsignado space)) then "Sin asignación"
         else "Empleado no encontrado")
  | Restricted =>
      Helpers.mkEntry space (assigned_employee employees space)
        (Helpers.motivo_picoPlaca dayOfWeek)
  | _ =>
      Helpers.mkEntry space (assigned_employee employees space)
        "Ocupado normalmente"
  end.

(** The automatic path of the code with the validated loop in place of
    its own. *)
Definition performAutoAssignment_validated (confirmed : bool) (today : string)
    (genId : nat -> Z) (st : AssignmentManager)
  : AssignmentManager * list Alert :=
  match unassigned st with
  | [] => (st, [mkAlert (Some "No hay empleados sin asignar") INFO])
  | _ :: _ =>
      match available_refs st with
      | [] => (st, [mkAlert (Some "No hay parqueaderos disponibles") INFO])
      | _ :: _ =>
          if negb confirmed then (st, [])
          else
            let '(st', assignmentCount) :=
              autoAssignLoop_validated today genId (available_refs st)
                (unassigned st) st 0 in
            (st', [mkAlert (Some (auto_message assignmentCount)) SUCCESS])
      end
  end.

(** Identity of the records (section 3): no two spaces, and no two
    employees, share an id. *)
Definition distinct_space_ids (st : AssignmentManager) : Prop :=
  NoDup (map s_id (parkingSpaces st)).

Definition distinct_employee_ids (st : AssignmentManager) : Prop :=
  NoDup (map e_id (employees st)).

(** Every employee id is a non-zero number, as [validateAssignmentData]
    requires of the ids of the form. *)
Definition nonzero_employee_ids (st : AssignmentManager) : Prop :=
  forall e, In e (employees st) -> e_id e <> 0.


(** The display number the generation loop computes for a bucket: the
    count is taken on the store of the manager, which the loop does not
    extend until it is over. *)
Definition bucket_number (existing : Parking.ParkingManager)
    (b : Parking.SpaceType) : string :=
  Helpers.formatParkingNumber (Parking.st_basement b) (Parking.st_type b)
    (Parking.getNextSequentialNumber existing (Parking.st_type b)
       (Parking.st_basement b)).

End Spec.

(* ===================================================================== *)
(** * More JavaScript string primitives *)
(* ===================================================================== *)

Module JsStr.

(** [s.trimEnd()], on the white space of [Js.is_space]. *)
Fixpoint trimEnd (s : string) : string :=
  match s with
  | EmptyString => EmptyString
  | String c rest =>
      match trimEnd rest with
      | EmptyString => if Js.is_space c then EmptyString
                       else String c EmptyString
      | t => String c t
      end
  end.

(** [s.trim()]. *)
Definition trim (s : string) : string := trimEnd (Js.skip_spaces s).

(** [s.replace(/[<>]/g, '')]. *)
Fixpoint remove_angles (s : string) : string :=
  match s with
  | EmptyString => EmptyString
  | String c rest =>
      if (Ascii.eqb c "<" || Ascii.eqb c ">")%bool then remove_angles rest
      else String c (remove_angles rest)
  end.

(** Lower case of a single-byte character: A to Z and the accented capitals
    192 to 222, the multiplication sign 215 apart, move up by 32. *)
Definition lower_char (c : ascii) : ascii :=
  let n := nat_of_ascii c in
  if (((65 <=? n) && (n <=? 90))
      || ((192 <=? n) && (n <=? 222) && negb (n =? 215)))%nat
  then ascii_of_nat (n + 32)
  else c.

(** [s.toLowerCase()]. *)
Fixpoint toLowerCase (s : string) : string :=
  match s with
  | EmptyString => EmptyString
  | String c rest => String (lower_char c) (toLowerCase rest)
  end.

(** [s.includes(sub)]. *)
Fixpoint includes (s sub : string) : bool :=
  (String.prefix sub s
   || match s with
      | EmptyString => false
      | String _ rest => includes rest sub
      end)%bool.

(** The code units of the upper case of a character.  [Some c] is a
    single-byte unit; [None] stands for a unit above 255 (the upper case of
    the micro sign 181 and of the y with diaeresis 255).  The sharp s 223
    becomes the two letters SS. *)
Definition upper_units (c : ascii) : list (option ascii) :=
  let n := nat_of_ascii c in
  if ((97 <=? n) && (n <=? 122))%nat then [Some (ascii_of_nat (n - 32))]
  else if ((224 <=? n) && (n <=? 254) && negb (n =? 247))%nat
       then [Some (ascii_of_nat (n - 32))]
  else if (n =? 223)%nat then [Some "S"%char; Some "S"%char]
  else if ((n =? 181) || (n =? 255))%nat then [None]
  else [Some c].

(** The code units of [s.toUpperCase()]. *)
Fixpoint toUpperCase_units (s : string) : list (option ascii) :=
  match s with
  | EmptyString => []
  | String c rest => (upper_units c ++ toUpperCase_units rest)%list
  end.

Definition is_capital (u : option ascii) : bool :=
  match u with
  | Some c => let n := nat_of_ascii c in ((65 <=? n) && (n <=? 90))%nat
  | None => false
  end.

Definition is_digit (u : option ascii) : bool :=
  match u with
  | Some c => let n := nat_of_ascii c in ((48 <=? n) && (n <=? 57))%nat
  | None => false
  end.

(** [/^[A-Z]{3}[0-9]{3}$/.test(...)] on a sequence of code units. *)
Definition PLATE_REGEX (units : list (option ascii)) : bool :=
  match units with
  | [a; b; c; x; y; z] =>
      is_capital a && is_capital b && is_capital c
      && is_digit x && is_digit y && is_digit z
  | _ => false
  end.

(** [/^[0-9]{10}$/.test(s)]. *)
Definition PHONE_REGEX (s : string) : bool :=
  (String.length s =? 10)%nat
  && forallb (fun c => is_digit (Some c)) (list_ascii_of_string s).

End JsStr.

(* ===================================================================== *)
(** * helpers.js, continued *)
(* ===================================================================== *)

Module HelpersMore.

Import Constants.

(** [isTodayPicoPlaca(placa)]; [today] is [getCurrentDate()]. *)
Definition isTodayPicoPlaca (getDay : string -> option nat) (today : string)
    (placa : option string) : bool :=
  let todayName := Helpers.getDayOfWeek getDay today in
  let picoPlacaDay := Helpers.calculatePicoPlacaDay placa in
  Helpers.same_day todayName picoPlacaDay.

(** [sanitizeString(input)]; [None] is a missing value. *)
Definition sanitizeString (input : option string) : string :=
  match input with
  | None => ""
  | Some s =>
      if String.eqb s "" then "" else JsStr.remove_angles (JsStr.trim s)
  end.

(** The fields [validateEmployeeData] reads. *)
Record EmployeeData := mkEmployeeData {
  d_nombre : option string;
  d_cedula : option string;
  d_placa : option string;
  d_tipoVehiculo : option string;
  d_telefono : option string
}.

Definition MIN_NAME_LENGTH : nat := 2.
Definition MAX_NAME_LENGTH : nat := 50.
Definition MIN_CEDULA_LENGTH : nat := 6.
Definition MAX_CEDULA_LENGTH : nat := 15.

(** [!field?.trim()]. *)
Definition blank (field : option string) : bool :=
  match field with
  | None => true
  | Some s => String.eqb (JsStr.trim s) ""
  end.

Definition between_message (what : string) (lo hi : nat) : string :=
  what ++ " debe tener entre " ++ Js.string_of_nat lo ++ " y "
  ++ Js.string_of_nat hi ++ " caracteres".

(** [field && (field.trim().length < lo || field.trim().length > hi)]. *)
Definition bad_length (field : option string) (lo hi : nat) : bool :=
  Js.truthy_str field
  && match field with
     | Some s =>
         let n := String.length (JsStr.trim s) in
         ((n <? lo) || (hi <? n))%nat
     | None => false
     end.

Record FormValidation := mkFormValidation {
  fv_isValid : bool;
  fv_errors : list string
}.

(** [validateEmployeeData(employeeData)]: the errors in the order they are
    pushed. *)
Definition validateEmployeeData (employeeData : EmployeeData)
  : FormValidation :=
  let nombre := d_nombre employeeData in
  let cedula := d_cedula employeeData in
  let placa := d_placa employeeData in
  let tipoVehiculo := d_tipoVehiculo employeeData in
  let telefono := d_telefono employeeData in
  let errors :=
    ((if blank nombre then ["El nombre es requerido"] else [])
     ++ (if blank cedula then ["La cédula es requerida"] else [])
     ++ (if blank placa then ["La placa es requerida"] else [])
     ++ (if negb (Js.truthy_str tipoVehiculo)
         then ["El tipo de vehículo es requerido"] else [])
     ++ (if bad_length nombre MIN_NAME_LENGTH MAX_NAME_LENGTH
         then [between_message "El nombre" MIN_NAME_LENGTH MAX_NAME_LENGTH]
         else [])
     ++ (if bad_length cedula MIN_CEDULA_LENGTH MAX_CEDULA_LENGTH
         then [between_message "La cédula" MIN_CEDULA_LENGTH
                 MAX_CEDULA_LENGTH]
         else [])
     ++ (if Js.truthy_str placa
            && negb (match placa with
                     | Some p => JsStr.PLATE_REGEX (JsStr.toUpperCase_units p)
                     | None => false
                     end)
         then ["El formato de la placa debe ser ABC123"] else [])
     ++ (if Js.truthy_str telefono
            && negb (match telefono with
                     | Some t => JsStr.PHONE_REGEX t
                     | None => false
                     end)
         then ["El teléfono debe tener 10 dígitos"] else []))%list in
  {| fv_isValid := (List.length errors =? 0)%nat; fv_errors := errors |}.

(** The fields [validateParkingData] reads, as [getFormData] of the parking
    form builds them: the number is sanitized, the state defaults to
    available. *)
Record ParkingData := mkParkingData {
  p_numero : string;
  p_sotano : option string;
  p_tipo : option string;
  p_estado : string
}.

(** [validateParkingData(parkingData)]. *)
Definition validateParkingData (parkingData : ParkingData)
  : FormValidation :=
  let errors :=
    ((if blank (Some (p_numero parkingData))
      then ["El número de parqueadero es requerido"] else [])
     ++ (if negb (Js.truthy_str (p_sotano parkingData))
         then ["El sótano es requerido"] else [])
     ++ (if negb (Js.truthy_str (p_tipo parkingData))
         then ["El tipo de parqueadero es requerido"] else []))%list in
  {| fv_isValid := (List.length errors =? 0)%nat; fv_errors := errors |}.

(** The comparator of [sortBy], ascending: [a] goes before [b] when its key
    is smaller, after when it is greater, and they tie otherwise.  Strings
    compare by code units. *)
Fixpoint insert_sorted {A : Type} (key : A -> string) (x : A) (l : list A)
  : list A :=
  match l with
  | [] => [x]
  | y :: rest =>
      if String.ltb (key y) (key x) then y :: insert_sorted key x rest
      else x :: l
  end.

(** [sortBy(array, property)]: a copy of the array, sorted by the
    comparator.  [Array.prototype.sort] is stable and the comparator is a
    total preorder, which fixes the result: ties keep the order of the
    array. *)
Definition sortBy {A : Type} (key : A -> string) (array : list A) : list A :=
  fold_right (insert_sorted key) [] array.

End HelpersMore.

(* ===================================================================== *)
(** * modules/assignments.js, continued *)
(* ===================================================================== *)

Module AssignmentsMore.

Import Constants Assignments.

Definition quick_message (space : ParkingSpace) (employee : Employee) : string :=
  "Parqueadero " ++ s_numero space ++ " asignado a " ++ e_nombre employee.

(** [quickAssign(parkingSpaceId)].  [None] is the [TypeError] thrown when
    the space is not found and the filter reads [parkingSpace.tipo] for the
    first unassigned employee: the promise is rejected before anything is
    written. *)
Definition quickAssign (today : string) (newId : Z) (parkingSpaceId : Z)
    (st : AssignmentManager) : option (AssignmentManager * list Alert) :=
  let availableEmployees := unassigned st in
  match find (fun space => s_id space =? parkingSpaceId) (parkingSpaces st) with
  | None =>
      match availableEmployees with
      | [] => Some (st, [mkAlert (Some "No hay empleados compatibles disponibles")
                           WARNING])
      | _ :: _ => None
      end
  | Some parkingSpace =>
      let compatibleEmployees :=
        filter (fun emp => String.eqb (e_tipoVehiculo emp) (s_tipo parkingSpace))
          availableEmployees in
      match compatibleEmployees with
      | [] => Some (st, [mkAlert (Some "No hay empleados compatibles disponibles")
                           WARNING])
      | employee :: _ =>
          Some (createAssignment today newId
                  {| empleadoId := e_id employee;
                     parqueaderoId := parkingSpaceId;
                     fechaInicio := today;
                     fechaFin := None |} st,
                [mkAlert (Some (quick_message parkingSpace employee)) SUCCESS])
      end
  end.

Definition reassign_message (space : ParkingSpace) (employee : Employee)
  : string :=
  "Parqueadero " ++ s_numero space ++ " reasignado temporalmente a "
  ++ e_nombre employee.

(** [reassignPicoPlacaSpace(parkingSpaceId)]. *)
Definition reassignPicoPlacaSpace (getDay : string -> option nat)
    (today : string) (newId : Z) (parkingSpaceId : Z) (st : AssignmentManager)
  : AssignmentManager * list Alert :=
  match find (fun s => s_id s =? parkingSpaceId) (parkingSpaces st) with
  | None => (st, [])
  | Some space =>
      let availableEmployees :=
        filter (fun emp =>
                  let hasAssignment :=
                    has_active_employee (assignments st) (e_id emp) in
                  let isCompatible :=
                    String.eqb (e_tipoVehiculo emp) (s_tipo space) in
                  let notPicoPlacaToday :=
                    negb (HelpersMore.isTodayPicoPlaca getDay today
                            (e_placa emp)) in
                  negb hasAssignment && isCompatible && notPicoPlacaToday)
          (employees st) in
      match availableEmployees with
      | [] =>
          (st, [mkAlert
                  (Some "No hay empleados disponibles para reasignación temporal")
                  WARNING])
      | tempEmployee :: _ =>
          (createAssignment today newId
             {| empleadoId := e_id tempEmployee;
                parqueaderoId := parkingSpaceId;
                fechaInicio := today;
                fechaFin := Some today |} st,
           [mkAlert (Some (reassign_message space tempEmployee)) SUCCESS])
      end
  end.

(** The counter [totalParqueaderos] that [updateDashboardCounters] shows:
    [summary.totalAvailable + summary.occupied]. *)
Definition totalParqueaderos (summary : Helpers.Summary) : nat :=
  (Helpers.totalAvailable summary + Helpers.sum_occupied summary)%nat.

End AssignmentsMore.

(* ===================================================================== *)
(** * modules/parking.js, continued *)
(* ===================================================================== *)

Module ParkingMore.

Import Constants Parking.

(** The values of the four inputs of the parking form. *)
Record ParkingFields := mkParkingFields {
  numeroParqueadero : option string;
  sotanoParqueadero : option string;
  tipoParqueadero : option string;
  estadoParqueadero : option string
}.

Definition getFormData (dom : ParkingFields) : HelpersMore.ParkingData :=
  {| HelpersMore.p_numero := HelpersMore.sanitizeString (numeroParqueadero dom);
     HelpersMore.p_sotano := sotanoParqueadero dom;
     HelpersMore.p_tipo := tipoParqueadero dom;
     HelpersMore.p_estado :=
       match estadoParqueadero dom with
       | Some v => if String.eqb v "" then DISPONIBLE else v
       | None => DISPONIBLE
       end |}.

Definition isDuplicateNumber (parkingSpaces : ParkingManager) (numero : string)
  : bool :=
  existsb (fun space => String.eqb (s_numero space) numero) parkingSpaces.

(** [addParkingSpace(parkingData)]: the store after the push and the event
    dispatched. *)
Definition addParkingSpace (today : string) (newId : Z)
    (sotano tipo : string) (parkingData : HelpersMore.ParkingData)
    (parkingSpaces : ParkingManager)
  : ParkingManager * list Assignments.Event :=
  let parkingSpace :=
    {| s_id := newId;
       s_numero := HelpersMore.p_numero parkingData;
       s_sotano := sotano;
       s_tipo := tipo;
       s_estado := HelpersMore.p_estado parkingData;
       s_empleadoAsignado := None;
       s_fechaCreacion := today |} in
  ((parkingSpaces ++ [parkingSpace])%list,
   [Assignments.parkingSpaceAdded parkingSpace]).

(** [handleFormSubmit(event)] of the parking form.  A space is added only
    when the validation passed, so that its basement and its type are
    strings. *)
Definition handleFormSubmit (today : string) (newId : Z) (dom : ParkingFields)
    (parkingSpaces : ParkingManager)
  : ParkingManager * list Assignments.Event * list Assignments.Alert :=
  let formData := getFormData dom in
  let validation := HelpersMore.validateParkingData formData in
  match HelpersMore.fv_isValid validation,
        HelpersMore.p_sotano formData, HelpersMore.p_tipo formData with
  | true, Some sotano, Some tipo =>
      if isDuplicateNumber parkingSpaces (HelpersMore.p_numero formData) then
        (parkingSpaces, [],
         [Assignments.mkAlert (Some "Ya existe un parqueadero con este número")
            DANGER])
      else
        let '(spaces, events) :=
          addParkingSpace today newId sotano tipo formData parkingSpaces in
        (spaces, events,
         [Assignments.mkAlert (Some "Parqueadero agregado exitosamente")
            SUCCESS])
  | _, _, _ =>
      (parkingSpaces, [],
       [Assignments.mkAlert
          (Some (String.concat "<br>" (HelpersMore.fv_errors validation)))
          DANGER])
  end.

(** The [updateData] object of [updateParkingSpace]: for each property of a
    space, the new value when the object has the property. *)
Record SpaceUpdate := mkSpaceUpdate {
  u_id : option Z;
  u_numero : option string;
  u_sotano : option string;
  u_tipo : option string;
  u_estado : option string;
  u_empleadoAsignado : option (option Z);
  u_fechaCreacion : option string
}.

Definition or_old {A : Type} (new : option A) (old : A) : A :=
  match new with Some v => v | None => old end.

(** [{ ...space, ...updateData }]. *)
Definition merge (updateData : SpaceUpdate) (space : ParkingSpace)
  : ParkingSpace :=
  {| s_id := or_old (u_id updateData) (s_id space);
     s_numero := or_old (u_numero updateData) (s_numero space);
     s_sotano := or_old (u_sotano updateData) (s_sotano space);
     s_tipo := or_old (u_tipo updateData) (s_tipo space);
     s_estado := or_old (u_estado updateData) (s_estado space);
     s_empleadoAsignado :=
       or_old (u_empleadoAsignado updateData) (s_empleadoAsignado space);
     s_fechaCreacion :=
       or_old (u_fechaCreacion updateData) (s_fechaCreacion space) |}.

(** [updateParkingSpace(id, updateData)]: the element at the first index
    whose id matches is replaced by the merged object; nothing happens
    when [findIndex] gives -1. *)
Definition updateParkingSpace (id : Z) (updateData : SpaceUpdate)
    (parkingSpaces : ParkingManager) : ParkingManager :=
  update_first (fun space => s_id space =? id) (merge updateData) parkingSpaces.

(** [getAvailableSpaces(vehicleType)]. *)
Definition getAvailableSpaces (vehicleType : option string)
    (parkingSpaces : ParkingManager) : list ParkingSpace :=
  filter (fun space =>
            let isAvailable := String.eqb (s_estado space) DISPONIBLE in
            let matchesType :=
              negb (Js.truthy_str vehicleType)
              || match vehicleType with
                 | Some t => String.eqb (s_tipo space) t
                 | None => false
                 end in
            isAvailable && matchesType) parkingSpaces.

Record Filters := mkFilters {
  f_search : string;
  f_basement : string;
  f_type : string;
  f_status : string
}.

Definition matches (filters : Filters) (space : ParkingSpace) : bool :=
  let matchesSearch :=
    String.eqb (f_search filters) ""
    || JsStr.includes (JsStr.toLowerCase (s_numero space))
         (JsStr.toLowerCase (f_search filters)) in
  let matchesBasement :=
    String.eqb (f_basement filters) ""
    || String.eqb (s_sotano space) (f_basement filters) in
  let matchesType :=
    String.eqb (f_type filters) ""
    || String.eqb (s_tipo space) (f_type filters) in
  let matchesStatus :=
    String.eqb (f_status filters) ""
    || String.eqb (s_estado space) (f_status filters) in
  matchesSearch && matchesBasement && matchesType && matchesStatus.

(** [filterParkingSpaces()]: the new value of [filteredSpaces]. *)
Definition filterParkingSpaces (filters : Filters)
    (parkingSpaces : ParkingManager) : list ParkingSpace :=
  HelpersMore.sortBy s_numero (filter (matches filters) parkingSpaces).

End ParkingMore.

(* ===================================================================== *)
(** * app.js: the ParkingApp *)
(* ===================================================================== *)

Module ParkingApp.

Import Constants.

(** The application object with the two managers it calls: its own list of
    assignments, the spaces of the parking manager and the employees of the
    employee manager. *)
Record AppState := mkApp {
  app_assignments : list Assignment;
  app_spaces : Parking.ParkingManager;
  app_employees : list Employee
}.

Definition hasActiveAssignment (asgs : list Assignment) (employeeId : Z) : bool :=
  existsb (fun assignment =>
             (a_empleadoId assignment =? employeeId) && a_activa assignment)
    asgs.

Definition isParkingSpaceAssigned (asgs : list Assignment) (parkingSpaceId : Z)
  : bool :=
  existsb (fun assignment =>
             (a_parqueaderoId assignment =? parkingSpaceId)
             && a_activa assignment) asgs.

(** [createAssignment(assignmentData)]; [newId] is [Date.now()]. *)
Definition createAssignment (today : string) (newId : Z)
    (assignmentData : Assignments.FormData) (app : AppState) : AppState :=
  let assignment :=
    {| a_id := newId;
       a_empleadoId := Assignments.empleadoId assignmentData;
       a_parqueaderoId := Assignments.parqueaderoId assignmentData;
       a_fechaInicio := Assignments.fechaInicio assignmentData;
       a_fechaFin := Assignments.fechaFin assignmentData;
       a_activa := true;
       a_fechaCreacion := today |} in
  {| app_assignments := (app_assignments app ++ [assignment])%list;
     app_spaces :=
       ParkingMore.updateParkingSpace (a_parqueaderoId assignment)
         {| ParkingMore.u_id := None;
            ParkingMore.u_numero := None;
            ParkingMore.u_sotano := None;
            ParkingMore.u_tipo := None;
            ParkingMore.u_estado := Some "ocupado";
            ParkingMore.u_empleadoAsignado := Some (Some (a_empleadoId assignment));
            ParkingMore.u_fechaCreacion := None |}
         (app_spaces app);
     app_employees := app_employees app |}.

(** [handleAssignmentSubmit(event)]: the fields are read with
    [FormData.get], the ids through [parseInt]. *)
Definition handleAssignmentSubmit (today : string) (newId : Z)
    (dom : Assignments.FormFields) (app : AppState)
  : AppState * list Assignments.Alert :=
  let empleadoId :=
    match Assignments.empleadoAsignacion dom with
    | Some v => Js.parseInt v
    | None => None
    end in
  let parqueaderoId :=
    match Assignments.parqueaderoAsignacion dom with
    | Some v => Js.parseInt v
    | None => None
    end in
  match empleadoId, parqueaderoId, Assignments.fechaInicioField dom with
  | Some e, Some p, Some inicio =>
      if negb (Js.truthy (Some e)) || negb (Js.truthy (Some p))
         || negb (Js.truthy_str (Some inicio))
      then (app, [Assignments.mkAlert
                    (Some "Complete todos los campos requeridos") DANGER])
      else if hasActiveAssignment (app_assignments app) e
      then (app, [Assignments.mkAlert
                    (Some "El empleado ya tiene un parqueadero asignado")
                    DANGER])
      else if isParkingSpaceAssigned (app_assignments app) p
      then (app, [Assignments.mkAlert (Some "El parqueadero ya está asignado")
                    DANGER])
      else
        (createAssignment today newId
           {| Assignments.empleadoId := e;
              Assignments.parqueaderoId := p;
              Assignments.fechaInicio := inicio;
              Assignments.fechaFin :=
                if Js.truthy_str (Assignments.fechaFinField dom)
                then Assignments.fechaFinField dom else None |} app,
         [Assignments.mkAlert (Some "Parqueadero asignado exitosamente")
            SUCCESS])
  | _, _, _ =>
      (app, [Assignments.mkAlert (Some "Complete todos los campos requeridos")
               DANGER])
  end.

(** The body of [for (const employee of unassignedEmployees)]: the
    available spaces and the assignments are read anew at each turn.  The
    k-th call of [Date.now] returns [genId k]. *)
Fixpoint autoLoop (today : string) (genId : nat -> Z)
    (unassignedEmployees : list Employee) (app : AppState)
    (assignedCount : nat) : AppState * nat :=
  match unassignedEmployees with
  | [] => (app, assignedCount)
  | employee :: rest =>
      let availableSpaces :=
        ParkingMore.getAvailableSpaces (Some (e_tipoVehiculo employee))
          (app_spaces app) in
      match find (fun space =>
                    negb (isParkingSpaceAssigned (app_assignments app)
                            (s_id space))) availableSpaces with
      | Some availableSpace =>
          autoLoop today genId rest
            (createAssignment today (genId assignedCount)
               {| Assignments.empleadoId := e_id employee;
                  Assignments.parqueaderoId := s_id availableSpace;
                  Assignments.fechaInicio := today;
                  Assignments.fechaFin := None |} app)
            (S assignedCount)
      | None => autoLoop today genId rest app assignedCount
      end
  end.

Definition auto_message (assignedCount : nat) : string :=
  "Se asignaron " ++ Js.string_of_nat assignedCount
  ++ " parqueaderos automáticamente".

(** [handleAutoAssignment()]. *)
Definition handleAutoAssignment (today : string) (genId : nat -> Z)
    (app : AppState) : AppState * list Assignments.Alert :=
  let unassignedEmployees :=
    filter (fun emp => negb (hasActiveAssignment (app_assignments app)
                               (e_id emp))) (app_employees app) in
  match unassignedEmployees with
  | [] => (app, [Assignments.mkAlert
                   (Some "Todos los empleados ya tienen asignaciones") INFO])
  | _ :: _ =>
      let '(app', assignedCount) :=
        autoLoop today genId unassignedEmployees app 0 in
      (app', [Assignments.mkAlert (Some (auto_message assignedCount)) SUCCESS])
  end.

(** [endAssignment(assignmentId)]. *)
Definition endAssignment (confirmed : bool) (today : string) (assignmentId : Z)
    (app : AppState) : AppState * list Assignments.Alert :=
  match find (fun a => a_id a =? assignmentId) (app_assignments app) with
  | None => (app, [])
  | Some assignment =>
      if negb confirmed then (app, [])
      else
        ({| app_assignments :=
              update_first (fun a => a_id a =? assignmentId)
                (Assignments.end_record today) (app_assignments app);
            app_spaces :=
              ParkingMore.updateParkingSpace (a_parqueaderoId assignment)
                {| ParkingMore.u_id := None;
                   ParkingMore.u_numero := None;
                   ParkingMore.u_sotano := None;
                   ParkingMore.u_tipo := None;
                   ParkingMore.u_estado := Some "disponible";
                   ParkingMore.u_empleadoAsignado := Some None;
                   ParkingMore.u_fechaCreacion := None |}
                (app_spaces app);
            app_employees := app_employees app |},
         [Assignments.mkAlert (Some "Asignación terminada exitosamente")
            SUCCESS])
  end.

(** The listeners of [setupModuleCommunication] that write the store: the
    assignments of a deleted employee or space are dropped from the
    list. *)
Definition onEvent (ev : Assignments.Event) (app : AppState) : AppState :=
  match ev with
  | Assignments.employeeDeleted id =>
      {| app_assignments :=
           filter (fun assignment => negb (a_empleadoId assignment =? id))
             (app_assignments app);
         app_spaces := app_spaces app;
         app_employees := app_employees app |}
  | Assignments.parkingSpaceDeleted id =>
      {| app_assignments :=
           filter (fun assignment => negb (a_parqueaderoId assignment =? id))
             (app_assignments app);
         app_spaces := app_spaces app;
         app_employees := app_employees app |}
  | _ => app
  end.

End ParkingApp.

(* ===================================================================== *)
(** * Properties the theorems speak of *)
(* ===================================================================== *)

(** The exclusivity of section 3 on a list of assignments: no employee and
    no space has two active assignments. *)
Definition exclusive (asgs : list Assignment) : Prop :=
  NoDup (map a_empleadoId (filter a_activa asgs))
  /\ NoDup (map a_parqueaderoId (filter a_activa asgs)).

(** No space has two active assignments. *)
Definition space_exclusive (asgs : list Assignment) : Prop :=
  NoDup (map a_parqueaderoId (filter a_activa asgs)).

(** No employee has two active assignments. *)
Definition employee_exclusive (asgs : list Assignment) : Prop :=
  NoDup (map a_empleadoId (filter a_activa asgs)).


(* ===================================================================== *)
(** * Sample stores *)
(* ===================================================================== *)

(** A host whose every date is a Monday. *)
Definition monday (_ : string) : option nat := Some 1%nat.

Definition ana : Employee := mkEmployee 7 "Ana" (Some "ABC121") "carro".

Definition space_of (id : Z) (estado : string) (ref : option Z) : ParkingSpace :=
  mkSpace id "S1-C001" "-1" "carro" estado ref "2024-06-01".

Definition luis : Employee := mkEmployee 7 "Luis" (Some "XYZ984") "carro".

Definition ids_from_100 (k : nat) : Z := 100 + Z.of_nat k.

(** Two employees whose ids collide, two free car spaces. *)
Definition colliding_ids : Assignments.AssignmentManager :=
  {| Assignments.assignments := [];
     Assignments.employees := [ana; luis];
     Assignments.parkingSpaces :=
       [space_of 10 "disponible" None; space_of 11 "disponible" None] |}.

(** One employee, two free car spaces. *)
Definition one_to_assign : Assignments.AssignmentManager :=
  {| Assignments.assignments := [];
     Assignments.employees := [ana];
     Assignments.parkingSpaces :=
       [space_of 10 "disponible" None; space_of 11 "disponible" None] |}.

(** Space 10 held by employee 8 under record 2; record 1, of employee 7 on
    the same space, ended on the first of May. *)
Definition ended_and_reassigned : Assignments.AssignmentManager :=
  {| Assignments.assignments :=
       [ mkAssignment 1 7 10 "2024-04-01" (Some "2024-05-01") false "2024-04-01";
         mkAssignment 2 8 10 "2024-05-02" None true "2024-05-02" ];
     Assignments.employees :=
       [ana; mkEmployee 8 "Sol" (Some "JKL330") "carro"];
     Assignments.parkingSpaces := [space_of 10 "ocupado" (Some 8)] |}.

(** The form filled in for employee 7 and space 10. *)
Definition form_7_10 : Assignments.FormFields :=
  {| Assignments.asignacionForm := true;
     Assignments.empleadoAsignacion := Some "7";
     Assignments.parqueaderoAsignacion := Some "10";
     Assignments.fechaInicioField := Some "2024-06-03";
     Assignments.fechaFinField := None |}.

(** The form for employee 7 and space 12, a space that the assignment
    manager does not list. *)
Definition form_7_12 : Assignments.FormFields :=
  {| Assignments.asignacionForm := true;
     Assignments.empleadoAsignacion := Some "7";
     Assignments.parqueaderoAsignacion := Some "12";
     Assignments.fechaInicioField := Some "2024-06-03";
     Assignments.fechaFinField := None |}.

(** The form for employee 9, whom the assignment manager does not list,
    and space 10. *)
Definition form_9_10 : Assignments.FormFields :=
  {| Assignments.asignacionForm := true;
     Assignments.empleadoAsignacion := Some "9";
     Assignments.parqueaderoAsignacion := Some "10";
     Assignments.fechaInicioField := Some "2024-06-03";
     Assignments.fechaFinField := None |}.

(** The form for employee 7 and space 10 in a document that has the form
    and no input [fechaInicio]. *)
Definition form_without_date : Assignments.FormFields :=
  {| Assignments.asignacionForm := true;
     Assignments.empleadoAsignacion := Some "7";
     Assignments.parqueaderoAsignacion := Some "10";
     Assignments.fechaInicioField := None;
     Assignments.fechaFinField := None |}.

(** Every answer to a confirmation dialog is yes. *)
Definition always_yes (_ : nat) : bool := true.

(** Space 10 held by employee 7 under the active record 1, in both
    managers. *)
Definition space_10_assigned : App.Stores :=
  {| App.parking := [space_of 10 "ocupado" (Some 7)];
     App.manager :=
       {| Assignments.assignments :=
            [mkAssignment 1 7 10 "2024-05-02" None true "2024-05-02"];
          Assignments.employees := [ana];
          Assignments.parkingSpaces := [space_of 10 "ocupado" (Some 7)] |} |}.

(** Space 10 held by Ana, whose plate is restricted on Mondays; Sol, whose
    plate is not, has no space. *)
Definition reassign_store : Assignments.AssignmentManager :=
  {| Assignments.assignments :=
       [mkAssignment 1 7 10 "2024-05-02" None true "2024-05-02"];
     Assignments.employees :=
       [ana; mkEmployee 8 "Sol" (Some "JKL330") "carro"];
     Assignments.parkingSpaces := [space_of 10 "ocupado" (Some 7)] |}.

(* ===================================================================== *)
(** * Shared lemmas *)
(* ===================================================================== *)

Section ListFacts.

Context {A : Type}.

Lemma find_none_existsb (p : A -> bool) (l : list A) :
  find p l = None <-> existsb p l = false.
Proof.
  induction l as [|x l IH]; simpl.
  - tauto.
  - destruct (p x); simpl; [split; discriminate | exact IH].
Qed.

Lemma update_first_none (p : A -> bool) (f : A -> A) (l : list A) :
  find p l = None -> update_first p f l = l.
Proof.
  induction l as [|x l IH]; simpl; [reflexivity|].
  destruct (p x); [discriminate|]. intros H. now rewrite IH.
Qed.

End ListFacts.

(* ===================================================================== *)
(** * Section 4.1: the restriction calendar *)
(* ===================================================================== *)

Section RestrictionCalendar.

Import Helpers.

Lemma slice_last_char (p : string) (c : ascii) :
  Spec.last_char p = Some c -> Js.slice_last p = String c EmptyString.
Proof.
  induction p as [|a p IH]; simpl; [discriminate|].
  destruct p as [|b p].
  - intros H. now inversion H.
  - exact IH.
Qed.

Lemma last_char_nonempty (p : string) :
  p <> EmptyString -> exists c, Spec.last_char p = Some c.
Proof.
  induction p as [|a p IH]; [congruence|]. intros _.
  destruct p as [|b p]; simpl.
  - now exists a.
  - apply IH. discriminate.
Qed.

(** [parseInt] of a one-character string is the decimal digit it spells. *)
Lemma parseInt_single (c : ascii) :
  Js.parseInt (String c EmptyString) = Spec.decimal_digit c.
Proof.
  destruct c as [[] [] [] [] [] [] [] []]; vm_compute; reflexivity.
Qed.

Lemma decimal_digit_range (c : ascii) (d : Z) :
  Spec.decimal_digit c = Some d -> 0 <= d <= 9.
Proof.
  unfold Spec.decimal_digit.
  destruct (_ && _) eqn:E; [|discriminate].
  intros H; inversion H; subst. apply andb_true_iff in E. lia.
Qed.

Lemma day_of_digit_weekday (d : Z) :
  0 <= d <= 9 ->
  exists w, Spec.day_of_digit d = Some w /\ In w Spec.weekdays.
Proof.
  intros H.
  assert (d = 0 \/ d = 1 \/ d = 2 \/ d = 3 \/ d = 4 \/ d = 5 \/ d = 6
          \/ d = 7 \/ d = 8 \/ d = 9) as Hd by lia.
  repeat (destruct Hd as [Hd|Hd]; [subst; simpl; eexists; split;
    [reflexivity | simpl; tauto]|]).
  subst; simpl; eexists; split; [reflexivity | simpl; tauto].
Qed.

Lemma picoPlaca_long (p : string) (c : ascii) :
  (3 <= String.length p)%nat -> Spec.last_char p = Some c ->
  calculatePicoPlacaDay (Some p) =
  match Spec.decimal_digit c with
  | Some d => Spec.day_of_digit d
  | None => None
  end.
Proof.
  intros Hlen Hc. unfold calculatePicoPlacaDay.
  assert (String.eqb p "" = false) as ->.
  { apply String.eqb_neq. intros ->. simpl in Hlen. lia. }
  assert ((String.length p <? 3)%nat = false) as -> by (apply Nat.ltb_ge; lia).
  simpl. rewrite (slice_last_char _ Hc), parseInt_single.
  destruct (Spec.decimal_digit c) as [d|] eqn:E; [|reflexivity].
  apply decimal_digit_range in E.
  assert (d = 0 \/ d = 1 \/ d = 2 \/ d = 3 \/ d = 4 \/ d = 5 \/ d = 6
          \/ d = 7 \/ d = 8 \/ d = 9) as Hd by lia.
  repeat (destruct Hd as [Hd|Hd]; [subst; reflexivity|]).
  subst; reflexivity.
Qed.

(** C3 (as amended).  The restriction day is none when the plate is absent,
    when it has fewer than three characters, and when its last character is
    not a decimal digit; otherwise it is the weekday the calendar gives to
    the digit class of the last character: 1, 2 Monday; 3, 4 Tuesday; 5, 6
    Wednesday; 7, 8 Thursday; 9, 0 Friday.  The result depends on the
    plate's last character only, and the function is total. *)
Theorem calculatePicoPlacaDay_calendar :
  calculatePicoPlacaDay None = None
  /\ (forall p, (String.length p < 3)%nat ->
        calculatePicoPlacaDay (Some p) = None)
  /\ (forall p c, (3 <= String.length p)%nat -> Spec.last_char p = Some c ->
        (Spec.decimal_digit c = None -> calculatePicoPlacaDay (Some p) = None)
        /\ (forall d, Spec.decimal_digit c = Some d ->
              calculatePicoPlacaDay (Some p) = Spec.day_of_digit d
              /\ exists w, calculatePicoPlacaDay (Some p) = Some w
                           /\ In w Spec.weekdays))
  /\ (forall p q, (3 <= String.length p)%nat -> (3 <= String.length q)%nat ->
        Spec.last_char p = Spec.last_char q ->
        calculatePicoPlacaDay (Some p) = calculatePicoPlacaDay (Some q)).
Proof.
  split; [reflexivity|]. split; [|split].
  - intros p Hlen. unfold calculatePicoPlacaDay.
    apply Nat.ltb_lt in Hlen. rewrite Hlen, orb_true_r. reflexivity.
  - intros p c Hlen Hc. rewrite (picoPlaca_long _ Hlen Hc). split.
    + now intros ->.
    + intros d Hd. rewrite Hd. split; [reflexivity|].
      apply day_of_digit_weekday. eapply decimal_digit_range; eauto.
  - intros p q Hp Hq Hpq.
    destruct (@last_char_nonempty p) as [c Hc].
    { intros ->. simpl in Hp. lia. }
    rewrite (picoPlaca_long _ Hp Hc).
    rewrite Hpq in Hc. now rewrite (picoPlaca_long _ Hq Hc).
Qed.

(** The calendar at the plate "ABC127": Thursday. *)
Lemma calculatePicoPlacaDay_calendar_witness :
  calculatePicoPlacaDay (Some "ABC127") = Some "jueves"
  /\ exists w, calculatePicoPlacaDay (Some "ABC127") = Some w
               /\ In w Spec.weekdays.
Proof.
  destruct calculatePicoPlacaDay_calendar as [_ [_ [H _]]].
  destruct (H "ABC127" "7"%char) as [_ H7]; [simpl; lia | reflexivity |].
  exact (H7 7 eq_refl).
Defined.

(** C3 as stated fails: the plate "ABCDEF" has six characters and its
    restriction day is none of the five weekdays. *)
Lemma calculatePicoPlacaDay_letter_plate :
  (3 <= String.length "ABCDEF")%nat
  /\ ~ (exists w, calculatePicoPlacaDay (Some "ABCDEF") = Some w
                  /\ In w Spec.weekdays).
Proof.
  split; [simpl; lia|]. intros [w [H _]]. vm_compute in H. discriminate.
Qed.

End RestrictionCalendar.

(* ===================================================================== *)
(** * Section 4.2: the daily availability partition *)
(* ===================================================================== *)

Section AvailabilityPartition.

Import Helpers Spec.

Variable getDay : string -> option nat.
Variable employees : list Employee.

Lemma find_assigned (space : ParkingSpace) :
  find (fun emp => match s_empleadoAsignado space with
                   | Some r => e_id emp =? r
                   | None => false
                   end) employees
  = assigned_employee employees space.
Proof.
  unfold assigned_employee. destruct (s_empleadoAsignado space); [reflexivity|].
  induction employees as [|e l IH]; simpl; auto.
Qed.

Lemma step_class (d : option string) (a p o : list Entry) (s : ParkingSpace) :
  availability_step employees d (a, p, o) s
  = match class_of employees d s with
    | Available => ((a ++ [entry_of employees d s])%list, p, o)
    | Restricted => (a, (p ++ [entry_of employees d s])%list, o)
    | Occupied => (a, p, (o ++ [entry_of employees d s])%list)
    | Maintenance => (a, p, o)
    end.
Proof.
  unfold availability_step. rewrite find_assigned.
  unfold entry_of, class_of, Constants.MANTENIMIENTO.
  destruct (String.eqb (s_estado s) "mantenimiento"); [reflexivity|].
  destruct (Js.truthy (s_empleadoAsignado s)); simpl; [|reflexivity].
  destruct (assigned_employee employees s) as [e|]; [|reflexivity].
  destruct (same_day d (calculatePicoPlacaDay (e_placa e))); reflexivity.
Qed.

Lemma fold_availability (dayOfWeek : option string)
    (spaces : list ParkingSpace) (a p o : list Entry) :
  fold_left (availability_step employees dayOfWeek) spaces (a, p, o)
  = ((a ++ map (entry_of employees dayOfWeek)
             (in_class employees dayOfWeek Available spaces))%list,
     (p ++ map (entry_of employees dayOfWeek)
             (in_class employees dayOfWeek Restricted spaces))%list,
     (o ++ map (entry_of employees dayOfWeek)
             (in_class employees dayOfWeek Occupied spaces))%list).
Proof.
  revert a p o. unfold in_class.
  induction spaces as [|s l IH]; intros a p o.
  - simpl. now rewrite !app_nil_r.
  - cbn [fold_left filter]. rewrite step_class.
    destruct (class_of employees dayOfWeek s); simpl; rewrite IH;
      rewrite <- ?app_assoc; reflexivity.
Qed.

Lemma entry_space_of (dayOfWeek : option string) (l : list ParkingSpace) :
  map entry_space (map (entry_of employees dayOfWeek) l) = l.
Proof.
  induction l as [|s l IH]; simpl; [reflexivity|]. rewrite IH. f_equal.
  unfold entry_of. destruct (class_of employees dayOfWeek s); reflexivity.
Qed.

(** The three arrays are the three non-maintenance classes, in order. *)
Lemma availability_classes (spaces : list ParkingSpace) (date : string) :
  let r := calculateDailyAvailability getDay spaces employees date in
  let d := getDayOfWeek getDay date in
  available r = map (entry_of employees d) (in_class employees d Available spaces)
  /\ picoPlaca r = map (entry_of employees d) (in_class employees d Restricted spaces)
  /\ occupied r = map (entry_of employees d) (in_class employees d Occupied spaces).
Proof.
  unfold calculateDailyAvailability. rewrite fold_availability. simpl. tauto.
Qed.

Lemma class_partition (d : option string) (spaces : list ParkingSpace) :
  Permutation
    (in_class employees d Available spaces
     ++ in_class employees d Restricted spaces
     ++ in_class employees d Occupied spaces
     ++ in_class employees d Maintenance spaces)%list
    spaces.
Proof.
  unfold in_class. induction spaces as [|s l IH]; simpl; [constructor|].
  destruct (class_of employees d s); simpl.
  - now constructor.
  - apply Permutation_sym, Permutation_cons_app, Permutation_sym, IH.
  - apply Permutation_sym.
    rewrite app_assoc. apply Permutation_cons_app.
    rewrite <- app_assoc. apply Permutation_sym, IH.
  - apply Permutation_sym.
    rewrite 2 app_assoc. apply Permutation_cons_app.
    rewrite <- 2 app_assoc. apply Permutation_sym, IH.
Qed.

Lemma in_class_iff (d : option string) (c : Class) (spaces : list ParkingSpace)
    (s : ParkingSpace) :
  In s (in_class employees d c spaces) <-> In s spaces /\ class_of employees d s = c.
Proof.
  unfold in_class. rewrite filter_In.
  destruct (class_of employees d s), c; simpl; intuition congruence.
Qed.

Lemma maintenance_class (d : option string) (s : ParkingSpace) :
  class_of employees d s = Maintenance <-> s_estado s = "mantenimiento".
Proof.
  unfold class_of, Constants.MANTENIMIENTO.
  destruct (String.eqb (s_estado s) "mantenimiento") eqn:E.
  - apply String.eqb_eq in E. tauto.
  - apply String.eqb_neq in E. split; [|tauto].
    destruct (negb _); [discriminate|].
    destruct (assigned_employee employees s); [|discriminate].
    destruct (same_day _ _); discriminate.
Qed.

Lemma same_day_iff (d p : option string) :
  same_day d p = true <-> exists w, d = Some w /\ p = Some w.
Proof.
  unfold same_day. destruct d as [a|], p as [b|]; split;
    try discriminate; try (intros [w [H1 H2]]; discriminate).
  - intros H. apply String.eqb_eq in H. subst. now exists b.
  - intros [w [H1 H2]]. inversion H1; inversion H2; subst. apply String.eqb_refl.
Qed.

Lemma maintenance_filter (d : option string) (spaces : list ParkingSpace) :
  in_class employees d Maintenance spaces
  = filter (fun s => String.eqb (s_estado s) "mantenimiento") spaces.
Proof.
  unfold in_class. apply filter_ext. intros s.
  unfold class_of, Constants.MANTENIMIENTO.
  destruct (String.eqb (s_estado s) "mantenimiento"); [reflexivity|].
  destruct (negb _); [reflexivity|].
  destruct (assigned_employee employees s); [|reflexivity].
  destruct (same_day _ _); reflexivity.
Qed.

(** The weekday the code reads off a date is the one the calendar names. *)
Lemma getDayOfWeek_name (date : string) :
  getDayOfWeek getDay date = weekday_of_date getDay date.
Proof.
  unfold getDayOfWeek, weekday_of_date.
  destruct (getDay date) as [n|]; [|reflexivity].
  do 7 (destruct n as [|n]; [reflexivity|]). now destruct n.
Qed.

(** The restriction day the code computes is the one of the calendar. *)
Lemma calculatePicoPlacaDay_restriction_day (placa : option string) :
  calculatePicoPlacaDay placa = restriction_day placa.
Proof.
  destruct placa as [p|]; [|reflexivity]. unfold restriction_day.
  destruct (String.length p <? 3)%nat eqn:Elen.
  - unfold calculatePicoPlacaDay. rewrite Elen, orb_true_r. reflexivity.
  - apply Nat.ltb_ge in Elen.
    destruct (@last_char_nonempty p) as [c Hc].
    { intros ->. simpl in Elen. lia. }
    rewrite Hc. apply picoPlaca_long; assumption.
Qed.

Lemma restricted_on_same_day (date : string) (placa : option string) :
  same_day (getDayOfWeek getDay date) (calculatePicoPlacaDay placa) = true
  <-> restricted_on getDay date placa.
Proof.
  rewrite same_day_iff, getDayOfWeek_name, calculatePicoPlacaDay_restriction_day.
  reflexivity.
Qed.

(** C2.  For every roster of spaces, roster of employees and date, the
    three arrays of the daily availability and the spaces in maintenance
    partition the spaces: together they are the roster, element for
    element; a space in maintenance is in none of the three arrays; any
    other space is in exactly one of them; a space with no assigned
    employee is available; a space whose employee's restriction day, by the
    calendar of the plate's last digit, is the weekday of the date (Sunday
    for the index 0 of the host, Monday for 1, and so on to Saturday for 6)
    is available by restriction; and a space whose employee is not
    restricted that day is occupied. *)
Theorem calculateDailyAvailability_partition
    (spaces : list ParkingSpace) (date : string) :
  let r := calculateDailyAvailability getDay spaces employees date in
  let A := map entry_space (available r) in
  let P := map entry_space (picoPlaca r) in
  let O := map entry_space (occupied r) in
  Permutation
    (A ++ P ++ O
       ++ filter (fun s => String.eqb (s_estado s) "mantenimiento") spaces)%list
    spaces
  /\ (forall s, In s spaces -> s_estado s = "mantenimiento" ->
        ~ In s A /\ ~ In s P /\ ~ In s O)
  /\ (forall s, In s spaces -> s_estado s <> "mantenimiento" ->
        (In s A /\ ~ In s P /\ ~ In s O)
        \/ (~ In s A /\ In s P /\ ~ In s O)
        \/ (~ In s A /\ ~ In s P /\ In s O))
  /\ (forall s, In s spaces -> s_estado s <> "mantenimiento" ->
        (Js.truthy (s_empleadoAsignado s) = false -> In s A)
        /\ (forall ref emp,
              s_empleadoAsignado s = Some ref -> ref <> 0 ->
              find (fun e => e_id e =? ref) employees = Some emp ->
              (restricted_on getDay date (e_placa emp) -> In s P)
              /\ (~ restricted_on getDay date (e_placa emp) -> In s O))).
Proof.
  intros r A P O.
  set (day := getDayOfWeek getDay date).
  destruct (availability_classes spaces date) as [Ha [Hp Ho]].
  fold r in Ha, Hp, Ho. fold day in Ha, Hp, Ho.
  assert (A = in_class employees day Available spaces) as EA
    by (unfold A; rewrite Ha; apply entry_space_of).
  assert (P = in_class employees day Restricted spaces) as EP
    by (unfold P; rewrite Hp; apply entry_space_of).
  assert (O = in_class employees day Occupied spaces) as EO
    by (unfold O; rewrite Ho; apply entry_space_of).
  rewrite EA, EP, EO. clear EA EP EO Ha Hp Ho.
  split; [|split; [|split]].
  - rewrite <- (maintenance_filter day). apply class_partition.
  - intros s Hs Hm. apply (maintenance_class day) in Hm.
    rewrite !in_class_iff. rewrite Hm. intuition discriminate.
  - intros s Hs Hm. rewrite !in_class_iff.
    destruct (class_of employees day s) eqn:E.
    + left. intuition discriminate.
    + right; left. intuition discriminate.
    + right; right. intuition discriminate.
    + apply maintenance_class in E. contradiction.
  - intros s Hs Hm. apply String.eqb_neq in Hm. split.
    + intros Hf. apply in_class_iff. split; [exact Hs|].
      unfold class_of, Constants.MANTENIMIENTO. now rewrite Hm, Hf.
    + intros ref emp Href Hnz Hfind.
      rewrite !in_class_iff, <- restricted_on_same_day. fold day.
      unfold class_of, Constants.MANTENIMIENTO, assigned_employee.
      rewrite Hm, Href, Hfind. simpl.
      apply Z.eqb_neq in Hnz. rewrite Hnz. simpl.
      destruct (same_day day (calculatePicoPlacaDay (e_placa emp)));
        intuition congruence.
Qed.

(** C10.  A space that is not in maintenance and whose assigned-employee
    reference matches no employee of the roster is in the available array
    and in neither of the other two, on every date; when the reference is
    set (truthy), its entry carries the reason that the employee was not
    found. *)
Theorem dangling_reference_available
    (spaces : list ParkingSpace) (date : string) (s : ParkingSpace) (ref : Z) :
  In s spaces ->
  s_estado s <> "mantenimiento" ->
  s_empleadoAsignado s = Some ref ->
  find (fun e => e_id e =? ref) employees = None ->
  let r := calculateDailyAvailability getDay spaces employees date in
  In s (map entry_space (available r))
  /\ ~ In s (map entry_space (picoPlaca r))
  /\ ~ In s (map entry_space (occupied r))
  /\ (ref <> 0 -> In (mkEntry s None "Empleado no encontrado") (available r)).
Proof.
  intros Hs Hm Href Hfind r.
  destruct (availability_classes spaces date) as [Ha [Hp Ho]].
  fold r in Ha, Hp, Ho. set (day := getDayOfWeek getDay date) in *.
  assert (class_of employees day s = Available) as Hc.
  { unfold class_of, Constants.MANTENIMIENTO, assigned_employee.
    apply String.eqb_neq in Hm. rewrite Hm, Href, Hfind.
    now destruct (negb _). }
  rewrite Ha, Hp, Ho, !entry_space_of, !in_class_iff, Hc.
  repeat split; try tauto; try (intros [_ H]; discriminate).
  intros Hnz. apply in_map_iff. exists s. split.
  - unfold entry_of. rewrite Hc, Href. simpl.
    apply Z.eqb_neq in Hnz. now rewrite Hnz.
  - now apply in_class_iff.
Qed.

End AvailabilityPartition.

(** The partition on a Monday, for the space of an employee whose plate
    ends in 1: it is available by restriction. *)
Lemma calculateDailyAvailability_partition_witness :
  In (space_of 10 "ocupado" (Some 7))
    (map Helpers.entry_space
       (Helpers.picoPlaca
          (Helpers.calculateDailyAvailability monday
             [space_of 10 "ocupado" (Some 7); space_of 11 "mantenimiento" None]
             [ana] "2024-06-03"))).
Proof.
  destruct (calculateDailyAvailability_partition monday [ana]
              [space_of 10 "ocupado" (Some 7); space_of 11 "mantenimiento" None]
              "2024-06-03") as [_ [_ [_ H]]].
  destruct (H (space_of 10 "ocupado" (Some 7))) as [_ H1].
  - simpl; tauto.
  - discriminate.
  - destruct (H1 7 ana) as [H2 _]; [reflexivity | lia | reflexivity |].
    apply H2. exists "lunes". split; reflexivity.
Defined.

(** A space that refers to employee 9, who is not in the roster. *)
Lemma dangling_reference_available_witness :
  In (Helpers.mkEntry (space_of 10 "ocupado" (Some 9)) None
        "Empleado no encontrado")
    (Helpers.available
       (Helpers.calculateDailyAvailability monday
          [space_of 10 "ocupado" (Some 9)] [ana] "2024-06-03")).
Proof.
  destruct (@dangling_reference_available monday [ana]
              [space_of 10 "ocupado" (Some 9)] "2024-06-03"
              (space_of 10 "ocupado" (Some 9)) 9) as [_ [_ [_ H]]].
  - simpl; tauto.
  - discriminate.
  - reflexivity.
  - reflexivity.
  - apply H. lia.
Defined.

(* ===================================================================== *)
(** * Records found by id *)
(* ===================================================================== *)

Section ById.

Context {A : Type}.
Variable key : A -> Z.

Lemma find_by_key_In (l : list A) (x : A) :
  NoDup (map key l) -> In x l -> find (fun y => key y =? key x) l = Some x.
Proof.
  induction l as [|y l IH]; simpl; [tauto|].
  intros Hnd [->|Hin].
  - now rewrite Z.eqb_refl.
  - inversion Hnd as [|? ? Hy Hl]; subst.
    destruct (key y =? key x) eqn:E.
    + apply Z.eqb_eq in E. exfalso. apply Hy. rewrite E. now apply in_map.
    + now apply IH.
Qed.

Lemma find_by_key_nth (l : list A) (i : nat) (x : A) :
  NoDup (map key l) -> nth_error l i = Some x ->
  find (fun y => key y =? key x) l = Some x.
Proof.
  intros Hnd Hi. apply find_by_key_In; [exact Hnd|].
  eapply nth_error_In; eauto.
Qed.

Lemma key_injective_on_positions (l : list A) (i j : nat) (x y : A) :
  NoDup (map key l) -> nth_error l i = Some x -> nth_error l j = Some y ->
  key x = key y -> i = j.
Proof.
  intros Hnd Hi Hj Hk.
  apply (proj1 (NoDup_nth_error (map key l)) Hnd).
  - rewrite length_map. apply nth_error_Some. congruence.
  - rewrite !nth_error_map, Hi, Hj. simpl. congruence.
Qed.

Lemma update_first_at (f : A -> A) (l : list A) (i : nat) (x : A) :
  NoDup (map key l) -> nth_error l i = Some x ->
  update_first (fun y => key y =? key x) f l = Spec.update_at i f l.
Proof.
  revert i. induction l as [|y l IH]; intros i Hnd Hi.
  - destruct i; discriminate.
  - inversion Hnd as [|? ? Hy Hl]; subst. destruct i as [|i]; simpl in *.
    + inversion Hi; subst. now rewrite Z.eqb_refl.
    + destruct (key y =? key x) eqn:E.
      * apply Z.eqb_eq in E. exfalso. apply Hy. rewrite E.
        apply in_map. eapply nth_error_In; eauto.
      * f_equal. now apply IH.
Qed.

Lemma NoDup_map_filter (p : A -> bool) (l : list A) :
  NoDup (map key l) -> NoDup (map key (filter p l)).
Proof.
  induction l as [|y l IH]; simpl; [auto|].
  intros Hnd. inversion Hnd as [|? ? Hy Hl]; subst.
  destruct (p y); simpl; [|auto].
  constructor; [|auto]. intros Hin. apply Hy.
  apply in_map_iff in Hin. destruct Hin as [z [Hz Hin]].
  apply filter_In in Hin. rewrite <- Hz. apply in_map. tauto.
Qed.

End ById.

Lemma nth_error_update_at {A : Type} (f : A -> A) (l : list A) (i j : nat) :
  nth_error (Spec.update_at i f l) j
  = if Nat.eqb i j then option_map f (nth_error l j) else nth_error l j.
Proof.
  revert i j. induction l as [|x l IH]; intros i j.
  - destruct i, j; simpl; try reflexivity. now destruct (Nat.eqb i j).
  - destruct i as [|i], j as [|j]; simpl; try reflexivity. apply IH.
Qed.


Lemma filter_refs_In {A : Type} (p : A -> bool) (l : list A) (i : nat) :
  In i (filter_refs p l) <-> exists x, nth_error l i = Some x /\ p x = true.
Proof.
  unfold filter_refs. rewrite filter_In, in_seq. split.
  - intros [_ H]. destruct (nth_error l i) as [x|]; [|discriminate].
    now exists x.
  - intros [x [Hx Hp]]. rewrite Hx. split; [|exact Hp].
    assert (i < List.length l)%nat by (apply nth_error_Some; congruence). lia.
Qed.

(* ===================================================================== *)
(** * Section 4.3: the assignment validator *)
(* ===================================================================== *)

Section Validator.

Import Constants Assignments Spec.

Lemma active_employee_witness (asgs : list Assignment) (id : Z) :
  (exists a, In a asgs /\ a_empleadoId a = id /\ a_activa a = true)
  <-> find (fun a => (a_empleadoId a =? id) && a_activa a) asgs <> None.
Proof.
  split.
  - intros [a [Hin [He Ha]]] Hnone.
    pose proof (find_none _ _ Hnone _ Hin) as H. simpl in H.
    rewrite He, Z.eqb_refl, Ha in H. discriminate.
  - intros H. destruct (find _ asgs) as [a|] eqn:E; [|congruence].
    apply find_some in E. destruct E as [Hin Hp].
    apply andb_true_iff in Hp. destruct Hp as [He Ha]. apply Z.eqb_eq in He.
    now exists a.
Qed.

Lemma active_space_witness (asgs : list Assignment) (id : Z) :
  (exists a, In a asgs /\ a_parqueaderoId a = id /\ a_activa a = true)
  <-> find (fun a => (a_parqueaderoId a =? id) && a_activa a) asgs <> None.
Proof.
  split.
  - intros [a [Hin [He Ha]]] Hnone.
    pose proof (find_none _ _ Hnone _ Hin) as H. simpl in H.
    rewrite He, Z.eqb_refl, Ha in H. discriminate.
  - intros H. destruct (find _ asgs) as [a|] eqn:E; [|congruence].
    apply find_some in E. destruct E as [Hin Hp].
    apply andb_true_iff in Hp. destruct Hp as [He Ha]. apply Z.eqb_eq in He.
    now exists a.
Qed.

(** The validator rejects exactly for the five reasons. *)
Lemma validateAssignment_rejects (st : AssignmentManager) (fd : FormData) :
  isValid (validateAssignment st fd) = false <-> Rejected st fd.
Proof.
  unfold validateAssignment, Rejected.
  rewrite active_employee_witness, active_space_witness.
  destruct (find _ (employees st)) as [e|] eqn:Ee; simpl; [|tauto].
  destruct (find _ (parkingSpaces st)) as [s|] eqn:Es; simpl; [|tauto].
  destruct (find (fun a => (a_empleadoId a =? _) && _) _) as [a1|] eqn:E1;
    simpl.
  { split; [intros _|reflexivity]. right; right; left. discriminate. }
  destruct (find (fun a => (a_parqueaderoId a =? _) && _) _) as [a2|] eqn:E2;
    simpl.
  { split; [intros _|reflexivity]. right; right; right; left. discriminate. }
  destruct (String.eqb (e_tipoVehiculo e) (s_tipo s)) eqn:Et; simpl.
  - apply String.eqb_eq in Et. split; [discriminate|].
    intros [H|[H|[H|[H|[e' [s' [He' [Hs' Hne]]]]]]]]; try congruence.
  - apply String.eqb_neq in Et. split; [intros _|reflexivity].
    right; right; right; right. now exists e, s.
Qed.

(** The three rejections of a pair whose employee and space exist, each
    with the message of its check, in the order of the checks. *)
Lemma validateAssignment_typed (st : AssignmentManager) (fd : FormData)
    (employee : Employee) (space : ParkingSpace) :
  find (fun emp => e_id emp =? empleadoId fd) (employees st) = Some employee ->
  find (fun s => s_id s =? parqueaderoId fd) (parkingSpaces st) = Some space ->
  ((exists a, In a (assignments st)
              /\ a_empleadoId a = empleadoId fd /\ a_activa a = true) ->
   validateAssignment st fd
   = mkValidation false (Some "El empleado ya tiene un parqueadero asignado"))
  /\ (~ (exists a, In a (assignments st)
                   /\ a_empleadoId a = empleadoId fd /\ a_activa a = true) ->
      (exists a, In a (assignments st)
                 /\ a_parqueaderoId a = parqueaderoId fd /\ a_activa a = true) ->
      validateAssignment st fd
      = mkValidation false
          (Some "El parqueadero ya está asignado a otro empleado"))
  /\ (~ (exists a, In a (assignments st)
                   /\ a_empleadoId a = empleadoId fd /\ a_activa a = true) ->
      ~ (exists a, In a (assignments st)
                   /\ a_parqueaderoId a = parqueaderoId fd
                   /\ a_activa a = true) ->
      e_tipoVehiculo employee <> s_tipo space ->
      validateAssignment st fd
      = mkValidation false
          (Some "El tipo de vehículo del empleado no coincide con el tipo de parqueadero")).
Proof.
  intros He Hs. unfold validateAssignment. rewrite He, Hs.
  rewrite active_employee_witness, active_space_witness.
  destruct (find (fun a => (a_empleadoId a =? _) && _) _) as [a1|] eqn:E1.
  - split; [reflexivity|].
    split; intros H; exfalso; apply H; discriminate.
  - split; [intros H; congruence|].
    destruct (find (fun a => (a_parqueaderoId a =? _) && _) _) as [a2|] eqn:E2.
    + split; [reflexivity|]. intros _ H. exfalso. apply H. discriminate.
    + split; [intros _ H; congruence|]. intros _ _ Hne.
      apply String.eqb_neq in Hne. rewrite Hne. reflexivity.
Qed.

(** A pair whose employee or space is not in the lists of the manager is
    rejected with the message of a key that [ERROR_MESSAGES] does not
    define. *)
Lemma validateAssignment_not_found (st : AssignmentManager) (fd : FormData) :
  find (fun emp => e_id emp =? empleadoId fd) (employees st) = None
  \/ find (fun s => s_id s =? parqueaderoId fd) (parkingSpaces st) = None ->
  validateAssignment st fd = mkValidation false None.
Proof.
  unfold validateAssignment. intros [H|H].
  - now rewrite H.
  - rewrite H. now destruct (find _ (employees st)).
Qed.

(** The manual path: either the store is left as it was, or the form data
    passed the validator on the store as it was and the store is the one
    [createAssignment] builds from it. *)
Lemma handleFormSubmit_validates (today : string) (newId : Z)
    (dom : FormFields) (st : AssignmentManager) :
  fst (handleFormSubmit today newId dom st) = st
  \/ exists fd,
       validateAssignmentData (getFormData today dom) = Some fd
       /\ isValid (validateAssignment st fd) = true
       /\ fst (handleFormSubmit today newId dom st)
          = createAssignment today newId fd st.
Proof.
  unfold handleFormSubmit.
  destruct (validateAssignmentData _) as [fd|]; [|now left].
  destruct (isValid (validateAssignment st fd)) eqn:E; simpl; [|now left].
  right. exists fd. now destruct (clearForm dom).
Qed.

End Validator.

(* ===================================================================== *)
(** * Section 4.6: the automatic pass *)
(* ===================================================================== *)

Section AutoPass.

Import Constants Assignments Spec.

Variable today : string.
Variable genId : nat -> Z.
Variable avail : list nat.

Lemma has_active_employee_push (asgs : list Assignment) (a : Assignment) (id : Z) :
  has_active_employee (asgs ++ [a]) id
  = has_active_employee asgs id || ((a_empleadoId a =? id) && a_activa a).
Proof.
  unfold has_active_employee. rewrite existsb_app. simpl.
  now rewrite orb_false_r.
Qed.

Lemma has_active_space_push (asgs : list Assignment) (a : Assignment) (id : Z) :
  has_active_space (asgs ++ [a]) id
  = has_active_space asgs id || ((a_parqueaderoId a =? id) && a_activa a).
Proof.
  unfold has_active_space. rewrite existsb_app. simpl.
  now rewrite orb_false_r.
Qed.

(** With distinct space ids, [createAssignment] marks the very space the
    loop chose. *)
Lemma createAssignment_at (st : AssignmentManager) (e : Employee) (ref : nat)
    (space : ParkingSpace) (newId : Z) :
  NoDup (map s_id (parkingSpaces st)) ->
  nth_error (parkingSpaces st) ref = Some space ->
  createAssignment today newId
    {| empleadoId := e_id e; parqueaderoId := s_id space;
       fechaInicio := today; fechaFin := None |} st
  = assign_at today newId e ref st.
Proof.
  intros Hnd Hn. unfold createAssignment, assign_at. rewrite Hn. simpl.
  f_equal. now apply (update_first_at s_id).
Qed.

Lemma assign_at_space_ids (st : AssignmentManager) (e : Employee) (ref : nat)
    (newId : Z) :
  map s_id (parkingSpaces (assign_at today newId e ref st))
  = map s_id (parkingSpaces st).
Proof.
  unfold assign_at. destruct (nth_error _ ref); [|reflexivity]. simpl.
  generalize (parkingSpaces st) ref. clear.
  induction l as [|x l IH]; intros [|i]; simpl; try reflexivity.
  now rewrite IH.
Qed.

(** What the filter of the loop says of the reference it keeps first. *)
Lemma compatible_head (st : AssignmentManager) (e : Employee) (ref : nat)
    (l : list nat) :
  filter (fun ref =>
            match nth_error (parkingSpaces st) ref with
            | Some space =>
                String.eqb (s_tipo space) (e_tipoVehiculo e)
                && negb (Js.truthy (s_empleadoAsignado space))
            | None => false
            end) avail = ref :: l ->
  In ref avail
  /\ exists space, nth_error (parkingSpaces st) ref = Some space
                   /\ s_tipo space = e_tipoVehiculo e
                   /\ Js.truthy (s_empleadoAsignado space) = false.
Proof.
  intros Hf.
  assert (In ref (ref :: l)) as Hin by (left; reflexivity).
  rewrite <- Hf in Hin. apply filter_In in Hin. destruct Hin as [Hav Hp].
  split; [exact Hav|].
  destruct (nth_error (parkingSpaces st) ref) as [space|]; [|discriminate].
  exists space. apply andb_true_iff in Hp. destruct Hp as [Ht Hc].
  apply String.eqb_eq in Ht. apply negb_true_iff in Hc. auto.
Qed.

(** On a store with distinct ids and non-zero employee ids, every pair the
    loop creates passes the validator on the store as it is just before the
    creation: running the validator first changes nothing. *)
Lemma autoAssignLoop_validated_eq (emps : list Employee) :
  forall (st : AssignmentManager) (count : nat),
    NoDup (map s_id (parkingSpaces st)) ->
    NoDup (map e_id (employees st)) ->
    NoDup (map e_id emps) ->
    (forall e, In e emps ->
       In e (employees st) /\ e_id e <> 0
       /\ has_active_employee (assignments st) (e_id e) = false) ->
    (forall i s, In i avail -> nth_error (parkingSpaces st) i = Some s ->
       Js.truthy (s_empleadoAsignado s) = false ->
       has_active_space (assignments st) (s_id s) = false) ->
    autoAssignLoop today genId avail emps st count
    = autoAssignLoop_validated today genId avail emps st count.
Proof.
  induction emps as [|e rest IH]; intros st count Hs He Hr Hemp Hfree;
    [reflexivity|].
  inversion Hr as [|? ? Hnotin Hrest]; subst.
  assert (forall e', In e' rest ->
            In e' (employees st) /\ e_id e' <> 0
            /\ has_active_employee (assignments st) (e_id e') = false) as Hemp'
    by (intros e' H'; apply Hemp; now right).
  cbn [autoAssignLoop autoAssignLoop_validated].
  destruct (filter _ avail) as [|ref l] eqn:Ef; [now apply IH|].
  destruct (compatible_head _ _ Ef) as [Hav [space [Hn [Ht Hc]]]].
  rewrite Hn.
  destruct (Hemp e (or_introl eq_refl)) as [Hin [Hnz Hact]].
  assert (isValid (validateAssignment st
            {| empleadoId := e_id e; parqueaderoId := s_id space;
               fechaInicio := today; fechaFin := None |}) = true) as Hvalid.
  { unfold validateAssignment. simpl.
    rewrite (find_by_key_In e_id _ _ He Hin).
    rewrite (find_by_key_nth s_id _ _ Hs Hn).
    unfold has_active_employee in Hact.
    rewrite (proj2 (find_none_existsb _ _) Hact).
    pose proof (Hfree _ _ Hav Hn Hc) as Hsp. unfold has_active_space in Hsp.
    rewrite (proj2 (find_none_existsb _ _) Hsp).
    rewrite Ht, String.eqb_refl. reflexivity. }
  rewrite Hvalid.
  rewrite (createAssignment_at _ e _ _ Hs Hn).
  apply IH.
  - rewrite assign_at_space_ids. exact Hs.
  - unfold assign_at. rewrite Hn. exact He.
  - exact Hrest.
  - intros e' H'. destruct (Hemp' e' H') as [H1 [H2 H3]].
    unfold assign_at. rewrite Hn. simpl. repeat split; auto.
    rewrite has_active_employee_push, H3. simpl.
    destruct (e_id e =? e_id e') eqn:E; [|reflexivity].
    apply Z.eqb_eq in E. exfalso. apply Hnotin. rewrite E. now apply in_map.
  - intros i s Hi. unfold assign_at. rewrite Hn. simpl.
    rewrite nth_error_update_at. destruct (Nat.eqb ref i) eqn:Eri.
    + apply Nat.eqb_eq in Eri. subst i. rewrite Hn. simpl.
      intros Hsome; inversion Hsome; subst. simpl.
      apply Z.eqb_neq in Hnz. rewrite Hnz. discriminate.
    + intros Hi' Hfalsy. rewrite has_active_space_push.
      rewrite (Hfree _ _ Hi Hi' Hfalsy). simpl.
      destruct (s_id space =? s_id s) eqn:E; [|reflexivity].
      apply Z.eqb_eq in E. apply Nat.eqb_neq in Eri. exfalso. apply Eri.
      eapply (key_injective_on_positions s_id); eauto.
Qed.


End AutoPass.

Section AutoPassTheorems.

Import Constants Assignments Spec.





Lemma no_active_forallb (key : Assignment -> Z) (asgs : list Assignment)
    (id : Z) :
  forallb (fun a => negb (a_activa a) || negb (key a =? id)) asgs
  = negb (existsb (fun a => (key a =? id) && a_activa a) asgs).
Proof.
  induction asgs as [|a l IH]; simpl; [reflexivity|]. rewrite IH.
  destruct (a_activa a), (key a =? id); reflexivity.
Qed.


Lemma is_unassigned_code (asgs : list Assignment) (employee : Employee) :
  is_unassigned asgs employee = negb (has_active_employee asgs (e_id employee)).
Proof.
  unfold is_unassigned, has_active_employee.
  now rewrite (no_active_forallb a_empleadoId).
Qed.


Lemma unassigned_employees_unassigned (st : AssignmentManager) :
  unassigned_employees st = unassigned st.
Proof.
  unfold unassigned_employees, unassigned. apply filter_ext. intros e.
  apply is_unassigned_code.
Qed.

(** C1 (as amended).  The validator rejects a pair exactly when the
    employee does not exist, the space does not exist, the employee already
    holds an active assignment, the space already has one, or the vehicle
    type differs from the space type, and accepts otherwise.  When the
    employee and the space exist, the rejection carries the message of the
    first check that fails, in this order: the employee already has a
    space, the space is already assigned to another employee, the vehicle
    type does not match.  The manual path runs the validator before any
    mutation.  The automatic path runs no such check; on a store whose
    space ids are pairwise distinct and whose employee ids are pairwise
    distinct and non-zero, running the validator before each creation
    changes nothing, that is, every pair the pass creates is one the
    validator accepts at that moment. *)
Theorem validateAssignment_before_mutation (st : AssignmentManager) :
  (forall fd,
     (isValid (validateAssignment st fd) = false <-> Rejected st fd)
     /\ (isValid (validateAssignment st fd) = true <-> ~ Rejected st fd)
     /\ (forall employee space,
           find (fun emp => e_id emp =? empleadoId fd) (employees st)
           = Some employee ->
           find (fun s => s_id s =? parqueaderoId fd) (parkingSpaces st)
           = Some space ->
           ((exists a, In a (assignments st)
                       /\ a_empleadoId a = empleadoId fd
                       /\ a_activa a = true) ->
            validateAssignment st fd
            = mkValidation false
                (Some "El empleado ya tiene un parqueadero asignado"))
           /\ (~ (exists a, In a (assignments st)
                            /\ a_empleadoId a = empleadoId fd
                            /\ a_activa a = true) ->
               (exists a, In a (assignments st)
                          /\ a_parqueaderoId a = parqueaderoId fd
                          /\ a_activa a = true) ->
               validateAssignment st fd
               = mkValidation false
                   (Some "El parqueadero ya está asignado a otro empleado"))
           /\ (~ (exists a, In a (assignments st)
                            /\ a_empleadoId a = empleadoId fd
                            /\ a_activa a = true) ->
               ~ (exists a, In a (assignments st)
                            /\ a_parqueaderoId a = parqueaderoId fd
                            /\ a_activa a = true) ->
               e_tipoVehiculo employee <> s_tipo space ->
               validateAssignment st fd
               = mkValidation false
                   (Some "El tipo de vehículo del empleado no coincide con el tipo de parqueadero"))))
  /\ (forall today newId dom,
        fst (handleFormSubmit today newId dom st) = st
        \/ exists fd,
             validateAssignmentData (getFormData today dom) = Some fd
             /\ isValid (validateAssignment st fd) = true
             /\ fst (handleFormSubmit today newId dom st)
                = createAssignment today newId fd st)
  /\ (distinct_space_ids st -> distinct_employee_ids st ->
      nonzero_employee_ids st ->
      forall confirmed today genId,
        performAutoAssignment confirmed today genId st
        = performAutoAssignment_validated confirmed today genId st).
Proof.
  split; [|split].
  - intros fd. split; [apply validateAssignment_rejects|]. split.
    + rewrite <- validateAssignment_rejects.
      destruct (isValid (validateAssignment st fd)); split; congruence.
    + intros employee space. apply validateAssignment_typed.
  - intros. apply handleFormSubmit_validates.
  - intros Hs He Hnz confirmed today genId.
    unfold performAutoAssignment, performAutoAssignment_validated.
    destruct (unassigned st) as [|e0 rest0] eqn:Eu; [reflexivity|].
    destruct (available_refs st) as [|r0 refs0] eqn:Ea; [reflexivity|].
    destruct (negb confirmed); [reflexivity|].
    rewrite autoAssignLoop_validated_eq; auto.
    + rewrite <- Eu. unfold unassigned. now apply NoDup_map_filter.
    + intros e Hin. rewrite <- Eu in Hin. unfold unassigned in Hin.
      apply filter_In in Hin. destruct Hin as [Hin Hact].
      apply negb_true_iff in Hact. auto.
    + intros i s Hi Hn _. rewrite <- Ea in Hi. unfold available_refs in Hi.
      apply filter_refs_In in Hi. destruct Hi as [x [Hx Hp]].
      rewrite Hn in Hx. inversion Hx; subst.
      apply andb_true_iff in Hp. destruct Hp as [_ Hp].
      now apply negb_true_iff in Hp.
Qed.

(** On the store of one employee and two free car spaces, the automatic
    pass and the validated pass agree. *)
Lemma validateAssignment_before_mutation_witness :
  performAutoAssignment true "2024-06-03" ids_from_100 one_to_assign
  = performAutoAssignment_validated true "2024-06-03" ids_from_100 one_to_assign.
Proof.
  destruct (validateAssignment_before_mutation one_to_assign) as [_ [_ H]].
  apply H.
  - unfold distinct_space_ids. simpl.
    repeat constructor; simpl; intuition discriminate.
  - unfold distinct_employee_ids. simpl.
    repeat constructor; simpl; intuition discriminate.
  - intros e [<-|[]]. discriminate.
Defined.

(** C1 as stated fails on the automatic path: with two employees whose ids
    collide, the pass gives employee 7 a second space, a pair the validator
    rejects at that moment. *)
Lemma autoAssignment_skips_validator :
  isValid
    (validateAssignment
       (createAssignment "2024-06-03" 100 (mkForm 7 10 "2024-06-03" None)
          colliding_ids)
       (mkForm 7 11 "2024-06-03" None)) = false
  /\ List.length
       (assignments
          (fst (performAutoAssignment true "2024-06-03" ids_from_100
                  colliding_ids))) = 2%nat
  /\ performAutoAssignment true "2024-06-03" ids_from_100 colliding_ids
     <> performAutoAssignment_validated true "2024-06-03" ids_from_100
          colliding_ids.
Proof.
  split; [reflexivity|]. split; [reflexivity|].
  intros H.
  apply (f_equal (fun r => List.length (assignments (fst r)))) in H.
  vm_compute in H. discriminate.
Qed.




End AutoPassTheorems.

(* ===================================================================== *)
(** * Sections 4.4 and 4.5: manual assignment and termination *)
(* ===================================================================== *)

Section ManualAssignment.

Import Constants Assignments Spec.

Lemma find_update_first_some {A : Type} (key : A -> Z) (p : A -> bool)
    (f : A -> A) (id : Z) (l : list A) :
  (forall x, key (f x) = key x) ->
  find (fun x => key x =? id) l <> None ->
  find (fun x => key x =? id) (update_first p f l) <> None.
Proof.
  intros Hk. induction l as [|x l IH]; simpl; [auto|].
  destruct (p x); simpl.
  - rewrite Hk. destruct (key x =? id); [intros _; discriminate | auto].
  - destruct (key x =? id); [intros _; discriminate | exact IH].
Qed.

Lemma find_push_some {A : Type} (p : A -> bool) (l : list A) (a : A) :
  p a = true -> find p (l ++ [a]) <> None.
Proof.
  intros Hp. induction l as [|x l IH]; simpl.
  - rewrite Hp. discriminate.
  - destruct (p x); [discriminate | exact IH].
Qed.

(** After an assignment is created for a pair that the validator accepted,
    the validator rejects the same pair: the employee is already
    assigned. *)
Lemma validateAssignment_after_create (today : string) (newId : Z)
    (fd : FormData) (st : AssignmentManager) :
  isValid (validateAssignment st fd) = true ->
  validateAssignment (createAssignment today newId fd st) fd
  = {| isValid := false; message := ERROR_MESSAGES EMPLOYEE_ALREADY_ASSIGNED |}.
Proof.
  unfold validateAssignment at 1.
  destruct (find _ (employees st)) as [e|] eqn:Ee; [|discriminate].
  destruct (find _ (parkingSpaces st)) as [s|] eqn:Es; [|discriminate].
  intros _. unfold validateAssignment, createAssignment. simpl.
  rewrite Ee.
  destruct (find _ (update_first _ _ (parkingSpaces st))) as [s'|] eqn:Es'.
  - destruct (find _ (assignments st ++ _)%list) as [a|] eqn:Ea; [reflexivity|].
    exfalso. revert Ea. apply find_push_some. simpl.
    now rewrite Z.eqb_refl.
  - exfalso. revert Es'. apply (find_update_first_some s_id).
    + reflexivity.
    + now rewrite Es.
Qed.

(** C4.  The form names employee 7 and space 12 on the store of an
    assignment manager that lists employee 7 and the spaces 10 and 11: the
    validation fails and the stores are returned as they were, but the
    alert shown carries no message, because [validateAssignment] reads the
    message [PARKING_NOT_FOUND], which [ERROR_MESSAGES] does not define.
    The same happens, through [EMPLOYEE_NOT_FOUND], for a form that names
    employee 9.  A rejection whose message is defined shows it: the second
    submission of the form of employee 7 and space 10 says that the
    employee already has a space. *)
Theorem handleFormSubmit_unknown_record_untyped :
  validateAssignment one_to_assign (mkForm 7 12 "2024-06-03" None)
  = mkValidation false None
  /\ handleFormSubmit "2024-06-03" 100 form_7_12 one_to_assign
     = (one_to_assign, [mkAlert None DANGER])
  /\ validateAssignment one_to_assign (mkForm 9 10 "2024-06-03" None)
     = mkValidation false None
  /\ handleFormSubmit "2024-06-03" 100 form_9_10 one_to_assign
     = (one_to_assign, [mkAlert None DANGER])
  /\ handleFormSubmit "2024-06-03" 101 form_7_10
       (fst (handleFormSubmit "2024-06-03" 100 form_7_10 one_to_assign))
     = (fst (handleFormSubmit "2024-06-03" 100 form_7_10 one_to_assign),
        [mkAlert (Some "El empleado ya tiene un parqueadero asignado") DANGER]).
Proof. repeat split. Qed.

(** A failed validation changes nothing.  When the validation of a manual
    assignment fails, the stores (assignments, spaces, employees) are
    returned as they were, with one alert of type danger that carries the
    message of the validation.  When it succeeds, one record is added, and
    submitting the same form again fails because the employee already has
    a space, and leaves the stores, hence the number of assignments, as
    they were. *)
Theorem handleFormSubmit_failure_no_mutation (today : string) (newId : Z)
    (dom : FormFields) (st : AssignmentManager) (fd : FormData) :
  validateAssignmentData (getFormData today dom) = Some fd ->
  (isValid (validateAssignment st fd) = false ->
   handleFormSubmit today newId dom st
   = (st, [mkAlert (message (validateAssignment st fd)) DANGER]))
  /\ (isValid (validateAssignment st fd) = true ->
      let st1 := fst (handleFormSubmit today newId dom st) in
      List.length (assignments st1) = S (List.length (assignments st))
      /\ forall newId',
           handleFormSubmit today newId' dom st1
           = (st1, [mkAlert (Some "El empleado ya tiene un parqueadero asignado")
                      DANGER])
           /\ List.length (assignments (fst (handleFormSubmit today newId' dom st1)))
              = List.length (assignments st1)).
Proof.
  intros Hfd. unfold handleFormSubmit. rewrite Hfd. split.
  - intros Hv. now rewrite Hv.
  - intros Hv. rewrite Hv. cbn [negb].
    assert (fst (if clearForm dom
                 then (createAssignment today newId fd st,
                       [mkAlert (Some PARKING_ASSIGNED) SUCCESS])
                 else (createAssignment today newId fd st,
                       [mkAlert (Some "Error al crear asignación") DANGER]))
            = createAssignment today newId fd st) as ->
      by now destruct (clearForm dom).
    split.
    + unfold createAssignment. cbn [assignments]. rewrite length_app. simpl. lia.
    + intros newId'. rewrite (validateAssignment_after_create _ _ _ _ Hv).
      simpl. split; reflexivity.
Qed.

(** The form for employee 7 and space 10, on the store where both are
    free: the second submission fails and the store keeps its one
    record. *)
Lemma handleFormSubmit_failure_no_mutation_witness :
  let st1 := fst (handleFormSubmit "2024-06-03" 100 form_7_10 one_to_assign) in
  List.length (assignments st1) = 1%nat
  /\ handleFormSubmit "2024-06-03" 101 form_7_10 st1
     = (st1, [mkAlert (Some "El empleado ya tiene un parqueadero asignado")
                DANGER]).
Proof.
  destruct (@handleFormSubmit_failure_no_mutation "2024-06-03" 100 form_7_10
              one_to_assign (mkForm 7 10 "2024-06-03" None) eq_refl)
    as [_ H].
  destruct (H eq_refl) as [H1 H2]. split; [exact H1|].
  exact (proj1 (H2 101)).
Defined.

(** A form that does not pass [validateAssignmentData] changes nothing
    either. *)
Lemma handleFormSubmit_incomplete (today : string) (newId : Z)
    (dom : FormFields) (st : AssignmentManager) :
  validateAssignmentData (getFormData today dom) = None ->
  handleFormSubmit today newId dom st
  = (st, [mkAlert (Some "Por favor complete todos los campos requeridos")
            DANGER]).
Proof. intros H. unfold handleFormSubmit. now rewrite H. Qed.

Lemma update_first_split {A : Type} (p : A -> bool) (f : A -> A) (l : list A)
    (x : A) :
  find p l = Some x ->
  exists l1 l2,
    l = (l1 ++ x :: l2)%list
    /\ update_first p f l = (l1 ++ f x :: l2)%list
    /\ forall y, In y l1 -> p y = false.
Proof.
  induction l as [|y l IH]; simpl; [discriminate|].
  destruct (p y) eqn:E.
  - intros H; inversion H; subst. exists [], l. simpl. tauto.
  - intros H. destruct (IH H) as [l1 [l2 [H1 [H2 H3]]]].
    exists (y :: l1), l2. simpl. rewrite H1 at 1. rewrite H2.
    repeat split; auto. intros z [<-|Hz]; auto.
Qed.

(** C5 (as amended).  Termination takes an assignment id and no date.  If
    no record has the id, or the user declines the confirmation, nothing
    changes.  Otherwise the first record with the id, active or not, is
    marked inactive and its end date set to today; the first space with the
    record's space id, if there is one, gets the status available and no
    assigned employee; nothing else changes. *)
Theorem endAssignment_effect (confirmed : bool) (today : string) (id : Z)
    (st : AssignmentManager) :
  (find (fun a => a_id a =? id) (assignments st) = None \/ confirmed = false ->
   endAssignment confirmed today id st = (st, []))
  /\ (forall a,
        find (fun a => a_id a =? id) (assignments st) = Some a ->
        confirmed = true ->
        let st' := fst (endAssignment confirmed today id st) in
        (exists l1 l2,
           assignments st = (l1 ++ a :: l2)%list
           /\ assignments st'
              = (l1 ++ {| a_id := a_id a;
                          a_empleadoId := a_empleadoId a;
                          a_parqueaderoId := a_parqueaderoId a;
                          a_fechaInicio := a_fechaInicio a;
                          a_fechaFin := Some today;
                          a_activa := false;
                          a_fechaCreacion := a_fechaCreacion a |} :: l2)%list
           /\ forall x, In x l1 -> a_id x <> id)
        /\ employees st' = employees st
        /\ match find (fun s => s_id s =? a_parqueaderoId a)
                   (parkingSpaces st) with
           | None => parkingSpaces st' = parkingSpaces st
           | Some s =>
               exists l1 l2,
                 parkingSpaces st = (l1 ++ s :: l2)%list
                 /\ parkingSpaces st'
                    = (l1 ++ {| s_id := s_id s;
                                s_numero := s_numero s;
                                s_sotano := s_sotano s;
                                s_tipo := s_tipo s;
                                s_estado := "disponible";
                                s_empleadoAsignado := None;
                                s_fechaCreacion := s_fechaCreacion s |}
                          :: l2)%list
                 /\ forall x, In x l1 -> s_id x <> a_parqueaderoId a
           end).
Proof.
  unfold endAssignment. split.
  - intros [H|H].
    + now rewrite H.
    + rewrite H. now destruct (find _ (assignments st)).
  - intros a Ha Hc. rewrite Ha, Hc. simpl. split; [|split].
    + destruct (update_first_split _ (end_record today) _ Ha)
        as [l1 [l2 [H1 [H2 H3]]]].
      exists l1, l2. repeat split; auto.
      intros x Hx. apply Z.eqb_neq. now apply H3.
    + reflexivity.
    + destruct (find _ (parkingSpaces st)) as [s|] eqn:Es.
      * destruct (update_first_split _ free_space _ Es)
          as [l1 [l2 [H1 [H2 H3]]]].
        exists l1, l2. repeat split; auto.
        intros x Hx. apply Z.eqb_neq. now apply H3.
      * now apply update_first_none.
Qed.

(** Ending record 2 of the sample store: the record is closed today. *)
Lemma endAssignment_effect_witness :
  endAssignment false "2024-06-03" 2 ended_and_reassigned
  = (ended_and_reassigned, [])
  /\ employees (fst (endAssignment true "2024-06-03" 2 ended_and_reassigned))
     = employees ended_and_reassigned.
Proof.
  split.
  - apply endAssignment_effect. now right.
  - destruct (endAssignment_effect true "2024-06-03" 2 ended_and_reassigned)
      as [_ H].
    destruct (H (mkAssignment 2 8 10 "2024-05-02" None true "2024-05-02")
                eq_refl eq_refl) as [_ [He _]].
    exact He.
Defined.

(** C5 as stated fails: record 1 is already inactive, yet ending it again,
    once confirmed, rewrites its end date and frees space 10, which
    employee 8 holds under the active record 2. *)
Lemma endAssignment_inactive_not_noop :
  (exists a, find (fun a => a_id a =? 1) (assignments ended_and_reassigned)
             = Some a /\ a_activa a = false)
  /\ fst (endAssignment true "2024-06-03" 1 ended_and_reassigned)
     <> ended_and_reassigned
  /\ parkingSpaces (fst (endAssignment true "2024-06-03" 1 ended_and_reassigned))
     = [space_of 10 "disponible" None]
  /\ map a_fechaFin
       (assignments (fst (endAssignment true "2024-06-03" 1 ended_and_reassigned)))
     = [Some "2024-06-03"; None].
Proof.
  split; [eexists; split; reflexivity|].
  split; [|split; reflexivity].
  intros H. apply (f_equal parkingSpaces) in H. vm_compute in H. discriminate.
Qed.

End ManualAssignment.

(* ===================================================================== *)
(** * Section 4.7: bulk generation of spaces *)
(* ===================================================================== *)

Section BulkGeneration.

Import Constants Parking Spec.

Variable today : string.
Variable genId : nat -> Z.
Variable existing : ParkingManager.

Lemma generate_bucket_spec (b : SpaceType) (l : list nat) :
  forall (acc : list ParkingSpace) (k : nat),
    exists added,
      fold_left (generate_one today genId existing b) l (acc, k)
      = ((acc ++ added)%list, (k + List.length l)%nat)
      /\ List.length added = List.length l
      /\ Forall (fun s => s_numero s = bucket_number existing b
                          /\ s_tipo s = st_type b
                          /\ s_sotano s = st_basement b
                          /\ s_estado s = DISPONIBLE
                          /\ s_empleadoAsignado s = None) added.
Proof.
  induction l as [|i l IH]; intros acc k.
  - exists []. simpl. rewrite app_nil_r, Nat.add_0_r. auto.
  - cbn [fold_left]. unfold generate_one at 2.
    destruct (IH (acc ++ [ {| s_id := genId k + Z.of_nat k;
                              s_numero := bucket_number existing b;
                              s_sotano := st_basement b;
                              s_tipo := st_type b;
                              s_estado := DISPONIBLE;
                              s_empleadoAsignado := None;
                              s_fechaCreacion := today |} ])%list (S k))
      as [added [H1 [H2 H3]]].
    eexists (_ :: added). unfold bucket_number in *.
    rewrite H1, <- app_assoc. simpl. repeat split.
    + f_equal. lia.
    + now rewrite H2.
    + constructor; [simpl; tauto | exact H3].
Qed.

Lemma generate_buckets_spec (bs : list SpaceType) :
  forall (acc : list ParkingSpace) (k : nat),
    exists added,
      fold_left (generate_bucket today genId existing) bs (acc, k)
      = ((acc ++ added)%list, (k + list_sum (map st_count bs))%nat)
      /\ List.length added = list_sum (map st_count bs)
      /\ Forall (fun s => exists b, In b bs
                                    /\ s_numero s = bucket_number existing b
                                    /\ s_tipo s = st_type b
                                    /\ s_sotano s = st_basement b) added.
Proof.
  induction bs as [|b bs IH]; intros acc k.
  - exists []. simpl. rewrite app_nil_r, Nat.add_0_r. auto.
  - cbn [fold_left]. unfold generate_bucket at 2.
    destruct (generate_bucket_spec b (seq 1 (st_count b)) acc k)
      as [a1 [H1 [H2 H3]]].
    rewrite H1. destruct (IH (acc ++ a1)%list (k + List.length (seq 1 (st_count b)))%nat)
      as [a2 [H4 [H5 H6]]].
    exists (a1 ++ a2)%list. rewrite H4, length_seq, app_assoc. simpl.
    repeat split.
    + f_equal. lia.
    + rewrite length_app, H2, H5, length_seq. reflexivity.
    + apply Forall_app. split.
      * eapply Forall_impl; [|exact H3]. intros s Hs. exists b.
        simpl in Hs. split; [now left | tauto].
      * eapply Forall_impl; [|exact H6]. intros s [b' [Hin Hb']]. exists b'.
        split; [now right | exact Hb'].
Qed.

(** However many spaces are asked for, three hundred are built. *)
Lemma newSpaces_length (totalSpaces : nat) :
  List.length (newSpaces today genId totalSpaces existing) = 300%nat.
Proof.
  unfold newSpaces.
  destruct (generate_buckets_spec
              (spaceTypes (calculateDistribution totalSpaces)) [] 0)
    as [added [H1 [H2 _]]].
  rewrite H1. simpl. exact H2.
Qed.

(** Every space built carries the number of its bucket: the number does
    not depend on the position of the space in the bucket. *)
Lemma newSpaces_number (totalSpaces : nat) (s : ParkingSpace) :
  In s (newSpaces today genId totalSpaces existing) ->
  s_numero s
  = Helpers.formatParkingNumber (s_sotano s) (s_tipo s)
      (getNextSequentialNumber existing (s_tipo s) (s_sotano s)).
Proof.
  unfold newSpaces.
  destruct (generate_buckets_spec
              (spaceTypes (calculateDistribution totalSpaces)) [] 0)
    as [added [H1 [_ H3]]].
  rewrite H1. simpl. intros Hin.
  rewrite Forall_forall in H3. destruct (H3 _ Hin) as [b [_ [Hn [Ht Hb]]]].
  rewrite Hn, Ht, Hb. reflexivity.
Qed.

(** Below the maximum and once confirmed, the store grows by three
    hundred. *)
Lemma handleBulkGenerate_adds_300 :
  (List.length existing < MAX_PARKING_SPACES)%nat ->
  List.length (fst (handleBulkGenerate true today genId existing))
  = (List.length existing + 300)%nat.
Proof.
  intros H. unfold handleBulkGenerate.
  apply Nat.leb_gt in H. rewrite H. simpl.
  now rewrite length_app, newSpaces_length.
Qed.

(** At the maximum or above, nothing is created. *)
Lemma handleBulkGenerate_full (confirmed : bool) :
  (MAX_PARKING_SPACES <= List.length existing)%nat ->
  fst (handleBulkGenerate confirmed today genId existing) = existing.
Proof.
  intros H. unfold handleBulkGenerate.
  apply Nat.leb_le in H. now rewrite H.
Qed.

(** From the empty store: 120 car spaces at -1, 120 car spaces at -3, 45
    motorcycle spaces at -1 and 15 bicycle spaces at -1, three hundred in
    all. *)
Lemma handleBulkGenerate_from_empty :
  let r := fst (handleBulkGenerate true today genId []) in
  List.length r = 300%nat
  /\ count_bucket CARRO MINUS_ONE r = 120%nat
  /\ count_bucket CARRO MINUS_THREE r = 120%nat
  /\ count_bucket MOTO MINUS_ONE r = 45%nat
  /\ count_bucket BICICLETA MINUS_ONE r = 15%nat.
Proof. vm_compute. repeat split; reflexivity. Qed.

End BulkGeneration.

(** C7, at the store that defeats it.  With one space in the store, a
    confirmed bulk generation is told to build the 299 spaces of headroom
    and builds 300: the store ends with 301 spaces, above the maximum of
    300. *)
Theorem handleBulkGenerate_over_maximum (today : string) (genId : nat -> Z) :
  let store := [space_of 10 "disponible" None] in
  (List.length store < Constants.MAX_PARKING_SPACES)%nat
  /\ List.length (fst (Parking.handleBulkGenerate true today genId store))
     = 301%nat
  /\ (Constants.MAX_PARKING_SPACES < 301)%nat.
Proof.
  intros store.
  assert (List.length store < Constants.MAX_PARKING_SPACES)%nat as Hlt
    by (unfold Constants.MAX_PARKING_SPACES; simpl; lia).
  split; [exact Hlt|]. split.
  - now rewrite (handleBulkGenerate_adds_300 today genId store Hlt).
  - unfold Constants.MAX_PARKING_SPACES. lia.
Qed.

(** C8, at the store that defeats it.  From the empty store the first
    three spaces generated all carry the number S1-C001, and the generated
    numbers are not unique: the sequence number is computed from the store
    as it was before the generation and does not advance within a
    bucket. *)
Theorem generateParkingSpaces_repeats_numbers (today : string)
    (genId : nat -> Z) :
  map s_numero (firstn 3 (Parking.newSpaces today genId 300 []))
  = ["S1-C001"; "S1-C001"; "S1-C001"]
  /\ ~ Spec.unique_numbers (Parking.newSpaces today genId 300 []).
Proof.
  split; [reflexivity|].
  unfold Spec.unique_numbers. intros H.
  assert (exists l, map s_numero (Parking.newSpaces today genId 300 [])
                    = "S1-C001" :: "S1-C001" :: l) as [l Hl]
    by (eexists; vm_compute; reflexivity).
  rewrite Hl in H. inversion H as [|x l' Hnotin _]; subst.
  apply Hnotin. now left.
Qed.

(* ===================================================================== *)
(** * Section 3: deletion and the assignments of the deleted record *)
(* ===================================================================== *)

Section DeletionCascade.

Import Constants Assignments.

Variable today : string.

Lemma update_first_as_map {A : Type} (key : A -> Z) (f : A -> A) (i : Z)
    (l : list A) :
  NoDup (map key l) ->
  update_first (fun y => key y =? i) f l
  = map (fun y => if key y =? i then f y else y) l.
Proof.
  induction l as [|x l IH]; simpl; [reflexivity|].
  intros Hnd. inversion Hnd as [|? ? Hx Hl]; subst.
  destruct (key x =? i) eqn:E.
  - f_equal. apply Z.eqb_eq in E. subst i.
    rewrite <- (map_id l) at 1. apply map_ext_in. intros y Hy.
    destruct (key y =? key x) eqn:E'; [|reflexivity].
    apply Z.eqb_eq in E'. exfalso. apply Hx. rewrite <- E'. now apply in_map.
  - f_equal. now apply IH.
Qed.

Lemma endAssignment_assignments (i : Z) (st : AssignmentManager) :
  NoDup (map a_id (assignments st)) ->
  assignments (fst (endAssignment true today i st))
  = map (fun a => if a_id a =? i then end_record today a else a)
      (assignments st).
Proof.
  intros Hnd. unfold endAssignment.
  destruct (find _ (assignments st)) as [a|] eqn:Ef; simpl.
  - now apply update_first_as_map.
  - rewrite <- (map_id (assignments st)) at 1. apply map_ext_in.
    intros y Hy. pose proof (find_none _ _ Ef _ Hy) as H. simpl in H.
    now rewrite H.
Qed.

Lemma endAll_assignments (confirms : nat -> bool) (todo : list Assignment) :
  (forall k, confirms k = true) ->
  forall (k : nat) (st : AssignmentManager),
    NoDup (map a_id (assignments st)) ->
    assignments (endAll confirms today k todo st)
    = map (fun a => if existsb (fun t => a_id t =? a_id a) todo
                    then end_record today a else a)
        (assignments st).
Proof.
  intros Hyes. induction todo as [|t rest IH]; intros k st Hnd; simpl.
  - now rewrite map_id.
  - rewrite Hyes.
    assert (NoDup (map a_id
                     (assignments (fst (endAssignment true today (a_id t) st)))))
      as Hnd'.
    { rewrite (@endAssignment_assignments (a_id t) st Hnd), map_map.
      erewrite map_ext; [exact Hnd|].
      intros a; simpl. now destruct (a_id a =? a_id t). }
    rewrite (IH _ _ Hnd'), (@endAssignment_assignments (a_id t) st Hnd).
    rewrite map_map. apply map_ext. intros a.
    rewrite (Z.eqb_sym (a_id t) (a_id a)).
    destruct (a_id a =? a_id t); simpl; [|reflexivity].
    now destruct (existsb _ rest).
Qed.

(** Deleting an employee: when every confirmation is accepted and the
    assignment ids are pairwise distinct, no record is removed, every
    record of the employee ends inactive, and the employee leaves the
    roster. *)
Lemma onEmployeeDeleted_deactivates (confirms : nat -> bool) (id : Z)
    (st : AssignmentManager) :
  (forall k, confirms k = true) ->
  NoDup (map a_id (assignments st)) ->
  let st' := onEmployeeDeleted confirms today id st in
  map a_id (assignments st') = map a_id (assignments st)
  /\ (forall a, In a (assignments st') -> a_empleadoId a = id ->
        a_activa a = false)
  /\ (forall e, In e (employees st') -> e_id e <> id).
Proof.
  intros Hyes Hnd st'. unfold st', onEmployeeDeleted.
  split; [|split].
  - rewrite endAll_assignments by (auto; exact Hnd). simpl.
    rewrite map_map. apply map_ext. intros a.
    now destruct (existsb _ _).
  - rewrite endAll_assignments by (auto; exact Hnd). simpl.
    intros a' Hin Hemp. apply in_map_iff in Hin.
    destruct Hin as [a [Ha Hin]].
    destruct (existsb _ _) eqn:Ex; subst a'; [reflexivity|].
    destruct (a_activa a) eqn:Eact; [|reflexivity]. exfalso.
    assert (existsb (fun t => a_id t =? a_id a)
              (filter (fun a0 => (a_empleadoId a0 =? id) && a_activa a0)
                 (assignments st)) = true) as Hex.
    { apply existsb_exists. exists a. split; [|apply Z.eqb_refl].
      apply filter_In. split; [exact Hin|].
      now rewrite Hemp, Z.eqb_refl, Eact. }
    congruence.
  - assert (forall todo k s, employees (endAll confirms today k todo s)
                             = employees s) as Hemps.
    { induction todo as [|t rest IH]; intros k s; simpl; [reflexivity|].
      rewrite IH. unfold endAssignment.
      destruct (find _ (assignments s)); [|reflexivity].
      now destruct (negb (confirms k)). }
    rewrite Hemps. simpl. intros e He. apply filter_In in He.
    destruct He as [_ He]. apply negb_true_iff in He.
    now apply Z.eqb_neq.
Qed.

End DeletionCascade.

(** C9, at the store that defeats it.  Space 10 is held by employee 7
    under an active assignment.  Deleting the space removes it from the
    parking manager and dispatches [parkingSpaceDeleted], for which the
    assignment manager registers no listener: the assignment is still
    active, and the assignment manager still lists the space. *)
Theorem deleteParkingSpace_leaves_assignment_active (today : string) :
  let w := App.deleteParkingSpace true always_yes today 10 space_10_assigned in
  App.parking w = []
  /\ Assignments.assignments (App.manager w)
     = [mkAssignment 1 7 10 "2024-05-02" None true "2024-05-02"]
  /\ Assignments.has_active_space
       (Assignments.assignments (App.manager w)) 10 = true.
Proof. repeat split; reflexivity. Qed.

(* ===================================================================== *)
(** * helpers.js: further properties *)
(* ===================================================================== *)

Section HelperProperties.

Import Helpers HelpersMore Spec.

Lemma filter_split_length {A : Type} (p : A -> bool) (l : list A) :
  (List.length (filter p l) + List.length (filter (fun x => negb (p x)) l)
   = List.length l)%nat.
Proof.
  induction l as [|x l IH]; simpl; [reflexivity|].
  destruct (p x); simpl; lia.
Qed.

(** The counters of the summary add up: every space is counted once, as
    available, available by restriction, occupied or in maintenance; the
    total the dashboard shows is the number of spaces not in
    maintenance. *)
Theorem availability_summary_counts (getDay : string -> option nat)
    (spaces : list ParkingSpace) (employees : list Employee) (date : string) :
  let r := calculateDailyAvailability getDay spaces employees date in
  let maintenance :=
    filter (fun s => String.eqb (s_estado s) "mantenimiento") spaces in
  totalAvailable (summary r)
  = (normallyAvailable (summary r) + picoPlacaAvailable (summary r))%nat
  /\ (totalAvailable (summary r) + sum_occupied (summary r)
      + List.length maintenance = List.length spaces)%nat
  /\ AssignmentsMore.totalParqueaderos (summary r)
     = List.length
         (filter (fun s => negb (String.eqb (s_estado s) "mantenimiento"))
            spaces).
Proof.
  intros r maintenance.
  set (d := getDayOfWeek getDay date).
  assert (summary r
          = {| totalAvailable :=
                 (List.length (in_class employees d Available spaces)
                  + List.length (in_class employees d Restricted spaces))%nat;
               normallyAvailable :=
                 List.length (in_class employees d Available spaces);
               picoPlacaAvailable :=
                 List.length (in_class employees d Restricted spaces);
               sum_occupied :=
                 List.length (in_class employees d Occupied spaces) |}) as Hs.
  { unfold r, calculateDailyAvailability. fold d.
    rewrite fold_availability. simpl. now rewrite !length_map. }
  pose proof (Permutation_length (class_partition employees d spaces)) as Hp.
  rewrite !length_app, maintenance_filter in Hp. fold maintenance in Hp.
  pose proof (filter_split_length
                (fun s => String.eqb (s_estado s) "mantenimiento") spaces) as Hf.
  fold maintenance in Hf.
  unfold AssignmentsMore.totalParqueaderos. rewrite Hs. simpl.
  repeat split; lia.
Qed.

(** The restriction day is always one of the five weekdays. *)
Lemma calculatePicoPlacaDay_range (placa : option string) (w : string) :
  calculatePicoPlacaDay placa = Some w -> In w weekdays.
Proof.
  unfold calculatePicoPlacaDay. destruct placa as [p|]; [|discriminate].
  destruct (_ || _)%bool; [discriminate|].
  destruct (Js.parseInt _) as [n|]; [|discriminate].
  repeat (destruct (_ || _); [intros H; inversion H; simpl; tauto|]).
  discriminate.
Qed.

(** On a Saturday, a Sunday or an invalid date nobody is restricted: no
    space is released by restriction, and every space whose employee is in
    the roster is occupied. *)
Theorem no_restriction_on_weekend (getDay : string -> option nat)
    (spaces : list ParkingSpace) (employees : list Employee) (date : string) :
  getDay date = Some 0%nat \/ getDay date = Some 6%nat \/ getDay date = None ->
  let r := calculateDailyAvailability getDay spaces employees date in
  picoPlaca r = []
  /\ picoPlacaAvailable (summary r) = 0%nat
  /\ forall s ref emp,
       In s spaces -> s_estado s <> "mantenimiento" ->
       s_empleadoAsignado s = Some ref -> ref <> 0 ->
       find (fun e => e_id e =? ref) employees = Some emp ->
       In s (map entry_space (occupied r)).
Proof.
  intros Hday r.
  set (d := getDayOfWeek getDay date).
  assert (forall p, same_day d (calculatePicoPlacaDay p) = false) as Hnever.
  { intros p. destruct (same_day d (calculatePicoPlacaDay p)) eqn:E;
      [|reflexivity].
    apply same_day_iff in E. destruct E as [w [Hd Hw]].
    apply calculatePicoPlacaDay_range in Hw. exfalso.
    unfold d, getDayOfWeek in Hd.
    destruct Hday as [H|[H|H]]; rewrite H in Hd; simpl in Hd;
      try discriminate; inversion Hd; subst; simpl in Hw;
      intuition discriminate. }
  assert (in_class employees d Restricted spaces = []) as Hnone.
  { unfold in_class. induction spaces as [|s l IH]; simpl; [reflexivity|].
    unfold class_of at 1.
    destruct (String.eqb _ _); simpl; [apply IH|].
    destruct (negb _); simpl; [apply IH|].
    destruct (assigned_employee employees s); simpl; [|apply IH].
    rewrite Hnever. simpl. apply IH. }
  destruct (availability_classes getDay employees spaces date) as [_ [Hp Ho]].
  fold r in Hp, Ho. fold d in Hp, Ho.
  split; [|split].
  - rewrite Hp, Hnone. reflexivity.
  - unfold r, calculateDailyAvailability. fold d.
    rewrite fold_availability. simpl. now rewrite Hnone.
  - intros s ref emp Hin Hm Href Hnz Hfind.
    rewrite Ho, entry_space_of. apply in_class_iff. split; [exact Hin|].
    unfold class_of, Constants.MANTENIMIENTO, assigned_employee.
    apply String.eqb_neq in Hm. apply Z.eqb_neq in Hnz.
    rewrite Hm, Href, Hfind. simpl. rewrite Hnz. simpl.
    now rewrite Hnever.
Qed.

(** On a Sunday the space of employee 7 is occupied. *)
Lemma no_restriction_on_weekend_witness :
  picoPlaca
    (calculateDailyAvailability (fun _ => Some 0%nat)
       [space_of 10 "ocupado" (Some 7)] [ana] "2024-06-02") = []
  /\ In (space_of 10 "ocupado" (Some 7))
       (map entry_space
          (occupied
             (calculateDailyAvailability (fun _ => Some 0%nat)
                [space_of 10 "ocupado" (Some 7)] [ana] "2024-06-02"))).
Proof.
  destruct (@no_restriction_on_weekend (fun _ => Some 0%nat)
              [space_of 10 "ocupado" (Some 7)] [ana] "2024-06-02")
    as [H1 [_ H2]]; [now left|].
  split; [exact H1|].
  apply (H2 _ 7 ana); [simpl; tauto | discriminate | reflexivity | lia
                      | reflexivity].
Defined.

(** The status shown in the table of assignments and the availability of
    the day agree: the space an employee of the roster holds is listed as
    available by restriction today exactly when [isTodayPicoPlaca] holds of
    the employee's plate. *)
Theorem isTodayPicoPlaca_agrees (getDay : string -> option nat)
    (spaces : list ParkingSpace) (employees : list Employee) (today : string)
    (s : ParkingSpace) (ref : Z) (emp : Employee) :
  In s spaces -> s_estado s <> "mantenimiento" ->
  s_empleadoAsignado s = Some ref -> ref <> 0 ->
  find (fun e => e_id e =? ref) employees = Some emp ->
  (In s (map entry_space
           (picoPlaca (calculateDailyAvailability getDay spaces employees today)))
   <-> isTodayPicoPlaca getDay today (e_placa emp) = true).
Proof.
  intros Hin Hm Href Hnz Hfind.
  destruct (availability_classes getDay employees spaces today) as [_ [Hp _]].
  rewrite Hp, entry_space_of, in_class_iff.
  unfold class_of, Constants.MANTENIMIENTO, assigned_employee, isTodayPicoPlaca.
  apply String.eqb_neq in Hm. apply Z.eqb_neq in Hnz.
  rewrite Hm, Href, Hfind. simpl. rewrite Hnz. simpl.
  destruct (same_day _ _); intuition congruence.
Qed.

Lemma isTodayPicoPlaca_agrees_witness :
  In (space_of 10 "ocupado" (Some 7))
    (map entry_space
       (picoPlaca
          (calculateDailyAvailability monday [space_of 10 "ocupado" (Some 7)]
             [ana] "2024-06-03")))
  <-> isTodayPicoPlaca monday "2024-06-03" (e_placa ana) = true.
Proof.
  apply (@isTodayPicoPlaca_agrees monday [space_of 10 "ocupado" (Some 7)] [ana]
           "2024-06-03" (space_of 10 "ocupado" (Some 7)) 7 ana);
    [simpl; tauto | discriminate | reflexivity | lia | reflexivity].
Defined.

End HelperProperties.

Section StringProperties.

Import Helpers HelpersMore Spec.

Lemma append_cancel_l (a x y : string) : (a ++ x = a ++ y)%string -> x = y.
Proof.
  induction a as [|c a IH]; simpl; [auto|]. intros H. inversion H. auto.
Qed.

Lemma leading_zeros_value (k : nat) (s : string) (d : Decimal.uint) :
  NilEmpty.uint_of_string s = Some d ->
  exists d', NilEmpty.uint_of_string (Js.replicate k "0" ++ s) = Some d'
             /\ Nat.of_uint d' = Nat.of_uint d.
Proof.
  intros Hs. induction k as [|k [d' [H1 H2]]]; simpl.
  - now exists d.
  - rewrite H1. exists (Decimal.D0 d'). split; [reflexivity|].
    rewrite <- H2. reflexivity.
Qed.

(** The padded decimal numeral reads back as the number. *)
Lemma padStart_reads_back (n : nat) :
  exists d, NilEmpty.uint_of_string (Js.padStart 3 "0" (Js.string_of_nat n))
            = Some d
            /\ Nat.of_uint d = n.
Proof.
  unfold Js.padStart, Js.string_of_nat.
  destruct (@leading_zeros_value
              (3 - String.length (NilEmpty.string_of_uint (Nat.to_uint n)))
              _ _ (NilEmpty.usu (Nat.to_uint n))) as [d [H1 H2]].
  exists d. split; [exact H1|]. rewrite H2. apply DecimalNat.Unsigned.of_to.
Qed.

(** Within a basement and a type, the display number determines the
    sequence number: two different sequence numbers never give the same
    display number. *)
Theorem formatParkingNumber_injective (sotano tipo : string) (n m : nat) :
  n <> m ->
  formatParkingNumber sotano tipo n <> formatParkingNumber sotano tipo m.
Proof.
  unfold formatParkingNumber. intros Hnm H. apply Hnm.
  repeat apply append_cancel_l in H.
  destruct (padStart_reads_back n) as [dn [Hn1 Hn2]].
  destruct (padStart_reads_back m) as [dm [Hm1 Hm2]].
  rewrite H in Hn1. rewrite Hn1 in Hm1. inversion Hm1; subst. reflexivity.
Qed.

Lemma formatParkingNumber_injective_witness :
  formatParkingNumber "-1" "carro" 9 <> formatParkingNumber "-1" "carro" 1000.
Proof. apply formatParkingNumber_injective. lia. Defined.

Lemma remove_angles_clean (s : string) (c : ascii) :
  In c (list_ascii_of_string (JsStr.remove_angles s)) ->
  c <> "<"%char /\ c <> ">"%char.
Proof.
  induction s as [|a s IH]; simpl; [tauto|].
  destruct (Ascii.eqb a "<" || Ascii.eqb a ">")%bool eqn:E; [exact IH|].
  apply orb_false_iff in E. destruct E as [E1 E2].
  apply Ascii.eqb_neq in E1. apply Ascii.eqb_neq in E2.
  simpl. intros [<-|H]; auto.
Qed.

Lemma remove_angles_length (s : string) :
  (String.length (JsStr.remove_angles s) <= String.length s)%nat.
Proof.
  induction s as [|a s IH]; simpl; [lia|].
  destruct (_ || _)%bool; simpl; lia.
Qed.

Lemma skip_spaces_length (s : string) :
  (String.length (Js.skip_spaces s) <= String.length s)%nat.
Proof.
  induction s as [|a s IH]; simpl; [lia|].
  destruct (Js.is_space a); simpl; lia.
Qed.

Lemma trimEnd_length (s : string) :
  (String.length (JsStr.trimEnd s) <= String.length s)%nat.
Proof.
  induction s as [|a s IH]; simpl; [lia|].
  destruct (JsStr.trimEnd s); [destruct (Js.is_space a)|]; simpl in *; lia.
Qed.

(** A sanitized string holds no angle bracket and is no longer than the
    input; a missing input gives the empty string. *)
Theorem sanitizeString_no_angle_brackets (input : option string) :
  (forall c, In c (list_ascii_of_string (sanitizeString input)) ->
             c <> "<"%char /\ c <> ">"%char)
  /\ (forall s, input = Some s ->
        (String.length (sanitizeString input) <= String.length s)%nat)
  /\ (input = None -> sanitizeString input = "").
Proof.
  split; [|split].
  - intros c. unfold sanitizeString. destruct input as [s|]; [|simpl; tauto].
    destruct (String.eqb s ""); [simpl; tauto|]. apply remove_angles_clean.
  - intros s ->. unfold sanitizeString.
    destruct (String.eqb s ""); [simpl; lia|].
    pose proof (remove_angles_length (JsStr.trim s)).
    pose proof (trimEnd_length (Js.skip_spaces s)).
    pose proof (skip_spaces_length s). unfold JsStr.trim in *. lia.
  - now intros ->.
Qed.

Lemma sanitizeString_no_angle_brackets_witness :
  ~ In "<"%char
      (list_ascii_of_string (sanitizeString (Some "  <b>S1-C001</b> ")))
  /\ (String.length (sanitizeString (Some "  <b>S1-C001</b> ")) <= 17)%nat.
Proof.
  destruct (sanitizeString_no_angle_brackets (Some "  <b>S1-C001</b> "))
    as [H1 [H2 _]].
  split.
  - intros Hin. destruct (H1 _ Hin) as [E _]. now apply E.
  - exact (H2 _ eq_refl).
Defined.

End StringProperties.

Section EmployeeValidation.

Import Helpers HelpersMore Spec.

(** When the upper case of a character ends in a digit, the character is
    that digit and its upper case is itself. *)
Lemma upper_units_digit (c : ascii) :
  match rev (JsStr.upper_units c) with
  | u :: rest =>
      if JsStr.is_digit u
      then match rest, u with
           | [], Some d => Ascii.eqb d c
           | _, _ => false
           end
      else true
  | [] => false
  end = true.
Proof. destruct c as [[] [] [] [] [] [] [] []]; reflexivity. Qed.

Lemma toUpperCase_units_flat (p : string) :
  JsStr.toUpperCase_units p
  = flat_map JsStr.upper_units (list_ascii_of_string p).
Proof. induction p as [|a p IH]; simpl; [reflexivity | now rewrite IH]. Qed.

Lemma rev_flat_map {A B : Type} (f : A -> list B) (l : list A) :
  rev (flat_map f l) = flat_map (fun x => rev (f x)) (rev l).
Proof.
  induction l as [|x l IH]; simpl; [reflexivity|].
  rewrite rev_app_distr, IH, flat_map_app. simpl. now rewrite app_nil_r.
Qed.

(** Peeling a final digit off the upper case of a sequence of
    characters. *)
Lemma digit_tail (l : list ascii) (u : option ascii) (rest : list (option ascii)) :
  flat_map (fun x => rev (JsStr.upper_units x)) l = u :: rest ->
  JsStr.is_digit u = true ->
  exists c l', l = c :: l' /\ u = Some c
               /\ flat_map (fun x => rev (JsStr.upper_units x)) l' = rest.
Proof.
  destruct l as [|c l']; simpl; [discriminate|].
  pose proof (upper_units_digit c) as Hc.
  destruct (rev (JsStr.upper_units c)) as [|u' rest'] eqn:E; [discriminate|].
  simpl. intros H Hd. inversion H; subst.
  rewrite Hd in Hc. destruct rest' as [|? ?]; [|discriminate].
  destruct u as [d|]; [|discriminate]. apply Ascii.eqb_eq in Hc. subst d.
  exists c, l'. auto.
Qed.

Lemma last_char_rev (p : string) :
  last_char p = hd_error (rev (list_ascii_of_string p)).
Proof.
  induction p as [|a p IH]; [reflexivity|].
  destruct p as [|b p]; [reflexivity|].
  change (last_char (String a (String b p))) with (last_char (String b p)).
  rewrite IH.
  change (list_ascii_of_string (String a (String b p)))
    with (a :: list_ascii_of_string (String b p)).
  remember (list_ascii_of_string (String b p)) as l eqn:El.
  cbn [rev].
  destruct (rev l) as [|x xs] eqn:E; [|reflexivity].
  apply (f_equal (@List.length ascii)) in E. rewrite length_rev in E.
  subst l. simpl in E. discriminate.
Qed.

Lemma length_list_ascii (p : string) :
  List.length (list_ascii_of_string p) = String.length p.
Proof. induction p as [|a p IH]; simpl; congruence. Qed.

Lemma is_digit_decimal (c : ascii) :
  JsStr.is_digit (Some c) = true -> exists d, decimal_digit c = Some d.
Proof.
  unfold JsStr.is_digit, decimal_digit. intros H.
  apply andb_true_iff in H. destruct H as [H1 H2].
  apply Nat.leb_le in H1. apply Nat.leb_le in H2.
  assert ((48 <=? Z.of_nat (nat_of_ascii c))
          && (Z.of_nat (nat_of_ascii c) <=? 57) = true) as ->.
  { apply andb_true_iff. split; apply Z.leb_le; lia. }
  eauto.
Qed.

(** A plate that passes the format test has a restriction day. *)
Lemma plate_format_restricted (p : string) :
  JsStr.PLATE_REGEX (JsStr.toUpperCase_units p) = true ->
  exists w, calculatePicoPlacaDay (Some p) = Some w /\ In w weekdays.
Proof.
  intros H.
  remember (JsStr.toUpperCase_units p) as units eqn:Hu.
  unfold JsStr.PLATE_REGEX in H.
  destruct units as [|a [|b [|c [|x [|y [|z [|? ?]]]]]]]; try discriminate.
  repeat (apply andb_true_iff in H; destruct H as [H ?]).
  rewrite toUpperCase_units_flat in Hu.
  apply (f_equal (@rev _)) in Hu. rewrite rev_flat_map in Hu. simpl in Hu.
  symmetry in Hu.
  destruct (digit_tail _ Hu) as [c1 [l1 [E1 [Ez Hu1]]]]; [assumption|].
  destruct (digit_tail _ Hu1) as [c2 [l2 [E2 [Ey Hu2]]]]; [assumption|].
  destruct (digit_tail _ Hu2) as [c3 [l3 [E3 [Ex Hu3]]]]; [assumption|].
  subst.
  assert (last_char p = Some c1) as Hlast by (now rewrite last_char_rev, E1).
  assert (3 <= String.length p)%nat as Hlen.
  { rewrite <- length_list_ascii, <- length_rev, E1. simpl. lia. }
  destruct (@is_digit_decimal c1) as [d Hd]; [assumption|].
  rewrite (picoPlaca_long _ Hlen Hlast), Hd.
  apply day_of_digit_weekday. eapply decimal_digit_range; eauto.
Qed.

Lemma app_length_zero {A : Type} (a b : list A) :
  (List.length (a ++ b) =? 0)%nat = true -> a = [] /\ (List.length b =? 0)%nat = true.
Proof.
  rewrite length_app. intros H. apply Nat.eqb_eq in H.
  destruct a; simpl in *; [|lia]. split; [reflexivity|].
  now apply Nat.eqb_eq.
Qed.

Lemma not_blank (field : option string) :
  blank field = false ->
  exists s, field = Some s /\ JsStr.trim s <> "" /\ Js.truthy_str field = true.
Proof.
  unfold blank. destruct field as [s|]; [|discriminate].
  intros H. apply String.eqb_neq in H. exists s. repeat split; auto.
  simpl. destruct (String.eqb s "") eqn:E; [|reflexivity].
  apply String.eqb_eq in E. subst. now elim H.
Qed.

(** Employee data that pass [validateEmployeeData] have a name of 2 to 50
    characters and a cedula of 6 to 15 once trimmed, a vehicle type, a
    telephone that is missing, empty or made of ten digits, and a plate of
    three letters and three digits up to case, which has a restriction day
    among the five weekdays. *)
Theorem validateEmployeeData_valid (data : EmployeeData) :
  fv_isValid (validateEmployeeData data) = true ->
  exists nombre cedula placa tipo,
    d_nombre data = Some nombre /\ d_cedula data = Some cedula
    /\ d_placa data = Some placa /\ d_tipoVehiculo data = Some tipo
    /\ (2 <= String.length (JsStr.trim nombre) <= 50)%nat
    /\ (6 <= String.length (JsStr.trim cedula) <= 15)%nat
    /\ tipo <> ""
    /\ JsStr.PLATE_REGEX (JsStr.toUpperCase_units placa) = true
    /\ (exists w, calculatePicoPlacaDay (Some placa) = Some w
                  /\ In w weekdays)
    /\ (d_telefono data = None \/ d_telefono data = Some ""
        \/ exists t, d_telefono data = Some t /\ JsStr.PHONE_REGEX t = true).
Proof.
  unfold validateEmployeeData. cbn [fv_isValid]. intros H.
  apply app_length_zero in H. destruct H as [H1 H].
  apply app_length_zero in H. destruct H as [H2 H].
  apply app_length_zero in H. destruct H as [H3 H].
  apply app_length_zero in H. destruct H as [H4 H].
  apply app_length_zero in H. destruct H as [H5 H].
  apply app_length_zero in H. destruct H as [H6 H].
  apply app_length_zero in H. destruct H as [H7 H8].
  destruct (blank (d_nombre data)) eqn:B1; [discriminate|].
  destruct (blank (d_cedula data)) eqn:B2; [discriminate|].
  destruct (blank (d_placa data)) eqn:B3; [discriminate|].
  destruct (not_blank _ B1) as [nombre [En [_ Tn]]].
  destruct (not_blank _ B2) as [cedula [Ec [_ Tc]]].
  destruct (not_blank _ B3) as [placa [Ep [_ Tp]]].
  destruct (negb (Js.truthy_str (d_tipoVehiculo data))) eqn:B4; [discriminate|].
  apply negb_false_iff in B4.
  destruct (d_tipoVehiculo data) as [tipo|] eqn:Et; [|discriminate].
  exists nombre, cedula, placa, tipo.
  rewrite En, Ec, Ep in *. unfold bad_length in *. rewrite Tn in H5.
  rewrite Tc in H6. rewrite Tp in H7. simpl in H5, H6, H7.
  unfold MIN_NAME_LENGTH, MAX_NAME_LENGTH, MIN_CEDULA_LENGTH,
    MAX_CEDULA_LENGTH in *.
  destruct ((_ <? 2) || _)%nat eqn:L1 in H5; [discriminate|].
  destruct ((_ <? 6) || _)%nat eqn:L2 in H6; [discriminate|].
  apply orb_false_iff in L1. destruct L1 as [L1a L1b].
  apply orb_false_iff in L2. destruct L2 as [L2a L2b].
  apply Nat.ltb_ge in L1a, L1b, L2a, L2b.
  destruct (JsStr.PLATE_REGEX (JsStr.toUpperCase_units placa)) eqn:R;
    [|discriminate].
  repeat split; auto; try lia.
  - simpl in B4. intros ->. discriminate.
  - now apply plate_format_restricted.
  - destruct (d_telefono data) as [t|]; [|now left]. right.
    simpl in H8. destruct (String.eqb t "") eqn:E.
    + apply String.eqb_eq in E. subst. now left.
    + right. exists t. split; [reflexivity|].
      simpl in H8. destruct (JsStr.PHONE_REGEX t); [reflexivity|discriminate].
Qed.

Lemma validateEmployeeData_valid_witness :
  exists w, calculatePicoPlacaDay (Some "abc127") = Some w /\ In w weekdays.
Proof.
  destruct (@validateEmployeeData_valid
              (mkEmployeeData (Some "Ana Ruiz") (Some "1032456789")
                 (Some "abc127") (Some "carro") (Some "3001234567")))
    as (n & c & p & t & _ & _ & Hp & _ & _ & _ & _ & _ & H & _);
    [reflexivity|].
  inversion Hp; subst. exact H.
Defined.

End EmployeeValidation.

(* ===================================================================== *)
(** * assignments.js: exclusivity and the life of an assignment *)
(* ===================================================================== *)

Section Exclusivity.

Import Constants Assignments Spec.

Lemma filter_push_active (asgs : list Assignment) (a : Assignment) :
  a_activa a = true ->
  filter a_activa (asgs ++ [a]) = (filter a_activa asgs ++ [a])%list.
Proof. intros Ha. rewrite filter_app. simpl. now rewrite Ha. Qed.

Lemma NoDup_snoc {A : Type} (l : list A) (x : A) :
  ~ In x l -> NoDup l -> NoDup (l ++ [x]).
Proof.
  induction l as [|y l IH]; simpl; intros Hx Hl.
  - constructor; [tauto | constructor].
  - inversion Hl as [|? ? Hy Hl']; subst. constructor.
    + rewrite in_app_iff. simpl. intuition.
    + apply IH; tauto.
Qed.

Lemma no_active_key (key : Assignment -> Z) (asgs : list Assignment) (v : Z) :
  existsb (fun a => (key a =? v) && a_activa a) asgs = false ->
  ~ In v (map key (filter a_activa asgs)).
Proof.
  intros H Hin. apply in_map_iff in Hin. destruct Hin as [a [Hk Ha]].
  apply filter_In in Ha. destruct Ha as [Ha Hact].
  assert (existsb (fun a => (key a =? v) && a_activa a) asgs = true) as Hex.
  { apply existsb_exists. exists a. split; [exact Ha|].
    now rewrite Hk, Z.eqb_refl, Hact. }
  congruence.
Qed.

Lemma active_key (key : Assignment -> Z) (asgs : list Assignment) (v : Z) :
  existsb (fun a => (key a =? v) && a_activa a) asgs = true ->
  In v (map key (filter a_activa asgs)).
Proof.
  intros H. apply existsb_exists in H. destruct H as [a [Ha Hp]].
  apply andb_true_iff in Hp. destruct Hp as [Hk Hact].
  apply Z.eqb_eq in Hk. apply in_map_iff. exists a. split; [exact Hk|].
  apply filter_In. tauto.
Qed.

(** What an accepted pair is. *)
Lemma validateAssignment_accepts (st : AssignmentManager) (fd : FormData) :
  isValid (validateAssignment st fd) = true ->
  exists employee space,
    find (fun emp => e_id emp =? empleadoId fd) (employees st) = Some employee
    /\ find (fun s => s_id s =? parqueaderoId fd) (parkingSpaces st)
       = Some space
    /\ has_active_employee (assignments st) (empleadoId fd) = false
    /\ has_active_space (assignments st) (parqueaderoId fd) = false
    /\ e_tipoVehiculo employee = s_tipo space.
Proof.
  unfold validateAssignment, has_active_employee, has_active_space.
  destruct (find _ (employees st)) as [e|]; [|discriminate].
  destruct (find _ (parkingSpaces st)) as [s|]; [|discriminate].
  destruct (find _ (assignments st)) eqn:E1; [discriminate|].
  destruct (find (fun a => (a_parqueaderoId a =? _) && _) (assignments st))
    eqn:E2; [discriminate|].
  destruct (String.eqb (e_tipoVehiculo e) (s_tipo s)) eqn:Et; [|discriminate].
  intros _. exists e, s. apply String.eqb_eq in Et.
  apply find_none_existsb in E1. apply find_none_existsb in E2. auto.
Qed.

(** Creating the assignment of an accepted pair keeps the exclusivity. *)
Lemma createAssignment_exclusive (today : string) (newId : Z) (fd : FormData)
    (st : AssignmentManager) :
  has_active_employee (assignments st) (empleadoId fd) = false ->
  has_active_space (assignments st) (parqueaderoId fd) = false ->
  exclusive (assignments st) ->
  exclusive (assignments (createAssignment today newId fd st)).
Proof.
  intros He Hs [Hx1 Hx2]. unfold exclusive, createAssignment. simpl.
  rewrite filter_push_active by reflexivity. rewrite !map_app. simpl.
  split; apply NoDup_snoc; auto.
  - now apply (no_active_key a_empleadoId).
  - now apply (no_active_key a_parqueaderoId).
Qed.

(** A manual assignment keeps the exclusivity: if no employee and no space
    has two active assignments before the form is submitted, none has
    after, whatever the form holds. *)
Theorem handleFormSubmit_exclusive (today : string) (newId : Z)
    (dom : FormFields) (st : AssignmentManager) :
  exclusive (assignments st) ->
  exclusive (assignments (fst (handleFormSubmit today newId dom st))).
Proof.
  intros Hx.
  destruct (handleFormSubmit_validates today newId dom st)
    as [->|[fd [_ [Hv ->]]]]; [exact Hx|].
  destruct (validateAssignment_accepts _ _ Hv) as [e [s [_ [_ [He [Hs _]]]]]].
  now apply createAssignment_exclusive.
Qed.

Lemma handleFormSubmit_exclusive_witness :
  exclusive
    (assignments (fst (handleFormSubmit "2024-06-03" 100 form_7_10
                         one_to_assign))).
Proof.
  apply handleFormSubmit_exclusive. split; constructor.
Defined.

(** The active records after a record is ended are among those before. *)
Lemma ended_active_subset (key : Assignment -> Z) (today : string)
    (p : Assignment -> bool) (asgs : list Assignment) :
  NoDup (map key (filter a_activa asgs)) ->
  NoDup (map key (filter a_activa (update_first p (end_record today) asgs)))
  /\ incl (map key (filter a_activa (update_first p (end_record today) asgs)))
       (map key (filter a_activa asgs)).
Proof.
  induction asgs as [|a l IH]; simpl; intros Hnd.
  - split; [constructor | apply incl_refl].
  - destruct (p a); simpl.
    + destruct (a_activa a); simpl in *.
      * inversion Hnd; subst. split; [assumption|].
        apply incl_tl, incl_refl.
      * split; [assumption | apply incl_refl].
    + destruct (a_activa a); simpl in *.
      * inversion Hnd as [|? ? Hnot Hl]; subst.
        destruct (IH Hl) as [H1 H2]. split.
        -- constructor; [|exact H1]. intros Hin. apply Hnot. now apply H2.
        -- intros x [<-|Hx]; [now left | right; now apply H2].
      * now apply IH.
Qed.

(** Ending an assignment keeps the exclusivity, whichever id is given and
    whatever the user answers. *)
Theorem endAssignment_exclusive (confirmed : bool) (today : string) (id : Z)
    (st : AssignmentManager) :
  exclusive (assignments st) ->
  exclusive (assignments (fst (endAssignment confirmed today id st))).
Proof.
  intros [H1 H2]. unfold endAssignment.
  destruct (find _ (assignments st)); [|now split].
  destruct (negb confirmed); [now split|]. simpl. split.
  - now apply (ended_active_subset a_empleadoId).
  - now apply (ended_active_subset a_parqueaderoId).
Qed.

Lemma endAssignment_exclusive_witness :
  exclusive
    (assignments (fst (endAssignment true "2024-06-03" 2 ended_and_reassigned))).
Proof.
  apply endAssignment_exclusive.
  split; simpl; (constructor; [simpl; tauto | constructor]).
Defined.

End Exclusivity.

Section AssignmentLife.

Import Constants Assignments Spec.

(** What [createAssignment] does to the store when the space is in it: the
    record is appended, and the first space with the id becomes occupied
    by the employee. *)
Lemma createAssignment_effect (today : string) (newId : Z) (fd : FormData)
    (st : AssignmentManager) (space : ParkingSpace) :
  find (fun s => s_id s =? parqueaderoId fd) (parkingSpaces st) = Some space ->
  let st' := createAssignment today newId fd st in
  assignments st'
  = (assignments st
     ++ [mkAssignment newId (empleadoId fd) (parqueaderoId fd)
           (fechaInicio fd) (fechaFin fd) true today])%list
  /\ employees st' = employees st
  /\ s_id space = parqueaderoId fd
  /\ (exists l1 l2,
        parkingSpaces st = (l1 ++ space :: l2)%list
        /\ (forall x, In x l1 -> s_id x <> parqueaderoId fd)
        /\ parkingSpaces st'
           = (l1 ++ mkSpace (s_id space) (s_numero space) (s_sotano space)
                      (s_tipo space) "ocupado" (Some (empleadoId fd))
                      (s_fechaCreacion space) :: l2)%list)
  /\ find (fun s => s_id s =? parqueaderoId fd) (parkingSpaces st')
     = Some (mkSpace (s_id space) (s_numero space) (s_sotano space)
               (s_tipo space) "ocupado" (Some (empleadoId fd))
               (s_fechaCreacion space)).
Proof.
  intros Hs st'.
  assert (s_id space = parqueaderoId fd) as Hid
    by (apply find_some in Hs; destruct Hs as [_ Hs]; now apply Z.eqb_eq).
  destruct (update_first_split _
              (fun parkingSpace =>
                 {| s_id := s_id parkingSpace;
                    s_numero := s_numero parkingSpace;
                    s_sotano := s_sotano parkingSpace;
                    s_tipo := s_tipo parkingSpace;
                    s_estado := OCUPADO;
                    s_empleadoAsignado := Some (empleadoId fd);
                    s_fechaCreacion := s_fechaCreacion parkingSpace |}) _ Hs)
    as [l1 [l2 [H1 [H2 H3]]]].
  split; [reflexivity|]. split; [reflexivity|]. split; [exact Hid|]. split.
  - exists l1, l2. repeat split; auto.
    intros x Hx. apply Z.eqb_neq. now apply H3.
  - unfold st', createAssignment. cbn [parkingSpaces]. rewrite H2.
    clear H1 H2. induction l1 as [|x l1 IH]; simpl.
    + rewrite Hid, Z.eqb_refl. reflexivity.
    + rewrite (H3 x) by now left. apply IH. intros y Hy. apply H3. now right.
Qed.

(** A successful manual assignment: one active record with the ids and the
    dates of the form is appended; the first space with the id, which has
    the vehicle type of the employee, becomes occupied by the employee;
    the other spaces, the earlier records and the employees are left as
    they were.  The success alert is shown unless the document has the
    form and no input [fechaInicio]: then the reset of the form throws
    after the assignment has been created, and the alert shown is the
    error of the [catch]. *)
Theorem handleFormSubmit_success (today : string) (newId : Z)
    (dom : FormFields) (st : AssignmentManager) (fd : FormData) :
  validateAssignmentData (getFormData today dom) = Some fd ->
  isValid (validateAssignment st fd) = true ->
  let r := handleFormSubmit today newId dom st in
  assignments (fst r)
  = (assignments st
     ++ [mkAssignment newId (empleadoId fd) (parqueaderoId fd)
           (fechaInicio fd) (fechaFin fd) true today])%list
  /\ employees (fst r) = employees st
  /\ (exists l1 space l2 employee,
        parkingSpaces st = (l1 ++ space :: l2)%list
        /\ (forall x, In x l1 -> s_id x <> parqueaderoId fd)
        /\ s_id space = parqueaderoId fd
        /\ find (fun emp => e_id emp =? empleadoId fd) (employees st)
           = Some employee
        /\ e_tipoVehiculo employee = s_tipo space
        /\ parkingSpaces (fst r)
           = (l1 ++ mkSpace (s_id space) (s_numero space) (s_sotano space)
                      (s_tipo space) "ocupado" (Some (empleadoId fd))
                      (s_fechaCreacion space) :: l2)%list)
  /\ (asignacionForm dom = false \/ fechaInicioField dom <> None ->
      snd r = [mkAlert (Some "Parqueadero asignado exitosamente") SUCCESS])
  /\ (asignacionForm dom = true -> fechaInicioField dom = None ->
      snd r = [mkAlert (Some "Error al crear asignación") DANGER]).
Proof.
  intros Hfd Hv r.
  destruct (validateAssignment_accepts _ _ Hv) as [e [s [He [Hs [_ [_ Ht]]]]]].
  destruct (createAssignment_effect today newId fd st Hs)
    as [Ha [Hemp [Hid [[l1 [l2 [H1 [H2 H3]]]] _]]]].
  assert (fst r = createAssignment today newId fd st) as Hfst.
  { unfold r, handleFormSubmit. rewrite Hfd, Hv. cbn [negb].
    now destruct (clearForm dom). }
  rewrite Hfst. split; [exact Ha|]. split; [exact Hemp|]. split.
  { exists l1, s, l2, e. repeat split; auto. }
  unfold r, handleFormSubmit. rewrite Hfd, Hv. cbn [negb]. unfold clearForm.
  split.
  - intros [H|H].
    + now rewrite H.
    + destruct (asignacionForm dom); [|reflexivity].
      destruct (fechaInicioField dom); [reflexivity | congruence].
  - intros H1' H2'. now rewrite H1', H2'.
Qed.

Lemma handleFormSubmit_success_witness :
  map a_activa
    (assignments (fst (handleFormSubmit "2024-06-03" 100 form_7_10
                         one_to_assign))) = [true]
  /\ snd (handleFormSubmit "2024-06-03" 100 form_7_10 one_to_assign)
     = [mkAlert (Some "Parqueadero asignado exitosamente") SUCCESS]
  /\ snd (handleFormSubmit "2024-06-03" 100 form_without_date one_to_assign)
     = [mkAlert (Some "Error al crear asignación") DANGER].
Proof.
  destruct (@handleFormSubmit_success "2024-06-03" 100 form_7_10 one_to_assign
              (mkForm 7 10 "2024-06-03" None) eq_refl eq_refl)
    as [H1 [_ [_ [H4 _]]]].
  destruct (@handleFormSubmit_success "2024-06-03" 100 form_without_date
              one_to_assign (mkForm 7 10 "2024-06-03" None) eq_refl eq_refl)
    as [_ [_ [_ [_ H5]]]].
  split; [now rewrite H1|]. split.
  - apply H4. right. discriminate.
  - apply H5; reflexivity.
Defined.

Lemma update_first_undo {A : Type} (p : A -> bool) (f g : A -> A)
    (l : list A) (x : A) :
  find p l = Some x -> p (f x) = true -> g (f x) = x ->
  update_first p g (update_first p f l) = l.
Proof.
  induction l as [|y l IH]; simpl; [discriminate|].
  destruct (p y) eqn:E.
  - intros H Hp Hg. inversion H; subst. simpl. now rewrite Hp, Hg.
  - intros H Hp Hg. simpl. rewrite E. f_equal. now apply IH.
Qed.

Lemma find_fresh_last (asgs : list Assignment) (a : Assignment) :
  ~ In (a_id a) (map a_id asgs) ->
  find (fun x => a_id x =? a_id a) (asgs ++ [a]) = Some a
  /\ forall f, update_first (fun x => a_id x =? a_id a) f (asgs ++ [a])
               = (asgs ++ [f a])%list.
Proof.
  induction asgs as [|y l IH]; simpl; intros Hf.
  - rewrite Z.eqb_refl. auto.
  - destruct (a_id y =? a_id a) eqn:E.
    + apply Z.eqb_eq in E. tauto.
    + destruct IH as [H1 H2]; [tauto|]. split; [exact H1|].
      intros f. now rewrite H2.
Qed.

(** Assigning and then ending restores the spaces.  When the space of an
    accepted pair was available with no employee, and the id of the new
    record is fresh, ending the record gives back the spaces and the
    employees as they were, leaves the record in the list, inactive and
    closed on the day of the ending, and the validator accepts the pair
    again. *)
Theorem assign_then_end_restores (today later : string) (newId : Z)
    (fd : FormData) (st : AssignmentManager) (space : ParkingSpace) :
  isValid (validateAssignment st fd) = true ->
  find (fun s => s_id s =? parqueaderoId fd) (parkingSpaces st) = Some space ->
  s_estado space = "disponible" -> s_empleadoAsignado space = None ->
  ~ In newId (map a_id (assignments st)) ->
  let st1 := createAssignment today newId fd st in
  let st2 := fst (endAssignment true later newId st1) in
  parkingSpaces st2 = parkingSpaces st
  /\ employees st2 = employees st
  /\ assignments st2
     = (assignments st
        ++ [mkAssignment newId (empleadoId fd) (parqueaderoId fd)
              (fechaInicio fd) (Some later) false today])%list
  /\ isValid (validateAssignment st2 fd) = true.
Proof.
  intros Hv Hs Hestado Hnone Hfresh st1 st2.
  set (a := mkAssignment newId (empleadoId fd) (parqueaderoId fd)
              (fechaInicio fd) (fechaFin fd) true today).
  destruct (@find_fresh_last (assignments st) a) as [Hfind Hupd];
    [exact Hfresh|].
  assert (st2 = {| assignments := (assignments st ++ [end_record later a])%list;
                   employees := employees st;
                   parkingSpaces := parkingSpaces st |}) as ->.
  { unfold st2, st1, endAssignment, createAssignment. cbn [assignments].
    fold a. change newId with (a_id a). rewrite Hfind. simpl negb. cbv iota.
    cbn [fst parkingSpaces employees]. rewrite Hupd. f_equal.
    cbn [a_parqueaderoId a].
    apply (update_first_undo _ _ _ _ Hs).
    - simpl. apply find_some in Hs. tauto.
    - destruct space; simpl in *. subst. reflexivity. }
  simpl. repeat split.
  destruct (validateAssignment_accepts _ _ Hv)
    as [e [s [He [Hs' [Hae [Has Ht]]]]]].
  unfold validateAssignment. simpl. rewrite He, Hs'.
  unfold has_active_employee, has_active_space in *.
  assert (forall key v,
            existsb (fun x => (key x =? v) && a_activa x) (assignments st) = false ->
            find (fun x => (key x =? v) && a_activa x)
              (assignments st ++ [end_record later a]) = None) as Hno.
  { intros key v H. apply find_none_existsb. rewrite existsb_app, H. simpl.
    now rewrite andb_false_r. }
  rewrite (Hno a_empleadoId _ Hae), (Hno a_parqueaderoId _ Has).
  rewrite Ht, String.eqb_refl. reflexivity.
Qed.

Lemma assign_then_end_restores_witness :
  parkingSpaces
    (fst (endAssignment true "2024-06-04" 100
            (createAssignment "2024-06-03" 100 (mkForm 7 10 "2024-06-03" None)
               one_to_assign)))
  = parkingSpaces one_to_assign.
Proof.
  apply (@assign_then_end_restores "2024-06-03" "2024-06-04" 100
           (mkForm 7 10 "2024-06-03" None) one_to_assign
           (space_of 10 "disponible" None));
    [reflexivity | reflexivity | reflexivity | reflexivity | simpl; tauto].
Defined.

End AssignmentLife.

Section AutoPassProperties.

Import Constants Assignments Spec.

Variable today : string.
Variable genId : nat -> Z.

Lemma update_first_keeps {A B : Type} (g : A -> B) (p : A -> bool)
    (f : A -> A) (l : list A) :
  (forall x, g (f x) = g x) -> map g (update_first p f l) = map g l.
Proof.
  intros Hg. induction l as [|x l IH]; simpl; [reflexivity|].
  destruct (p x); simpl; [now rewrite Hg | now rewrite IH].
Qed.

Lemma createAssignment_ids_types (newId : Z) (fd : FormData)
    (st : AssignmentManager) :
  map (fun s => (s_id s, s_tipo s))
    (parkingSpaces (createAssignment today newId fd st))
  = map (fun s => (s_id s, s_tipo s)) (parkingSpaces st).
Proof. unfold createAssignment. simpl. now apply update_first_keeps. Qed.

Lemma autoAssignLoop_structure (avail : list nat) (emps : list Employee) :
  forall (st : AssignmentManager) (count : nat),
    let r := autoAssignLoop today genId avail emps st count in
    exists created,
      assignments (fst r) = (assignments st ++ created)%list
      /\ snd r = (count + List.length created)%nat
      /\ (List.length created <= List.length emps)%nat
      /\ employees (fst r) = employees st
      /\ map (fun s => (s_id s, s_tipo s)) (parkingSpaces (fst r))
         = map (fun s => (s_id s, s_tipo s)) (parkingSpaces st)
      /\ Forall (fun a =>
                   a_activa a = true /\ a_fechaInicio a = today
                   /\ a_fechaFin a = None
                   /\ exists e, In e emps /\ a_empleadoId a = e_id e
                                /\ In (a_parqueaderoId a, e_tipoVehiculo e)
                                     (map (fun s => (s_id s, s_tipo s))
                                        (parkingSpaces st))) created.
Proof.
  induction emps as [|e rest IH]; intros st count.
  - exists []. simpl. rewrite app_nil_r, Nat.add_0_r. auto 10.
  - cbn [autoAssignLoop].
    destruct (filter _ avail) as [|ref l] eqn:Ef.
    + destruct (IH st count) as [created (H1 & H2 & H3 & H4 & H5 & H6)].
      exists created. repeat split; auto; [simpl; lia|].
      eapply Forall_impl; [|exact H6].
      intros a (Ha & Hb & Hc & e' & He' & Hd). repeat split; auto.
      exists e'. split; [now right | exact Hd].
    + destruct (@compatible_head avail st e ref l Ef)
        as [Hav [space [Hn [Ht Hc]]]].
      rewrite Hn.
      set (fd := {| empleadoId := e_id e; parqueaderoId := s_id space;
                    fechaInicio := today; fechaFin := None |}).
      destruct (IH (createAssignment today (genId count) fd st) (S count))
        as [created (H1 & H2 & H3 & H4 & H5 & H6)].
      rewrite createAssignment_ids_types in H5, H6.
      exists ({| a_id := genId count; a_empleadoId := e_id e;
                 a_parqueaderoId := s_id space; a_fechaInicio := today;
                 a_fechaFin := None; a_activa := true;
                 a_fechaCreacion := today |} :: created).
      repeat split; auto.
      * rewrite H1. unfold createAssignment. simpl.
        now rewrite <- app_assoc.
      * rewrite H2. simpl. lia.
      * simpl. lia.
      * constructor.
        -- simpl. repeat split. exists e. split; [now left|].
           split; [reflexivity|]. rewrite <- Ht.
           apply (in_map (fun s => (s_id s, s_tipo s))).
           eapply nth_error_In; eauto.
        -- eapply Forall_impl; [|exact H6].
           intros a (Ha & Hb & Hc' & e' & He' & Hd). repeat split; auto.
           exists e'. split; [now right | exact Hd].
Qed.

(** The automatic pass only appends.  Whatever the store, the earlier
    records, the employees and the id and type of every space are left as
    they were; at most one record is added per unassigned employee; every
    record added is active, starts today with no end date, belongs to an
    employee that had no active assignment, and names the id of a space of
    the employee's vehicle type; and the count reported is the number of
    records added. *)
Theorem performAutoAssignment_appends (confirmed : bool)
    (st : AssignmentManager) :
  let r := performAutoAssignment confirmed today genId st in
  exists created,
    assignments (fst r) = (assignments st ++ created)%list
    /\ (List.length created <= List.length (unassigned st))%nat
    /\ employees (fst r) = employees st
    /\ map (fun s => (s_id s, s_tipo s)) (parkingSpaces (fst r))
       = map (fun s => (s_id s, s_tipo s)) (parkingSpaces st)
    /\ Forall (fun a =>
                 a_activa a = true /\ a_fechaInicio a = today
                 /\ a_fechaFin a = None
                 /\ exists e, In e (employees st)
                              /\ has_active_employee (assignments st) (e_id e)
                                 = false
                              /\ a_empleadoId a = e_id e
                              /\ In (a_parqueaderoId a, e_tipoVehiculo e)
                                   (map (fun s => (s_id s, s_tipo s))
                                      (parkingSpaces st))) created
    /\ (confirmed = true -> unassigned st <> [] -> available_refs st <> [] ->
        snd r = [mkAlert (Some (auto_message (List.length created))) SUCCESS]).
Proof.
  intros r. unfold r, performAutoAssignment.
  destruct (unassigned st) as [|e0 rest0] eqn:Eu.
  { exists []. simpl. rewrite app_nil_r. repeat split; auto. congruence. }
  destruct (available_refs st) as [|r0 refs0] eqn:Ea.
  { exists []. simpl. rewrite app_nil_r. repeat split; auto; [lia|congruence]. }
  destruct confirmed; simpl negb; cbv iota.
  2:{ exists []. simpl. rewrite app_nil_r. repeat split; auto; [lia|].
      discriminate. }
  destruct (autoAssignLoop_structure (r0 :: refs0) (e0 :: rest0) st 0)
    as [created (H1 & H2 & H3 & H4 & H5 & H6)].
  destruct (autoAssignLoop today genId (r0 :: refs0) (e0 :: rest0) st 0)
    as [st' n] eqn:El.
  cbn [fst snd] in *. exists created. repeat split; auto.
  - eapply Forall_impl; [|exact H6].
    intros a (Ha & Hb & Hc & e & He & Hd & Hf). repeat split; auto.
    exists e. rewrite <- Eu in He. unfold unassigned in He.
    apply filter_In in He. destruct He as [He Hact].
    apply negb_true_iff in Hact. auto.
  - intros _ _ _. now rewrite H2.
Qed.

(** The validated loop keeps the exclusivity. *)
Lemma autoAssignLoop_validated_exclusive (avail : list nat)
    (emps : list Employee) :
  forall (st : AssignmentManager) (count : nat),
    exclusive (assignments st) ->
    exclusive
      (assignments
         (fst (autoAssignLoop_validated today genId avail emps st count))).
Proof.
  induction emps as [|e rest IH]; intros st count Hx; [exact Hx|].
  cbn [autoAssignLoop_validated].
  destruct (filter _ avail) as [|ref l]; [now apply IH|].
  destruct (nth_error (parkingSpaces st) ref) as [space|]; [|now apply IH].
  destruct (isValid (validateAssignment st _)) eqn:Hv; [|now apply IH].
  apply IH.
  destruct (validateAssignment_accepts _ _ Hv) as [e' [s [_ [_ [He [Hs _]]]]]].
  now apply createAssignment_exclusive.
Qed.

(** On a store with distinct ids and non-zero employee ids the loop of the
    pass, started as the pass starts it, is the validated loop. *)
Lemma autoAssignLoop_start_validated (st : AssignmentManager) :
  distinct_space_ids st -> distinct_employee_ids st ->
  nonzero_employee_ids st ->
  autoAssignLoop today genId (available_refs st) (unassigned st) st 0
  = autoAssignLoop_validated today genId (available_refs st) (unassigned st)
      st 0.
Proof.
  intros Hs He Hnz. apply autoAssignLoop_validated_eq; auto.
  - unfold unassigned. now apply NoDup_map_filter.
  - intros e Hin. unfold unassigned in Hin.
    apply filter_In in Hin. destruct Hin as [Hin Hact].
    apply negb_true_iff in Hact. auto.
  - intros i s Hi Hn _. unfold available_refs in Hi.
    apply filter_refs_In in Hi. destruct Hi as [x [Hx Hp]].
    rewrite Hn in Hx. inversion Hx; subst.
    apply andb_true_iff in Hp. destruct Hp as [_ Hp].
    now apply negb_true_iff in Hp.
Qed.

(** The automatic pass keeps the exclusivity on a store whose space ids are
    pairwise distinct and whose employee ids are pairwise distinct and
    non-zero. *)
Theorem performAutoAssignment_exclusive (confirmed : bool)
    (st : AssignmentManager) :
  distinct_space_ids st -> distinct_employee_ids st ->
  nonzero_employee_ids st ->
  exclusive (assignments st) ->
  exclusive
    (assignments (fst (performAutoAssignment confirmed today genId st))).
Proof.
  intros Hs He Hnz Hx. unfold performAutoAssignment.
  destruct (unassigned st) as [|e0 rest0] eqn:Eu; [exact Hx|].
  destruct (available_refs st) as [|r0 refs0] eqn:Ea; [exact Hx|].
  destruct (negb confirmed); [exact Hx|].
  rewrite <- Eu, <- Ea, autoAssignLoop_start_validated by assumption.
  pose proof (autoAssignLoop_validated_exclusive (available_refs st)
                (unassigned st) st 0 Hx) as H.
  now destruct (autoAssignLoop_validated _ _ _ _ _ _).
Qed.

End AutoPassProperties.

Lemma performAutoAssignment_appends_witness :
  snd (Assignments.performAutoAssignment true "2024-06-03" ids_from_100
         one_to_assign)
  = [Assignments.mkAlert (Some (Assignments.auto_message 1)) Constants.SUCCESS].
Proof.
  destruct (performAutoAssignment_appends "2024-06-03" ids_from_100 true
              one_to_assign) as [created (H1 & _ & _ & _ & _ & H6)].
  simpl in H1. subst created. apply H6; [reflexivity | discriminate |].
  vm_compute. discriminate.
Defined.

Lemma performAutoAssignment_exclusive_witness :
  exclusive
    (Assignments.assignments
       (fst (Assignments.performAutoAssignment true "2024-06-03" ids_from_100
               one_to_assign))).
Proof.
  apply performAutoAssignment_exclusive.
  - unfold Spec.distinct_space_ids. simpl.
    repeat constructor; simpl; intuition discriminate.
  - unfold Spec.distinct_employee_ids. simpl.
    repeat constructor; simpl; intuition discriminate.
  - intros e [<-|[]]. discriminate.
  - split; constructor.
Defined.

Section QuickAssignment.

Import Constants Assignments AssignmentsMore Spec.

Lemma createAssignment_employee_exclusive (today : string) (newId : Z)
    (fd : FormData) (st : AssignmentManager) :
  has_active_employee (assignments st) (empleadoId fd) = false ->
  employee_exclusive (assignments st) ->
  employee_exclusive (assignments (createAssignment today newId fd st)).
Proof.
  intros He Hx. unfold employee_exclusive, createAssignment. simpl.
  rewrite filter_push_active by reflexivity. rewrite map_app. simpl.
  apply NoDup_snoc; [|exact Hx]. now apply (no_active_key a_empleadoId).
Qed.

Lemma filter_filter_andb {A : Type} (p q : A -> bool) (l : list A) :
  filter q (filter p l) = filter (fun x => p x && q x) l.
Proof.
  induction l as [|x l IH]; simpl; [reflexivity|].
  destruct (p x); simpl; [|exact IH]. destruct (q x); now rewrite IH.
Qed.

Lemma filter_nothing {A : Type} (p : A -> bool) (l : list A) :
  (forall x, In x l -> p x = false) -> filter p l = [].
Proof.
  induction l as [|x l IH]; simpl; intros H; [reflexivity|].
  rewrite (H x) by now left. apply IH. intros y Hy. apply H. now right.
Qed.

Lemma filter_first {A : Type} (p : A -> bool) (l1 l2 : list A) (x : A) :
  (forall y, In y l1 -> p y = false) -> p x = true ->
  filter p (l1 ++ x :: l2) = x :: filter p l2.
Proof.
  intros H1 Hx. rewrite filter_app, (filter_nothing _ _ H1). simpl.
  now rewrite Hx.
Qed.

Lemma restricted_on_today (getDay : string -> option nat) (today : string)
    (placa : option string) :
  HelpersMore.isTodayPicoPlaca getDay today placa = true
  <-> restricted_on getDay today placa.
Proof. unfold HelpersMore.isTodayPicoPlaca. apply restricted_on_same_day. Qed.

(** The quick assignment of a space.  It fails, writing nothing, exactly
    when the space is unknown and some employee is unassigned.  It changes
    nothing, and warns, when the space is unknown and every employee is
    assigned, and when the space is known and no unassigned employee has
    its type.  Otherwise it assigns the space, from today and with no end
    date, to the first unassigned employee of the roster that has the type
    of the space, which never gives an employee a second active
    assignment.  It does not look at the assignments of the space: the
    validator accepts the pair when the space has no active assignment and
    the employee ids are pairwise distinct. *)
Theorem quickAssign_effect (today : string) (newId : Z) (parkingSpaceId : Z)
    (st : AssignmentManager) :
  (quickAssign today newId parkingSpaceId st = None
   <-> find (fun s => s_id s =? parkingSpaceId) (parkingSpaces st) = None
       /\ exists e, In e (employees st)
                    /\ is_unassigned (assignments st) e = true)
  /\ (find (fun s => s_id s =? parkingSpaceId) (parkingSpaces st) = None ->
      (forall e, In e (employees st) ->
                 is_unassigned (assignments st) e = false) ->
      quickAssign today newId parkingSpaceId st
      = Some (st, [mkAlert (Some "No hay empleados compatibles disponibles")
                     WARNING]))
  /\ (forall space,
        find (fun s => s_id s =? parkingSpaceId) (parkingSpaces st)
        = Some space ->
        ((forall e, In e (employees st) ->
                    is_unassigned (assignments st) e = true ->
                    e_tipoVehiculo e <> s_tipo space) ->
         quickAssign today newId parkingSpaceId st
         = Some (st, [mkAlert (Some "No hay empleados compatibles disponibles")
                        WARNING]))
        /\ (forall l1 employee l2,
              employees st = (l1 ++ employee :: l2)%list ->
              (forall x, In x l1 ->
                         is_unassigned (assignments st) x = true ->
                         e_tipoVehiculo x <> s_tipo space) ->
              is_unassigned (assignments st) employee = true ->
              e_tipoVehiculo employee = s_tipo space ->
              let st' :=
                createAssignment today newId
                  (mkForm (e_id employee) parkingSpaceId today None) st in
              quickAssign today newId parkingSpaceId st
              = Some (st',
                      [mkAlert
                         (Some ("Parqueadero " ++ s_numero space
                                ++ " asignado a " ++ e_nombre employee))
                         SUCCESS])
              /\ assignments st'
                 = (assignments st
                    ++ [mkAssignment newId (e_id employee) parkingSpaceId
                          today None true today])%list
              /\ employees st' = employees st
              /\ find (fun s => s_id s =? parkingSpaceId) (parkingSpaces st')
                 = Some (mkSpace (s_id space) (s_numero space) (s_sotano space)
                           (s_tipo space) "ocupado" (Some (e_id employee))
                           (s_fechaCreacion space))
              /\ (employee_exclusive (assignments st) ->
                  employee_exclusive (assignments st'))
              /\ (has_active_space (assignments st) parkingSpaceId = false ->
                  distinct_employee_ids st ->
                  isValid (validateAssignment st
                             (mkForm (e_id employee) parkingSpaceId today None))
                  = true))).
Proof.
  assert (unassigned st = filter (is_unassigned (assignments st)) (employees st))
    as Hu by (symmetry; apply unassigned_employees_unassigned).
  split; [|split].
  - unfold quickAssign. rewrite Hu.
    destruct (find _ (parkingSpaces st)) as [space|] eqn:Es.
    + split; [|intros [H _]; discriminate].
      destruct (filter _ (filter _ _)); discriminate.
    + destruct (filter _ (employees st)) as [|e l] eqn:Ef.
      * split; [discriminate|]. intros [_ [e [He Hf]]].
        assert (In e (filter (is_unassigned (assignments st)) (employees st)))
          as Hin by (apply filter_In; tauto).
        rewrite Ef in Hin. destruct Hin.
      * split; [|reflexivity]. intros _. split; [reflexivity|].
        assert (In e (e :: l)) as Hin by now left.
        rewrite <- Ef in Hin. apply filter_In in Hin. now exists e.
  - intros Es Hnone. unfold quickAssign. rewrite Es, Hu.
    now rewrite (filter_nothing _ _ Hnone).
  - intros space Es. split.
    + intros Hnone. unfold quickAssign. rewrite Es, Hu, filter_filter_andb.
      rewrite filter_nothing; [reflexivity|].
      intros e He. destruct (is_unassigned (assignments st) e) eqn:Ef;
        [|reflexivity]. simpl. apply String.eqb_neq. now apply Hnone.
    + intros l1 employee l2 Hl Hl1 Hfree Htype st'.
      assert (quickAssign today newId parkingSpaceId st
              = Some (st',
                      [mkAlert
                         (Some ("Parqueadero " ++ s_numero space
                                ++ " asignado a " ++ e_nombre employee))
                         SUCCESS])) as Hq.
      { unfold quickAssign. rewrite Es, Hu, filter_filter_andb, Hl.
        rewrite filter_first; [reflexivity| |].
        - intros y Hy. destruct (is_unassigned (assignments st) y) eqn:Ef;
            [|reflexivity]. simpl. apply String.eqb_neq. now apply Hl1.
        - rewrite Hfree, Htype. simpl. apply String.eqb_refl. }
      assert (has_active_employee (assignments st) (e_id employee) = false)
        as Ha.
      { rewrite is_unassigned_code in Hfree. now apply negb_true_iff in Hfree. }
      destruct (@createAssignment_effect today newId
                  (mkForm (e_id employee) parkingSpaceId today None) st space Es)
        as [H1 [H2 [_ [_ H5]]]].
      split; [exact Hq|]. split; [exact H1|]. split; [exact H2|].
      split; [exact H5|]. split.
      * intros Hx. now apply createAssignment_employee_exclusive.
      * intros Hsp Hd. unfold validateAssignment. simpl.
        assert (In employee (employees st)) as Hin
          by (rewrite Hl; apply in_elt).
        rewrite (find_by_key_In e_id _ _ Hd Hin), Es.
        unfold has_active_employee in Ha. unfold has_active_space in Hsp.
        rewrite (proj2 (find_none_existsb _ _) Ha).
        rewrite (proj2 (find_none_existsb _ _) Hsp).
        now rewrite Htype, String.eqb_refl.
Qed.

Lemma quickAssign_effect_witness :
  quickAssign "2024-06-03" 100 10 one_to_assign
  = Some (createAssignment "2024-06-03" 100 (mkForm 7 10 "2024-06-03" None)
            one_to_assign,
          [mkAlert (Some "Parqueadero S1-C001 asignado a Ana") SUCCESS])
  /\ quickAssign "2024-06-03" 100 12 one_to_assign = None.
Proof.
  destruct (quickAssign_effect "2024-06-03" 100 10 one_to_assign)
    as [_ [_ H]].
  destruct (H (space_of 10 "disponible" None) eq_refl) as [_ H1].
  destruct (H1 [] ana [] eq_refl) as [Hq _];
    [intros x [] | reflexivity | reflexivity |].
  split; [exact Hq|].
  apply (quickAssign_effect "2024-06-03" 100 12 one_to_assign).
  split; [reflexivity|]. exists ana. split; [now left | reflexivity].
Defined.

(** The temporary reassignment of a space.  It changes nothing and shows
    nothing when the space is unknown; it changes nothing, and warns, when
    no employee qualifies, that is, has no active assignment, has the type
    of the space and is not restricted today.  Otherwise it appends one
    active record, for today only, for the first employee of the roster
    that qualifies, which never gives an employee a second active
    assignment.  The record of the employee that held the space is not
    ended: when the space had an active assignment it has two afterwards,
    and the space then names the temporary employee. *)
Theorem reassignPicoPlacaSpace_effect (getDay : string -> option nat)
    (today : string) (newId : Z) (parkingSpaceId : Z) (st : AssignmentManager) :
  (find (fun s => s_id s =? parkingSpaceId) (parkingSpaces st) = None ->
   reassignPicoPlacaSpace getDay today newId parkingSpaceId st = (st, []))
  /\ (forall space,
        find (fun s => s_id s =? parkingSpaceId) (parkingSpaces st)
        = Some space ->
        ((forall e, In e (employees st) ->
                    is_unassigned (assignments st) e = true ->
                    e_tipoVehiculo e = s_tipo space ->
                    restricted_on getDay today (e_placa e)) ->
         reassignPicoPlacaSpace getDay today newId parkingSpaceId st
         = (st, [mkAlert
                   (Some "No hay empleados disponibles para reasignación temporal")
                   WARNING]))
        /\ (forall l1 employee l2,
              employees st = (l1 ++ employee :: l2)%list ->
              (forall x, In x l1 ->
                         is_unassigned (assignments st) x = true ->
                         e_tipoVehiculo x = s_tipo space ->
                         restricted_on getDay today (e_placa x)) ->
              is_unassigned (assignments st) employee = true ->
              e_tipoVehiculo employee = s_tipo space ->
              ~ restricted_on getDay today (e_placa employee) ->
              let st' :=
                createAssignment today newId
                  (mkForm (e_id employee) parkingSpaceId today (Some today))
                  st in
              reassignPicoPlacaSpace getDay today newId parkingSpaceId st
              = (st',
                 [mkAlert
                    (Some ("Parqueadero " ++ s_numero space
                           ++ " reasignado temporalmente a "
                           ++ e_nombre employee)) SUCCESS])
              /\ assignments st'
                 = (assignments st
                    ++ [mkAssignment newId (e_id employee) parkingSpaceId
                          today (Some today) true today])%list
              /\ employees st' = employees st
              /\ find (fun s => s_id s =? parkingSpaceId) (parkingSpaces st')
                 = Some (mkSpace (s_id space) (s_numero space) (s_sotano space)
                           (s_tipo space) "ocupado" (Some (e_id employee))
                           (s_fechaCreacion space))
              /\ (employee_exclusive (assignments st) ->
                  employee_exclusive (assignments st'))
              /\ (has_active_space (assignments st) parkingSpaceId = true ->
                  ~ space_exclusive (assignments st')))).
Proof.
  split.
  - intros Es. unfold reassignPicoPlacaSpace. now rewrite Es.
  - intros space Es.
    assert (forall e,
              negb (has_active_employee (assignments st) (e_id e))
              && String.eqb (e_tipoVehiculo e) (s_tipo space)
              && negb (HelpersMore.isTodayPicoPlaca getDay today (e_placa e))
              = true
              <-> is_unassigned (assignments st) e = true
                  /\ e_tipoVehiculo e = s_tipo space
                  /\ ~ restricted_on getDay today (e_placa e)) as Hq.
    { intros e. rewrite !andb_true_iff, String.eqb_eq.
      rewrite <- restricted_on_today, is_unassigned_code, !negb_true_iff.
      destruct (HelpersMore.isTodayPicoPlaca getDay today (e_placa e));
        simpl; intuition congruence. }
    assert (forall e,
              (is_unassigned (assignments st) e = true ->
               e_tipoVehiculo e = s_tipo space ->
               restricted_on getDay today (e_placa e)) ->
              negb (has_active_employee (assignments st) (e_id e))
              && String.eqb (e_tipoVehiculo e) (s_tipo space)
              && negb (HelpersMore.isTodayPicoPlaca getDay today (e_placa e))
              = false) as Hn.
    { intros e H.
      destruct (negb (has_active_employee (assignments st) (e_id e))
                && String.eqb (e_tipoVehiculo e) (s_tipo space)
                && negb (HelpersMore.isTodayPicoPlaca getDay today (e_placa e)))
        eqn:E; [|reflexivity].
      apply Hq in E. destruct E as [E1 [E2 E3]]. exfalso. auto. }
    split.
    + intros Hnone. unfold reassignPicoPlacaSpace. rewrite Es.
      rewrite filter_nothing; [reflexivity|].
      intros e He. apply Hn. now apply Hnone.
    + intros l1 employee l2 Hl Hl1 Hfree Htype Hday st'.
      assert (reassignPicoPlacaSpace getDay today newId parkingSpaceId st
              = (st',
                 [mkAlert
                    (Some ("Parqueadero " ++ s_numero space
                           ++ " reasignado temporalmente a "
                           ++ e_nombre employee)) SUCCESS])) as Hr.
      { unfold reassignPicoPlacaSpace. rewrite Es, Hl.
        rewrite filter_first; [reflexivity| |].
        - intros y Hy. apply Hn. now apply Hl1.
        - apply Hq. auto. }
      assert (has_active_employee (assignments st) (e_id employee) = false)
        as Ha.
      { rewrite is_unassigned_code in Hfree. now apply negb_true_iff in Hfree. }
      destruct (@createAssignment_effect today newId
                  (mkForm (e_id employee) parkingSpaceId today (Some today))
                  st space Es) as [H1 [H2 [_ [_ H5]]]].
      split; [exact Hr|]. split; [exact H1|]. split; [exact H2|].
      split; [exact H5|]. split.
      * intros Hx. now apply createAssignment_employee_exclusive.
      * intros Hheld Hx. unfold space_exclusive, st' in Hx. rewrite H1 in Hx.
        rewrite filter_push_active in Hx by reflexivity.
        rewrite map_app in Hx. simpl in Hx.
        apply (active_key a_parqueaderoId) in Hheld.
        apply NoDup_remove_2 in Hx. rewrite app_nil_r in Hx. contradiction.
Qed.

Lemma reassignPicoPlacaSpace_effect_witness :
  map (fun a => (a_empleadoId a, a_parqueaderoId a, a_activa a))
    (assignments
       (fst (reassignPicoPlacaSpace monday "2024-06-03" 100 10 reassign_store)))
  = [(7, 10, true); (8, 10, true)]
  /\ ~ space_exclusive
         (assignments
            (fst (reassignPicoPlacaSpace monday "2024-06-03" 100 10
                    reassign_store))).
Proof.
  destruct (reassignPicoPlacaSpace_effect monday "2024-06-03" 100 10
              reassign_store) as [_ H].
  destruct (H (space_of 10 "ocupado" (Some 7)) eq_refl) as [_ H1].
  destruct (H1 [ana] (mkEmployee 8 "Sol" (Some "JKL330") "carro") [] eq_refl)
    as [Hr [Ha [_ [_ [_ Hx]]]]].
  - intros x [<-|[]] Hf. discriminate.
  - reflexivity.
  - reflexivity.
  - intros [w [H1' H2']]. vm_compute in H1'. vm_compute in H2'. congruence.
  - rewrite Hr. cbn [fst]. split; [now rewrite Ha|]. apply Hx. reflexivity.
Defined.

(** Deleting employee 7, every confirmation accepted: record 1 stays in the
    list, inactive. *)
Lemma onEmployeeDeleted_deactivates_witness :
  map a_id
    (assignments
       (onEmployeeDeleted always_yes "2024-06-03" 7
          (App.manager space_10_assigned))) = [1]
  /\ forall a,
       In a (assignments
               (onEmployeeDeleted always_yes "2024-06-03" 7
                  (App.manager space_10_assigned))) ->
       a_empleadoId a = 7 -> a_activa a = false.
Proof.
  destruct (@onEmployeeDeleted_deactivates "2024-06-03" always_yes 7
              (App.manager space_10_assigned)) as [H1 [H2 _]].
  - reflexivity.
  - simpl. constructor; [simpl; tauto | constructor].
  - split; [exact H1 | exact H2].
Defined.

End QuickAssignment.

(* ===================================================================== *)
(** * parking.js: the parking form and the filtered list *)
(* ===================================================================== *)

Section ParkingForm.

Import Constants Parking ParkingMore HelpersMore Spec.

Lemma isDuplicateNumber_false (spaces : ParkingManager) (numero : string) :
  isDuplicateNumber spaces numero = false -> ~ In numero (map s_numero spaces).
Proof.
  unfold isDuplicateNumber. intros H Hin.
  apply in_map_iff in Hin. destruct Hin as [s [Hs Hin]].
  assert (existsb (fun space => String.eqb (s_numero space) numero) spaces
          = true) as Hex.
  { apply existsb_exists. exists s. split; [exact Hin|].
    now apply String.eqb_eq. }
  congruence.
Qed.

(** The parking form keeps the display numbers unique.  A submission
    either leaves the store as it was and dispatches nothing, or appends
    one space, with the sanitized number of the form, which no space had
    and which is not blank, with no assigned employee, and dispatches
    [parkingSpaceAdded] for it, on which the assignment manager appends
    the same space to its own list. *)
Theorem parking_handleFormSubmit_unique (today : string) (newId : Z)
    (dom : ParkingFields) (spaces : ParkingManager) :
  unique_numbers spaces ->
  let r := handleFormSubmit today newId dom spaces in
  unique_numbers (fst (fst r))
  /\ ((fst (fst r) = spaces /\ snd (fst r) = [])
      \/ exists space,
           fst (fst r) = (spaces ++ [space])%list
           /\ snd (fst r) = [Assignments.parkingSpaceAdded space]
           /\ s_id space = newId
           /\ s_numero space = sanitizeString (numeroParqueadero dom)
           /\ JsStr.trim (s_numero space) <> ""
           /\ ~ In (s_numero space) (map s_numero spaces)
           /\ s_empleadoAsignado space = None
           /\ forall confirms m,
                Assignments.parkingSpaces
                  (App.deliver confirms today (snd (fst r)) m)
                = (Assignments.parkingSpaces m ++ [space])%list).
Proof.
  intros Hu r. unfold r, handleFormSubmit.
  destruct (fv_isValid (validateParkingData (getFormData dom))) eqn:Hv;
    [|split; [exact Hu | left; split; reflexivity]].
  destruct (p_sotano (getFormData dom)) as [sotano|];
    [|split; [exact Hu | left; split; reflexivity]].
  destruct (p_tipo (getFormData dom)) as [tipo|];
    [|split; [exact Hu | left; split; reflexivity]].
  destruct (isDuplicateNumber spaces (p_numero (getFormData dom))) eqn:Hd;
    [split; [exact Hu | left; split; reflexivity]|].
  apply isDuplicateNumber_false in Hd. simpl. split.
  - unfold unique_numbers. rewrite map_app. simpl.
    now apply NoDup_snoc.
  - right. eexists. repeat split; auto.
    unfold validateParkingData in Hv. cbn [fv_isValid] in Hv.
    apply app_length_zero in Hv. destruct Hv as [Hb _].
    destruct (blank (Some (p_numero (getFormData dom)))) eqn:B;
      [discriminate|].
    simpl in B. now apply String.eqb_neq.
Qed.

Lemma parking_handleFormSubmit_unique_witness :
  unique_numbers
    (fst (fst (handleFormSubmit "2024-06-03" 100
                 (mkParkingFields (Some " S1-C002 ") (Some "-1") (Some "carro")
                    None)
                 [space_of 10 "disponible" None]))).
Proof.
  apply parking_handleFormSubmit_unique.
  unfold unique_numbers. simpl. constructor; [simpl; tauto | constructor].
Defined.

End ParkingForm.

Section FilteredList.

Import Constants Parking ParkingMore HelpersMore.

Context {A : Type}.
Variable key : A -> string.

Lemma insert_sorted_perm (x : A) (l : list A) :
  Permutation (insert_sorted key x l) (x :: l).
Proof.
  induction l as [|y l IH]; simpl; [apply Permutation_refl|].
  destruct (String.ltb (key y) (key x)); [|apply Permutation_refl].
  eapply perm_trans; [apply perm_skip, IH | apply perm_swap].
Qed.

Lemma sortBy_perm (l : list A) : Permutation (sortBy key l) l.
Proof.
  induction l as [|x l IH]; simpl; [constructor|].
  eapply perm_trans; [apply insert_sorted_perm | now apply perm_skip].
Qed.

Lemma ltb_leb (a b : string) : String.ltb a b = true -> String.leb a b = true.
Proof.
  unfold String.ltb, String.leb. now destruct (String.compare a b).
Qed.

Lemma not_ltb_leb (a b : string) :
  String.ltb b a = false -> String.leb a b = true.
Proof.
  unfold String.ltb, String.leb. rewrite (String.compare_antisym b a).
  now destruct (String.compare a b).
Qed.

Lemma insert_sorted_sorted (x : A) (l : list A) :
  Sorted (fun a b => String.leb (key a) (key b) = true) l ->
  Sorted (fun a b => String.leb (key a) (key b) = true)
    (insert_sorted key x l).
Proof.
  induction l as [|y l IH]; simpl; intros Hs.
  - repeat constructor.
  - destruct (String.ltb (key y) (key x)) eqn:E.
    + inversion Hs as [|? ? Hl Hhd]; subst. constructor; [now apply IH|].
      destruct l as [|z l]; simpl.
      * constructor. now apply ltb_leb.
      * destruct (String.ltb (key z) (key x)).
        -- inversion Hhd; subst. now constructor.
        -- constructor. now apply ltb_leb.
    + constructor; [exact Hs|]. constructor. now apply not_ltb_leb.
Qed.

Lemma sortBy_sorted (l : list A) :
  Sorted (fun a b => String.leb (key a) (key b) = true) (sortBy key l).
Proof.
  induction l as [|x l IH]; simpl; [constructor|].
  now apply insert_sorted_sorted.
Qed.

End FilteredList.

Section FilteredSpaces.

Import Constants Parking ParkingMore HelpersMore.

Lemma lower_char_idempotent (c : ascii) :
  JsStr.lower_char (JsStr.lower_char c) = JsStr.lower_char c.
Proof. destruct c as [[] [] [] [] [] [] [] []]; reflexivity. Qed.

Lemma toLowerCase_idempotent (s : string) :
  JsStr.toLowerCase (JsStr.toLowerCase s) = JsStr.toLowerCase s.
Proof.
  induction s as [|c s IH]; simpl; [reflexivity|].
  now rewrite lower_char_idempotent, IH.
Qed.

(** The list shown in the parking tab holds exactly the spaces that match
    the filters, each as often as in the store, in ascending order of
    display number; with no filter set it holds every space; and the
    search does not depend on the case of the text typed. *)
Theorem filterParkingSpaces_sorted (filters : Filters)
    (spaces : ParkingManager) :
  let shown := filterParkingSpaces filters spaces in
  Sorted (fun a b => String.leb (s_numero a) (s_numero b) = true) shown
  /\ Permutation shown (filter (matches filters) spaces)
  /\ (forall s, In s shown <-> In s spaces /\ matches filters s = true)
  /\ (filters = mkFilters "" "" "" "" -> Permutation shown spaces)
  /\ filterParkingSpaces
       (mkFilters (JsStr.toLowerCase (f_search filters)) (f_basement filters)
          (f_type filters) (f_status filters)) spaces
     = shown.
Proof.
  intros shown. unfold shown, filterParkingSpaces.
  split; [apply sortBy_sorted|]. split; [apply sortBy_perm|].
  split; [|split].
  - intros s. rewrite <- filter_In. split; apply Permutation_in;
      [apply sortBy_perm | apply Permutation_sym, sortBy_perm].
  - intros ->. eapply perm_trans; [apply sortBy_perm|].
    rewrite (filter_ext (matches (mkFilters "" "" "" "")) (fun _ => true))
      by reflexivity.
    clear. induction spaces as [|s l IH]; simpl; [constructor|].
    now constructor.
  - f_equal. apply filter_ext. intros s. unfold matches. simpl.
    rewrite toLowerCase_idempotent. f_equal. f_equal. f_equal.
    destruct (f_search filters) as [|c q]; reflexivity.
Qed.

Lemma filterParkingSpaces_sorted_witness :
  Permutation
    (filterParkingSpaces (mkFilters "" "" "" "")
       [space_of 11 "disponible" None; space_of 10 "ocupado" (Some 7)])
    [space_of 11 "disponible" None; space_of 10 "ocupado" (Some 7)].
Proof.
  destruct (filterParkingSpaces_sorted (mkFilters "" "" "" "")
              [space_of 11 "disponible" None; space_of 10 "ocupado" (Some 7)])
    as (_ & _ & _ & H & _).
  now apply H.
Defined.

End FilteredSpaces.

(* ===================================================================== *)
(** * app.js: the assignments of the application object *)
(* ===================================================================== *)

Section ApplicationObject.

Import Constants ParkingApp.

Lemma app_create_exclusive (today : string) (newId : Z)
    (fd : Assignments.FormData) (app : AppState) :
  hasActiveAssignment (app_assignments app) (Assignments.empleadoId fd) = false ->
  isParkingSpaceAssigned (app_assignments app) (Assignments.parqueaderoId fd)
  = false ->
  exclusive (app_assignments app) ->
  exclusive (app_assignments (createAssignment today newId fd app)).
Proof.
  intros He Hs [Hx1 Hx2]. unfold exclusive, createAssignment. simpl.
  rewrite filter_push_active by reflexivity. rewrite !map_app. simpl.
  split; apply NoDup_snoc; auto.
  - now apply (no_active_key a_empleadoId).
  - now apply (no_active_key a_parqueaderoId).
Qed.

(** The assignment form of the application object keeps the exclusivity,
    and it decides on the form and the list of assignments alone: the
    employees and the spaces are not consulted, so that an unknown
    employee, an unknown space or a space of another vehicle type is
    accepted as any other. *)
Theorem app_handleAssignmentSubmit_exclusive (today : string) (newId : Z)
    (dom : Assignments.FormFields) (app : AppState) :
  (exclusive (app_assignments app) ->
   exclusive (app_assignments (fst (handleAssignmentSubmit today newId dom app))))
  /\ forall spaces employees,
       let other := mkApp (app_assignments app) spaces employees in
       app_assignments (fst (handleAssignmentSubmit today newId dom other))
       = app_assignments (fst (handleAssignmentSubmit today newId dom app))
       /\ snd (handleAssignmentSubmit today newId dom other)
          = snd (handleAssignmentSubmit today newId dom app).
Proof.
  split.
  - intros Hx. unfold handleAssignmentSubmit.
    destruct (match Assignments.empleadoAsignacion dom with
              | Some v => Js.parseInt v | None => None end) as [e|]; [|exact Hx].
    destruct (match Assignments.parqueaderoAsignacion dom with
              | Some v => Js.parseInt v | None => None end) as [p|]; [|exact Hx].
    destruct (Assignments.fechaInicioField dom) as [inicio|]; [|exact Hx].
    destruct (_ || _ || _)%bool; [exact Hx|].
    destruct (hasActiveAssignment _ e) eqn:He; [exact Hx|].
    destruct (isParkingSpaceAssigned _ p) eqn:Hp; [exact Hx|].
    now apply app_create_exclusive.
  - intros spaces employees other. unfold other, handleAssignmentSubmit.
    cbn [app_assignments].
    destruct (match Assignments.empleadoAsignacion dom with
              | Some v => Js.parseInt v | None => None end) as [e|]; [|auto].
    destruct (match Assignments.parqueaderoAsignacion dom with
              | Some v => Js.parseInt v | None => None end) as [p|]; [|auto].
    destruct (Assignments.fechaInicioField dom) as [inicio|]; [|auto].
    destruct (_ || _ || _)%bool; [auto|].
    destruct (hasActiveAssignment _ e); [auto|].
    destruct (isParkingSpaceAssigned _ p); auto.
Qed.

Lemma app_handleAssignmentSubmit_exclusive_witness :
  exclusive
    (app_assignments
       (fst (handleAssignmentSubmit "2024-06-03" 100 form_7_10
               (mkApp [] [] [])))).
Proof.
  destruct (app_handleAssignmentSubmit_exclusive "2024-06-03" 100 form_7_10
              (mkApp [] [] [])) as [H _].
  apply H. split; constructor.
Defined.

Variable today : string.
Variable genId : nat -> Z.

Lemma app_autoLoop_exclusive (emps : list Employee) :
  forall (app : AppState) (count : nat),
    space_exclusive (app_assignments app) ->
    space_exclusive (app_assignments (fst (autoLoop today genId emps app count)))
    /\ (NoDup (map e_id emps) ->
        (forall e, In e emps ->
           hasActiveAssignment (app_assignments app) (e_id e) = false) ->
        employee_exclusive (app_assignments app) ->
        employee_exclusive
          (app_assignments (fst (autoLoop today genId emps app count)))).
Proof.
  induction emps as [|e rest IH]; intros app count Hs; [simpl; auto|].
  cbn [autoLoop].
  destruct (find _ (ParkingMore.getAvailableSpaces _ _)) as [space|] eqn:Ef.
  - apply find_some in Ef. destruct Ef as [_ Hfree].
    apply negb_true_iff in Hfree.
    set (fd := {| Assignments.empleadoId := e_id e;
                  Assignments.parqueaderoId := s_id space;
                  Assignments.fechaInicio := today;
                  Assignments.fechaFin := None |}).
    assert (space_exclusive
              (app_assignments (createAssignment today (genId count) fd app)))
      as Hs'.
    { unfold space_exclusive, createAssignment. simpl.
      rewrite filter_push_active by reflexivity. rewrite map_app. simpl.
      apply NoDup_snoc; [|exact Hs].
      now apply (no_active_key a_parqueaderoId). }
    destruct (IH (createAssignment today (genId count) fd app) (S count) Hs')
      as [H1 H2].
    split; [exact H1|]. intros Hnd Hun Hx.
    inversion Hnd as [|? ? Hnot Hrest]; subst. apply H2; [exact Hrest| |].
    + intros e' He'. unfold createAssignment, hasActiveAssignment. simpl.
      rewrite existsb_app. simpl.
      fold (hasActiveAssignment (app_assignments app) (e_id e')).
      rewrite (Hun e') by now right. simpl.
      destruct (e_id e =? e_id e') eqn:E; [|reflexivity].
      apply Z.eqb_eq in E. exfalso. apply Hnot. rewrite E. now apply in_map.
    + unfold employee_exclusive, createAssignment. simpl.
      rewrite filter_push_active by reflexivity. rewrite map_app. simpl.
      apply NoDup_snoc; [|exact Hx].
      apply (no_active_key a_empleadoId). apply Hun. now left.
  - destruct (IH app count Hs) as [H1 H2]. split; [exact H1|].
    intros Hnd Hun Hx. inversion Hnd; subst. apply H2; auto.
    intros e' He'. apply Hun. now right.
Qed.

(** The automatic assignment of the application object reads the
    assignments anew for every employee: it never gives a space a second
    active assignment, whatever the store; and it never gives an employee a
    second one when the employee ids are pairwise distinct. *)
Theorem app_handleAutoAssignment_exclusive (app : AppState) :
  (space_exclusive (app_assignments app) ->
   space_exclusive
     (app_assignments (fst (handleAutoAssignment today genId app))))
  /\ (NoDup (map e_id (app_employees app)) ->
      exclusive (app_assignments app) ->
      exclusive (app_assignments (fst (handleAutoAssignment today genId app)))).
Proof.
  unfold handleAutoAssignment.
  set (un := filter (fun emp => negb (hasActiveAssignment (app_assignments app)
                                        (e_id emp))) (app_employees app)).
  assert (forall e, In e un ->
            hasActiveAssignment (app_assignments app) (e_id e) = false) as Hun.
  { intros e He. unfold un in He. apply filter_In in He.
    destruct He as [_ He]. now apply negb_true_iff. }
  split.
  - intros Hs. destruct (app_autoLoop_exclusive un app 0 Hs) as [H _].
    destruct un; [exact Hs|].
    now destruct (autoLoop today genId _ app 0).
  - intros Hnd [Hx1 Hx2].
    destruct (app_autoLoop_exclusive un app 0 Hx2) as [H1 H2].
    assert (NoDup (map e_id un)) as Hnd'
      by (unfold un; now apply NoDup_map_filter).
    specialize (H2 Hnd' Hun Hx1).
    destruct un; [now split|].
    destruct (autoLoop today genId _ app 0). now split.
Qed.

End ApplicationObject.

Lemma app_handleAutoAssignment_exclusive_witness :
  exclusive
    (ParkingApp.app_assignments
       (fst (ParkingApp.handleAutoAssignment "2024-06-03" ids_from_100
               (ParkingApp.mkApp []
                  [space_of 10 "disponible" None] [ana])))).
Proof.
  destruct (app_handleAutoAssignment_exclusive "2024-06-03" ids_from_100
              (ParkingApp.mkApp [] [space_of 10 "disponible" None] [ana]))
    as [_ H].
  apply H.
  - simpl. constructor; [simpl; tauto | constructor].
  - split; constructor.
Defined.

Lemma filter_keeps_exclusive (key : Assignment -> Z) (p : Assignment -> bool)
    (asgs : list Assignment) :
  NoDup (map key (filter a_activa asgs)) ->
  NoDup (map key (filter a_activa (filter p asgs))).
Proof.
  induction asgs as [|a l IH]; simpl; intros Hnd; [constructor|].
  destruct (p a); simpl.
  - destruct (a_activa a); simpl in *; [|now apply IH].
    inversion Hnd as [|? ? Hnot Hl]; subst. constructor; [|now apply IH].
    intros Hin. apply Hnot. apply in_map_iff in Hin.
    destruct Hin as [x [Hx Hin]]. apply filter_In in Hin.
    destruct Hin as [Hin Hact]. apply filter_In in Hin.
    apply in_map_iff. exists x. split; [exact Hx|].
    apply filter_In. tauto.
  - destruct (a_activa a); simpl in *; [|now apply IH].
    inversion Hnd; subst. now apply IH.
Qed.

(** Deleting a space and the list of the application object.  When the
    space is unknown or the user declines, nothing is dispatched and the
    spaces and the list stay as they were.  When the space exists and the
    user confirms, the deletion goes through: the event is dispatched, the
    spaces with the id are removed from the parking manager and the others
    stay, in order; no record of the space, active or not, is left in the
    list of the application object, the records of the other spaces stay,
    in order, and the exclusivity is kept. *)
Theorem app_space_deletion_drops_records (confirmed : bool) (id : Z)
    (app : ParkingApp.AppState) :
  let r := Parking.deleteParkingSpace confirmed id (ParkingApp.app_spaces app) in
  let app' := fold_left (fun a ev => ParkingApp.onEvent ev a) (snd r) app in
  (find (fun s => s_id s =? id) (ParkingApp.app_spaces app) = None
   \/ confirmed = false ->
   snd r = [] /\ fst r = ParkingApp.app_spaces app /\ app' = app)
  /\ (forall space,
        find (fun s => s_id s =? id) (ParkingApp.app_spaces app) = Some space ->
        confirmed = true ->
        snd r = [Assignments.parkingSpaceDeleted id]
        /\ fst r = filter (fun s => negb (s_id s =? id))
                     (ParkingApp.app_spaces app)
        /\ (forall s, In s (fst r) <-> In s (ParkingApp.app_spaces app)
                                        /\ s_id s <> id)
        /\ ParkingApp.app_assignments app'
           = filter (fun a => negb (a_parqueaderoId a =? id))
               (ParkingApp.app_assignments app)
        /\ (forall a, In a (ParkingApp.app_assignments app') ->
                      a_parqueaderoId a <> id)
        /\ (forall a, In a (ParkingApp.app_assignments app) ->
                      a_parqueaderoId a <> id ->
                      In a (ParkingApp.app_assignments app'))
        /\ (exclusive (ParkingApp.app_assignments app) ->
            exclusive (ParkingApp.app_assignments app'))).
Proof.
  intros r app'. unfold app', r, Parking.deleteParkingSpace. split.
  - intros [H|H].
    + rewrite H. simpl. auto.
    + rewrite H. destruct (find _ (ParkingApp.app_spaces app)); simpl; auto.
  - intros space Hs Hc. rewrite Hs, Hc. simpl.
    split; [reflexivity|]. split; [reflexivity|]. split; [|split; [|split; [|split]]].
    + intros s. rewrite filter_In, negb_true_iff, Z.eqb_neq. reflexivity.
    + reflexivity.
    + intros a Ha. apply filter_In in Ha. destruct Ha as [_ Ha].
      apply negb_true_iff in Ha. now apply Z.eqb_neq.
    + intros a Ha Hne. apply filter_In. split; [exact Ha|].
      apply negb_true_iff. now apply Z.eqb_neq.
    + intros [H1 H2]. split.
      * now apply (filter_keeps_exclusive a_empleadoId).
      * now apply (filter_keeps_exclusive a_parqueaderoId).
Qed.

Lemma app_space_deletion_drops_records_witness :
  ParkingApp.app_assignments
    (fold_left (fun a ev => ParkingApp.onEvent ev a)
       (snd (Parking.deleteParkingSpace true 10 [space_of 10 "ocupado" (Some 7)]))
       (ParkingApp.mkApp
          [mkAssignment 1 7 10 "2024-05-02" None true "2024-05-02"]
          [space_of 10 "ocupado" (Some 7)] [ana])) = []
  /\ fst (Parking.deleteParkingSpace true 10 [space_of 10 "ocupado" (Some 7)])
     = [].
Proof.
  destruct (app_space_deletion_drops_records true 10
              (ParkingApp.mkApp
                 [mkAssignment 1 7 10 "2024-05-02" None true "2024-05-02"]
                 [space_of 10 "ocupado" (Some 7)] [ana])) as [_ H].
  destruct (H (space_of 10 "ocupado" (Some 7)) eq_refl eq_refl)
    as (_ & H2 & _ & H4 & _).
  split; [exact H4 | exact H2].
Defined.

Section MoreOfTheDay.

Import Helpers Spec.

(** What the entries of the daily availability carry.  An entry of the
    available array names no employee; an entry of the other two arrays
    names the first employee of the roster whose id is the reference of
    the space; every entry is about a space of the roster that is not in
    maintenance. *)
Theorem availability_entries (getDay : string -> option nat)
    (spaces : list ParkingSpace) (employees : list Employee) (date : string) :
  let r := calculateDailyAvailability getDay spaces employees date in
  (forall entry, In entry (available r) ->
     entry_empleado entry = None
     /\ In (entry_space entry) spaces
     /\ s_estado (entry_space entry) <> "mantenimiento")
  /\ (forall entry, In entry (picoPlaca r ++ occupied r)%list ->
        In (entry_space entry) spaces
        /\ s_estado (entry_space entry) <> "mantenimiento"
        /\ exists ref emp,
             s_empleadoAsignado (entry_space entry) = Some ref
             /\ ref <> 0
             /\ find (fun e => e_id e =? ref) employees = Some emp
             /\ e_id emp = ref
             /\ entry_empleado entry = Some emp).
Proof.
  intros r.
  destruct (availability_classes getDay employees spaces date)
    as [Ha [Hp Ho]].
  fold r in Ha, Hp, Ho. set (d := getDayOfWeek getDay date) in *.
  assert (forall c s, In s (in_class employees d c spaces) ->
            c <> Maintenance -> s_estado s <> "mantenimiento") as Hnm.
  { intros c s Hin Hc Hm. apply in_class_iff in Hin. destruct Hin as [_ Hin].
    apply (maintenance_class employees d) in Hm. congruence. }
  assert (forall c s, In s (in_class employees d c spaces) ->
            c = Restricted \/ c = Occupied ->
            exists ref emp,
              s_empleadoAsignado s = Some ref /\ ref <> 0
              /\ find (fun e => e_id e =? ref) employees = Some emp
              /\ e_id emp = ref
              /\ entry_empleado (entry_of employees d s) = Some emp) as Hemp.
  { intros c s Hin Hc. apply in_class_iff in Hin. destruct Hin as [_ Hin].
    unfold entry_of. rewrite Hin. revert Hin.
    unfold class_of, assigned_employee.
    destruct (String.eqb _ _); [intros <-; destruct Hc; discriminate|].
    destruct (s_empleadoAsignado s) as [ref|]; simpl;
      [|intros <-; destruct Hc; discriminate].
    destruct (ref =? 0) eqn:Ez; simpl;
      [intros <-; destruct Hc; discriminate|].
    destruct (find _ employees) as [emp|] eqn:Ef;
      [|intros <-; destruct Hc; discriminate].
    intros Hin. exists ref, emp. apply Z.eqb_neq in Ez.
    pose proof (find_some _ _ Ef) as [_ Hid]. apply Z.eqb_eq in Hid.
    repeat split; auto. destruct Hc; subst c; reflexivity. }
  split.
  - intros entry Hin. rewrite Ha in Hin. apply in_map_iff in Hin.
    destruct Hin as [s [<- Hs]].
    assert (class_of employees d s = Available) as Hc
      by (apply in_class_iff in Hs; tauto).
    unfold entry_of. rewrite Hc. simpl. repeat split.
    + apply in_class_iff in Hs. tauto.
    + eapply Hnm; [exact Hs | discriminate].
  - intros entry Hin. apply in_app_iff in Hin. rewrite Hp, Ho in Hin.
    destruct Hin as [Hin|Hin]; apply in_map_iff in Hin;
      destruct Hin as [s [<- Hs]];
      (assert (entry_space (entry_of employees d s) = s) as ->
         by (unfold entry_of; now destruct (class_of employees d s)));
      (split; [apply in_class_iff in Hs; tauto|]);
      (split; [eapply Hnm; [exact Hs | discriminate]|]);
      eapply Hemp; eauto.
Qed.

End MoreOfTheDay.

Section EndingTwice.

Import Constants Assignments.

Lemma update_first_twice {A : Type} (p : A -> bool) (f : A -> A) (l : list A) :
  (forall x, p (f x) = p x) -> (forall x, f (f x) = f x) ->
  update_first p f (update_first p f l) = update_first p f l.
Proof.
  intros Hp Hf. induction l as [|x l IH]; simpl; [reflexivity|].
  destruct (p x) eqn:E; simpl.
  - now rewrite Hp, E, Hf.
  - now rewrite E, IH.
Qed.

Lemma find_update_first {A : Type} (p : A -> bool) (f : A -> A) (l : list A) :
  (forall x, p (f x) = p x) ->
  find p (update_first p f l) = option_map f (find p l).
Proof.
  intros Hp. induction l as [|x l IH]; simpl; [reflexivity|].
  destruct (p x) eqn:E; simpl.
  - now rewrite Hp, E.
  - now rewrite E, IH.
Qed.

(** Ending an assignment twice on the same day is ending it once: the
    second call, confirmed or not, leaves the stores as the first left
    them. *)
Theorem endAssignment_twice (confirmed : bool) (today : string) (id : Z)
    (st : AssignmentManager) :
  fst (endAssignment confirmed today id
         (fst (endAssignment true today id st)))
  = fst (endAssignment true today id st).
Proof.
  unfold endAssignment at 2 3.
  destruct (find _ (assignments st)) as [a|] eqn:Ef.
  - simpl. unfold endAssignment. cbn [assignments parkingSpaces employees].
    rewrite find_update_first by reflexivity. rewrite Ef. simpl.
    destruct confirmed; simpl; [|reflexivity].
    rewrite !update_first_twice by reflexivity. reflexivity.
  - simpl. unfold endAssignment. rewrite Ef.
    reflexivity.
Qed.

End EndingTwice.

Lemma availability_entries_witness :
  In (space_of 10 "ocupado" (Some 7)) [space_of 10 "ocupado" (Some 7)]
  /\ exists ref emp,
       s_empleadoAsignado (space_of 10 "ocupado" (Some 7)) = Some ref
       /\ ref <> 0
       /\ find (fun e => e_id e =? ref) [ana] = Some emp
       /\ e_id emp = ref
       /\ Some ana = Some emp.
Proof.
  destruct (availability_entries monday [space_of 10 "ocupado" (Some 7)] [ana]
              "2024-06-03") as [_ H].
  destruct (H (Helpers.mkEntry (space_of 10 "ocupado" (Some 7)) (Some ana)
                 "Pico y placa - lunes")) as [H1 [_ H2]].
  - left. reflexivity.
  - split; [exact H1 | exact H2].
Defined.

Section ApplicationRoundTrip.

Import Constants ParkingApp.

(** In the application object too, assigning and then ending restores the
    spaces: when the first space with the id was available with no
    employee and the id of the new record is fresh, ending the record
    gives back the spaces as they were and leaves the record in the list,
    inactive and closed; and the exclusivity that held after the assignment
    still holds after the ending. *)
Theorem app_assign_then_end_restores (today later : string) (newId : Z)
    (fd : Assignments.FormData) (app : AppState) (space : ParkingSpace) :
  find (fun s => s_id s =? Assignments.parqueaderoId fd) (app_spaces app)
  = Some space ->
  s_estado space = "disponible" -> s_empleadoAsignado space = None ->
  ~ In newId (map a_id (app_assignments app)) ->
  let app1 := createAssignment today newId fd app in
  let app2 := fst (endAssignment true later newId app1) in
  app_spaces app2 = app_spaces app
  /\ app_employees app2 = app_employees app
  /\ app_assignments app2
     = (app_assignments app
        ++ [mkAssignment newId (Assignments.empleadoId fd)
              (Assignments.parqueaderoId fd) (Assignments.fechaInicio fd)
              (Some later) false today])%list
  /\ (exclusive (app_assignments app1) -> exclusive (app_assignments app2)).
Proof.
  intros Hs Hestado Hnone Hfresh app1 app2.
  set (a := mkAssignment newId (Assignments.empleadoId fd)
              (Assignments.parqueaderoId fd) (Assignments.fechaInicio fd)
              (Assignments.fechaFin fd) true today).
  destruct (@find_fresh_last (app_assignments app) a) as [Hfind Hupd];
    [exact Hfresh|].
  assert (app2 = {| app_assignments :=
                      (app_assignments app
                       ++ [Assignments.end_record later a])%list;
                    app_spaces := app_spaces app;
                    app_employees := app_employees app |}) as Happ2.
  { unfold app2, app1, endAssignment, createAssignment.
    cbn [app_assignments]. fold a. change newId with (a_id a).
    rewrite Hfind. simpl negb. cbv iota.
    cbn [fst app_spaces app_employees]. rewrite Hupd. f_equal.
    cbn [a_parqueaderoId a]. unfold ParkingMore.updateParkingSpace.
    apply (update_first_undo _ _ _ _ Hs).
    - simpl. apply find_some in Hs. tauto.
    - destruct space; simpl in *. subst. reflexivity. }
  rewrite Happ2. simpl. repeat split.
  - unfold app1, createAssignment in H. cbn [app_assignments] in H.
    fold a in H. destruct H as [H _].
    rewrite filter_push_active in H by reflexivity.
    rewrite filter_app. simpl. rewrite app_nil_r.
    rewrite map_app in H. now apply NoDup_app_remove_r in H.
  - unfold app1, createAssignment in H. cbn [app_assignments] in H.
    fold a in H. destruct H as [_ H].
    rewrite filter_push_active in H by reflexivity.
    rewrite filter_app. simpl. rewrite app_nil_r.
    rewrite map_app in H. now apply NoDup_app_remove_r in H.
Qed.

Lemma app_assign_then_end_restores_witness :
  app_spaces
    (fst (endAssignment true "2024-06-04" 100
            (createAssignment "2024-06-03" 100
               (Assignments.mkForm 7 10 "2024-06-03" None)
               (mkApp [] [space_of 10 "disponible" None] [ana]))))
  = [space_of 10 "disponible" None].
Proof.
  apply (@app_assign_then_end_restores "2024-06-03" "2024-06-04" 100
           (Assignments.mkForm 7 10 "2024-06-03" None)
           (mkApp [] [space_of 10 "disponible" None] [ana])
           (space_of 10 "disponible" None));
    [reflexivity | reflexivity | reflexivity | simpl; tauto].
Defined.

End ApplicationRoundTrip.
